(** * ccrbb: cross-channel reply blocker (src/worker.js)

    A shallow embedding of the Cloudflare worker in [src/worker.js] and the
    properties of its classifier, metadata cache, API client, moderation
    action, router and rate limiter.

    Conventions of the embedding.
    - JavaScript values that reach the worker come from [JSON.parse]
      (webhook bodies, API responses); they are modelled by [JsVal].
      Numbers are the integers [Z] (identifiers and error codes of the
      platform are integers); fractional numbers are outside the model.
    - An [async] function is a computation in the monad [M]: it threads
      the [World] (clock, the two module-level [Map]s, the remote service,
      the trace of effects) and ends normally or with a thrown error.
    - A property read whose base the source has just tested for
      truthiness is written with the total [field]; a read whose base may
      be [undefined] or [null] is written with [get], which throws.
    - A substitution [${v}] of a template literal is written with
      [interpolate], which throws where [ToString] does: on an object
      with an own [toString] key (no value of [JSON.parse] is callable)
      and on an array that holds one.  The [console] calls are kept only
      through these substitutions; what they print is not modelled.
    - A string is the UTF-8 encoding of the JavaScript string. *)

From Stdlib Require Import ZArith String Ascii List Lia Bool.
From stdpp Require Import base gmap strings list pretty.

Set Warnings "-register-all".

Local Open Scope string_scope.
Local Open Scope Z_scope.

(** ** JavaScript values *)

Inductive JsVal : Type :=
| JUndefined
| JNull
| JBool (b : bool)
| JNum (n : Z)
| JStr (s : string)
| JArr (items : list JsVal)
| JObj (fields : list (string * JsVal)).

(** [ToBoolean]: what [if (v)], [!v], [a && b] and [a || b] test. *)
Definition truthy (v : JsVal) : bool :=
  match v with
  | JUndefined | JNull => false
  | JBool b => b
  | JNum n => negb (n =? 0)
  | JStr s => negb (String.eqb s "")
  | JArr _ | JObj _ => true
  end.

(** [a === b].  Two objects (or arrays) compared by the worker always come
    from two different [JSON.parse] results, hence are never the same
    reference. *)
Definition strict_eq (a b : JsVal) : bool :=
  match a, b with
  | JUndefined, JUndefined => true
  | JNull, JNull => true
  | JBool x, JBool y => Bool.eqb x y
  | JNum x, JNum y => x =? y
  | JStr x, JStr y => String.eqb x y
  | _, _ => false
  end.

(** [a && b] and [a || b] on values ([b] has no effect of its own wherever
    the worker uses them). *)
Definition js_and (a b : JsVal) : JsVal := if truthy a then b else a.
Definition js_or (a b : JsVal) : JsVal := if truthy a then a else b.

Fixpoint assoc (k : string) (fs : list (string * JsVal)) : option JsVal :=
  match fs with
  | [] => None
  | (k', v) :: rest => if String.eqb k k' then Some v else assoc k rest
  end.

(** [v.k] for a base that is not [undefined]/[null]: own property of an
    object, [undefined] otherwise (none of the names the worker reads is
    a built-in property of a primitive or of an array). *)
Definition field (v : JsVal) (k : string) : JsVal :=
  match v with
  | JObj fs => default JUndefined (assoc k fs)
  | _ => JUndefined
  end.

Definition nullish (v : JsVal) : bool :=
  match v with
  | JUndefined | JNull => true
  | _ => false
  end.

Definition join_with (sep : string) (l : list string) : string :=
  match l with
  | [] => ""
  | x :: rest => fold_left (fun acc y => acc +:+ sep +:+ y) rest x
  end.

(** Whether [ToString(v)] returns.  For an object it calls the method
    [toString], then [valueOf]: an own [toString] key of a parsed object
    holds a value that is not callable, the [valueOf] that is then tried
    is not callable either or returns the object itself, and a
    [TypeError] is thrown; without that key [Object.prototype.toString]
    answers.  For an array [Array.prototype.join] converts every element
    that is neither [undefined] nor [null]. *)
Fixpoint printable (v : JsVal) : bool :=
  match v with
  | JArr items => forallb printable items
  | JObj fields =>
      match assoc "toString" fields with
      | Some _ => false
      | None => true
      end
  | _ => true
  end.

(** The string [ToString(v)] returns when it returns ([printable]);
    integers print in decimal (exact below 10^21). *)
Fixpoint toString (v : JsVal) : string :=
  match v with
  | JUndefined => "undefined"
  | JNull => "null"
  | JBool true => "true"
  | JBool false => "false"
  | JNum n => pretty n
  | JStr s => s
  | JArr items =>
      join_with ","
        (List.map (fun x => match x with
                            | JUndefined | JNull => ""
                            | _ => toString x
                            end) items)
  | JObj _ => "[object Object]"
  end.

(** [s.startsWith(p)] and [s.includes(sub)]. *)
Fixpoint startsWith (p s : string) : bool :=
  match p, s with
  | EmptyString, _ => true
  | String a p', String b s' => if Ascii.eqb a b then startsWith p' s' else false
  | String _ _, EmptyString => false
  end.

Fixpoint includes (sub s : string) : bool :=
  if startsWith sub s then true
  else match s with
       | EmptyString => false
       | String _ s' => includes sub s'
       end.

Definition utf8 (bytes : list nat) : string :=
  fold_right (fun b s => String (ascii_of_nat b) s) EmptyString bytes.

(** The code points [trim] strips, in UTF-8: the white space of
    ECMAScript (TAB, VT, FF, SP, U+00A0, U+FEFF and the space separators
    U+1680, U+2000 to U+200A, U+202F, U+205F, U+3000) and its line
    terminators (LF, CR, U+2028, U+2029). *)
Definition whiteSpace : list string :=
  List.map utf8
    [[9]; [10]; [11]; [12]; [13]; [32];
     [194; 160];
     [225; 154; 128];
     [226; 128; 128]; [226; 128; 129]; [226; 128; 130]; [226; 128; 131];
     [226; 128; 132]; [226; 128; 133]; [226; 128; 134]; [226; 128; 135];
     [226; 128; 136]; [226; 128; 137]; [226; 128; 138];
     [226; 128; 168]; [226; 128; 169]; [226; 128; 175];
     [226; 129; 159];
     [227; 128; 128];
     [239; 187; 191]]%nat.

(** [s] without its prefix [p], when it has that prefix. *)
Fixpoint dropPrefix (p s : string) : option string :=
  match p, s with
  | EmptyString, _ => Some s
  | String a p', String b s' => if Ascii.eqb a b then dropPrefix p' s' else None
  | String _ _, EmptyString => None
  end.

Fixpoint dropFirst (prefixes : list string) (s : string) : option string :=
  match prefixes with
  | [] => None
  | p :: rest =>
      match dropPrefix p s with
      | Some s' => Some s'
      | None => dropFirst rest s
      end
  end.

(** Strip leading members of [spaces]; every step removes a byte at
    least, so [fuel] the length of the string is enough. *)
Fixpoint stripLeading (fuel : nat) (spaces : list string) (s : string)
  : string :=
  match fuel with
  | O => s
  | S fuel' =>
      match dropFirst spaces s with
      | Some s' => stripLeading fuel' spaces s'
      | None => s
      end
  end.

Definition trim_start (s : string) : string :=
  stripLeading (String.length s) whiteSpace s.

(** The end is stripped on the reversed bytes: a lead byte of UTF-8 is
    never a continuation byte, so a string that ends with the bytes of
    a code point ends with that code point. *)
Definition trim_end (s : string) : string :=
  String.rev (stripLeading (String.length s) (List.map String.rev whiteSpace)
                (String.rev s)).

(** [s.trim()] *)
Definition trim (s : string) : string := trim_end (trim_start s).

(** ** Configuration (lines 14-23) *)

Record Config := {
  TELEGRAM_API_URL : string;
  WARNING_MESSAGE_TEXT : string;
  WARNING_AUTO_DELETE_DELAY : Z;
  REQUEST_TIMEOUT : Z;
  MAX_RETRIES : nat;
  CACHE_TTL : Z;
  RATE_LIMIT_WINDOW : Z;
  MAX_REQUESTS_PER_WINDOW : nat
}.

Definition CONFIG : Config := {|
  TELEGRAM_API_URL := "https://api.telegram.org/bot";
  WARNING_MESSAGE_TEXT := "⚠️ 本群禁止跨频道回复内容";
  WARNING_AUTO_DELETE_DELAY := 10000;
  REQUEST_TIMEOUT := 30000;
  MAX_RETRIES := 3;
  CACHE_TTL := 300000;
  RATE_LIMIT_WINDOW := 60000;
  MAX_REQUESTS_PER_WINDOW := 30
|}.

Record Env := { BOT_TOKEN : option string }.

(** ** The world an invocation runs in *)

Inductive JsError :=
| TypeError       (* property read of undefined/null, call of a non-function,
                     conversion to string of an unprintable value *)
| SyntaxError     (* a body that is not JSON *)
| HttpError       (* the Error thrown on !response.ok *)
| NetworkError    (* fetch rejected *)
| AbortError      (* fetch aborted by the request timeout *)
| OutOfFuel.      (* recursion bound of the model; shown unreachable *)

(** [error.message]: only the kind of the error is kept. *)
Definition errorMessage (e : JsError) : string :=
  match e with
  | TypeError => "TypeError"
  | SyntaxError => "SyntaxError"
  | HttpError => "HTTP error"
  | NetworkError => "network error"
  | AbortError => "The operation was aborted"
  | OutOfFuel => "recursion bound"
  end.

(** What one [fetch] to the platform comes back with. *)
Inductive FetchOutcome :=
| FetchRejected (e : JsError)
| FetchResponse (ok : bool) (body : option JsVal).

Inductive Event :=
| EvFetch (method : string) (params : JsVal) (retryCount : nat)
| EvSleep (ms : Z)
| EvWaitUntil (chatId messageId : JsVal) (delayMs : Z).

Record CacheEntry := { data : JsVal; timestamp : Z }.

(** The clock advances by the delays the worker waits for ([sleep]);
    between two invocations the environment moves it ([setClock]). *)
Record World := {
  clock : Z;                                 (* Date.now() *)
  chatInfoCache : gmap string CacheEntry;    (* line 26 *)
  rateLimitTracker : gmap string (list Z);   (* line 29 *)
  remote : nat -> FetchOutcome;              (* outcome of the k-th fetch *)
  fetched : nat;                             (* fetches issued so far *)
  trace : list Event                         (* effects, oldest first *)
}.

Inductive Completion (A : Type) :=
| Normal (a : A)
| Throw (e : JsError).
Arguments Normal {A} a.
Arguments Throw {A} e.

Definition M (A : Type) : Type := World -> Completion A * World.

Definition ret {A} (a : A) : M A := fun w => (Normal a, w).

Definition bind {A B} (c : M A) (k : A -> M B) : M B :=
  fun w => match c w with
           | (Normal a, w') => k a w'
           | (Throw e, w') => (Throw e, w')
           end.

Definition throw {A} (e : JsError) : M A := fun w => (Throw e, w).

(** [try { body } catch (error) { handler }] *)
Definition try_catch {A} (body : M A) (handler : JsError -> M A) : M A :=
  fun w => match body w with
           | (Normal a, w') => (Normal a, w')
           | (Throw e, w') => handler e w'
           end.

Notation "'do' x <- c1 ; c2" := (bind c1 (fun x => c2))
  (at level 10, x name, c1 at level 100, c2 at level 200).
Notation "'step' c1 ; c2" := (bind c1 (fun _ => c2))
  (at level 10, c1 at level 100, c2 at level 200).

Definition get (v : JsVal) (k : string) : M JsVal :=
  if nullish v then throw TypeError else ret (field v k).

(** A substitution [${v}] of a template literal. *)
Definition interpolate (v : JsVal) : M string :=
  if printable v then ret (toString v) else throw TypeError.

Definition dateNow : M Z := fun w => (Normal (clock w), w).

Definition emit (e : Event) : M unit := fun w =>
  (Normal tt,
   {| clock := clock w; chatInfoCache := chatInfoCache w;
      rateLimitTracker := rateLimitTracker w; remote := remote w;
      fetched := fetched w; trace := (trace w ++ [e])%list |}).

(** [await new Promise(resolve => setTimeout(resolve, ms))] *)
Definition sleep (ms : Z) : M unit := fun w =>
  (Normal tt,
   {| clock := clock w + ms; chatInfoCache := chatInfoCache w;
      rateLimitTracker := rateLimitTracker w; remote := remote w;
      fetched := fetched w; trace := (trace w ++ [EvSleep ms])%list |}).

(** [await fetch(url, ...)]: the next outcome of the remote service. *)
Definition fetch (method : string) (params : JsVal) (retryCount : nat)
  : M (bool * option JsVal) := fun w =>
  let w' := {| clock := clock w; chatInfoCache := chatInfoCache w;
               rateLimitTracker := rateLimitTracker w; remote := remote w;
               fetched := S (fetched w);
               trace := (trace w ++ [EvFetch method params retryCount])%list |} in
  match remote w (fetched w) with
  | FetchRejected e => (Throw e, w')
  | FetchResponse ok body => (Normal (ok, body), w')
  end.

Definition getCache : M (gmap string CacheEntry) :=
  fun w => (Normal (chatInfoCache w), w).

Definition putCache (c : gmap string CacheEntry) : M unit := fun w =>
  (Normal tt,
   {| clock := clock w; chatInfoCache := c;
      rateLimitTracker := rateLimitTracker w; remote := remote w;
      fetched := fetched w; trace := trace w |}).

Definition getTracker : M (gmap string (list Z)) :=
  fun w => (Normal (rateLimitTracker w), w).

Definition putTracker (t : gmap string (list Z)) : M unit := fun w =>
  (Normal tt,
   {| clock := clock w; chatInfoCache := chatInfoCache w;
      rateLimitTracker := t; remote := remote w;
      fetched := fetched w; trace := trace w |}).

(** ** Requests, responses and classification results *)

Record Request := {
  req_method : string;                 (* request.method *)
  req_protocol : string;               (* new URL(request.url).protocol *)
  req_host : string;                   (* new URL(request.url).host *)
  req_pathname : string;               (* new URL(request.url).pathname *)
  req_headers : gmap string string;    (* request.headers *)
  req_json : option JsVal              (* request.json(); None: it rejects *)
}.

Inductive ResponseBody :=
| BodyText (s : string)
| BodyJson (v : JsVal).

Record Response := {
  status : Z;
  body : ResponseBody;
  headers : list (string * string)
}.

Record RateLimitResult := { allowed : bool; count : nat }.

Inductive ReplyType :=
| none
| external_reply
| forward_from_channel
| sender_chat_channel
| hidden_forward
| channel_signature.

Record ClassificationResult := {
  isCrossChannel : bool;
  isExternal : bool;
  channelInfo : JsVal;
  replyType : ReplyType
}.

(** What the [try] block of [makeApiRequest] ends with: a value to
    return, or the tail call [return makeApiRequest(..., retryCount + 1)],
    whose promise is returned without [await] and is therefore not
    guarded by the enclosing [try]. *)
Inductive Attempt :=
| Done (v : JsVal)
| Retry.

(** [request.headers.get(name)] as a value ([null] when absent). *)
Definition header (request : Request) (name : string) : JsVal :=
  match req_headers request !! name with
  | Some s => JStr s
  | None => JNull
  end.

Definition typeof_object (v : JsVal) : bool :=
  match v with
  | JNull | JArr _ | JObj _ => true
  | _ => false
  end.

(** The two fixed texts of the private-chat flow. *)
Definition newline : string := String "010"%char EmptyString.
Definition quote : string := String "034"%char EmptyString.

(** The greeting of lines 297-314. *)
Definition startMessage : string :=
  String.concat newline
    ["🤖 跨频道回复拦截机器人";
     "";
     "📋 **功能说明**";
     "本机器人可以自动删除 Telegram 群组中的跨频道回复消息，区分已关联频道（允许）和外部频道（禁止）。";
     "";
     "🔧 **使用方法**";
     "• 将机器人拉进群组";
     "• 设置为管理员并给予" +:+ quote +:+ "删除消息" +:+ quote +:+ "和" +:+ quote +:+ "发送消息" +:+ quote +:+ "权限";
     "• 无需任何其他配置，机器人自动开始工作";
     "";
     "📖 **开源仓库**";
     "https://github.com/SCSHIRKER/ccrbb";
     "";
     "👨‍💻 **作者**";
     "@as24400";
     "";
     "💡 **原理**";
     "机器人会自动区分关联频道回复（允许）和外部频道回复（删除并警告）。"].

(** The help text of lines 328-330. *)
Definition helpMessage : string :=
  String.concat newline
    ["❓ 请发送 /start 查看使用说明";
     "";
     "或者直接将我添加到群组中并设为管理员即可开始使用。"].

(** ** The worker *)

Section Worker.

Variable cfg : Config.
Variable env : Env.

(** *** getClientIP (lines 108-112) *)
Definition getClientIP (request : Request) : string :=
  match js_or (header request "CF-Connecting-IP")
              (js_or (header request "X-Forwarded-For") (JStr "unknown")) with
  | JStr s => s
  | _ => "unknown"
  end.

(** *** checkRateLimit (lines 119-147) *)

(** [timestamps.filter(ts => ts > windowStart)] *)
Definition validAfter (windowStart : Z) (timestamps : list Z) : list Z :=
  filter (fun ts => windowStart < ts) timestamps.

(** The clean-up loop of lines 125-132, entry by entry. *)
Definition cleanupEntry (windowStart : Z) (timestamps : list Z)
  : option (list Z) :=
  let validTimestamps := validAfter windowStart timestamps in
  if (length validTimestamps =? 0)%nat then None else Some validTimestamps.

Definition checkRateLimit (request : Request) : M RateLimitResult :=
  let clientIP := getClientIP request in
  do now <- dateNow;
  let windowStart := now - RATE_LIMIT_WINDOW cfg in
  do tracker <- getTracker;
  step putTracker (omap (cleanupEntry windowStart) tracker);
  do tracker <- getTracker;
  let currentTimestamps := default [] (tracker !! clientIP) in
  let validTimestamps := validAfter windowStart currentTimestamps in
  if (MAX_REQUESTS_PER_WINDOW cfg <=? length validTimestamps)%nat then
    ret {| allowed := false; count := length validTimestamps |}
  else
    let validTimestamps := (validTimestamps ++ [now])%list in
    step putTracker (<[clientIP := validTimestamps]> tracker);
    ret {| allowed := true; count := length validTimestamps |}.

(** *** isRetryableError (lines 546-549) *)
Definition isRetryableError (errorCode : JsVal) : bool :=
  match errorCode with
  | JNum n => existsb (Z.eqb n) [429; 502; 503; 504]
  | _ => false
  end.

(** *** makeApiRequest (lines 485-539) *)

Definition apiUrl (method : string) : string :=
  TELEGRAM_API_URL cfg +:+ default "undefined" (BOT_TOKEN env) +:+ "/" +:+ method.

(** [Math.pow(2, retryCount) * 1000] *)
Definition backoff (retryCount : nat) : Z := 2 ^ Z.of_nat retryCount * 1000.

Fixpoint makeApiRequest_from (fuel : nat) (method : string) (params : JsVal)
    (retryCount : nat) : M JsVal :=
  match fuel with
  | O => throw OutOfFuel
  | S fuel' =>
      do next <-
        try_catch
          (do response <- fetch method params retryCount;
           if negb (fst response) then throw HttpError
           else
             do data <- match snd response with
                        | Some d => ret d
                        | None => throw SyntaxError
                        end;
             do dataOk <- get data "ok";
             if truthy dataOk then ret (Done (field data "result"))
             else if (retryCount <? MAX_RETRIES cfg)%nat
                     && isRetryableError (field data "error_code")
             then step sleep (backoff retryCount); ret Retry
             else ret (Done JNull))
          (fun error =>
             if (retryCount <? MAX_RETRIES cfg)%nat
             then step sleep (backoff retryCount); ret Retry
             else ret (Done JNull));
      match next with
      | Done v => ret v
      | Retry => makeApiRequest_from fuel' method params (S retryCount)
      end
  end.

(** Callers never pass [retryCount]: it defaults to 0, and at most
    [MAX_RETRIES] nested calls follow. *)
Definition makeApiRequest (method : string) (params : JsVal) : M JsVal :=
  makeApiRequest_from (S (MAX_RETRIES cfg)) method params 0.

(** *** getChatInfo (lines 557-589) *)

(** The key template of line 558 and the log lines substitute [chatId].
    The chat id that reaches this function has been substituted before,
    at line 257 of [handleMessage], which precedes the one call of
    [detectCrossChannelReply]; the substitution then returns the string
    [toString chatId]. *)
Definition cacheKeyOf (chatId : JsVal) : string := "chat_" +:+ toString chatId.

Definition getChatInfo (chatId : JsVal) : M JsVal :=
  let cacheKey := cacheKeyOf chatId in
  do now <- dateNow;
  do cache <- getCache;
  do hit <- match cache !! cacheKey with
            | Some cached =>
                if now - timestamp cached <? CACHE_TTL cfg
                then ret (Some (data cached))
                else step putCache (delete cacheKey cache); ret None
            | None => ret None
            end;
  match hit with
  | Some cachedData => ret cachedData
  | None =>
      try_catch
        (do chatInfo <- makeApiRequest "getChat" (JObj [("chat_id", chatId)]);
         step (if truthy chatInfo
               then do cache <- getCache;
                    putCache (<[cacheKey := {| data := chatInfo;
                                               timestamp := now |}]> cache)
               else ret tt);
         ret chatInfo)
        (fun error => ret JNull)
  end.

(** *** isLinkedChannel (lines 472-475) *)
Definition isLinkedChannel (groupChat channelChatId : JsVal) : JsVal :=
  js_and (field groupChat "linked_chat_id")
         (JBool (strict_eq (field groupChat "linked_chat_id") channelChatId)).

(** *** detectCrossChannelReply (lines 346-467) *)

(** The [channelInfo] object literal shared by cases 1, 2a and 2b. *)
Definition channelInfoOf (chat : JsVal) : JsVal :=
  JObj [("id", field chat "id");
        ("title", js_or (field chat "title") (JStr "Unknown Channel"));
        ("username", js_or (field chat "username") JNull)].

(** [currentChatInfo && isLinkedChannel(currentChatInfo, id)] as a
    condition. *)
Definition linkedTo (currentChatInfo channelChatId : JsVal) : bool :=
  truthy (js_and currentChatInfo (isLinkedChannel currentChatInfo channelChatId)).

(** Lines 383-466: the cases on the replied-to message.  The two log
    lines of a case (linked, external) substitute the same values. *)
Definition detectReplyCases (message currentChatInfo : JsVal)
  : M ClassificationResult :=
  let result := {| isCrossChannel := false; isExternal := false;
                   channelInfo := JObj []; replyType := none |} in
  if negb (truthy (field message "reply_to_message")) then ret result
  else
    let replyToMessage := field message "reply_to_message" in
    if truthy (js_and (field replyToMessage "forward_from_chat")
                 (JBool (strict_eq (field (field replyToMessage "forward_from_chat") "type")
                                   (JStr "channel"))))
    then
      let forwardChat := field replyToMessage "forward_from_chat" in
      let result :=
        {| isCrossChannel := true;
           isExternal := if linkedTo currentChatInfo (field forwardChat "id")
                         then false else true;
           channelInfo := channelInfoOf forwardChat;
           replyType := forward_from_channel |} in
      (* lines 404 and 407 *)
      step interpolate (field message "message_id");
      step interpolate (field forwardChat "title");
      ret result
    else if truthy (js_and (field replyToMessage "sender_chat")
                      (JBool (strict_eq (field (field replyToMessage "sender_chat") "type")
                                        (JStr "channel"))))
    then
      let senderChat := field replyToMessage "sender_chat" in
      let result :=
        {| isCrossChannel := true;
           isExternal := if linkedTo currentChatInfo (field senderChat "id")
                         then false else true;
           channelInfo := channelInfoOf senderChat;
           replyType := sender_chat_channel |} in
      (* lines 427 and 430 *)
      step interpolate (field message "message_id");
      step interpolate (field senderChat "title");
      ret result
    else if truthy (js_or (field replyToMessage "forward_sender_name")
                          (field replyToMessage "forward_date"))
    then
      let result :=
        {| isCrossChannel := true;
           isExternal := true;
           channelInfo :=
             JObj [("id", JNull);
                   ("title", js_or (field replyToMessage "forward_sender_name")
                                   (JStr "Hidden Source"));
                   ("username", JNull)];
           replyType := hidden_forward |} in
      (* line 447 *)
      step interpolate (field message "message_id");
      ret result
    else if truthy (field replyToMessage "forward_signature")
    then
      (* line 458: the title is a template literal *)
      do signature <- interpolate (field replyToMessage "forward_signature");
      let result :=
        {| isCrossChannel := true;
           isExternal := true;
           channelInfo :=
             JObj [("id", JNull);
                   ("title", JStr ("Channel (signature: " +:+ signature +:+ ")"));
                   ("username", JNull)];
           replyType := channel_signature |} in
      (* line 462 *)
      step interpolate (field message "message_id");
      step interpolate (field replyToMessage "forward_signature");
      ret result
    else ret result.

(** Lines 357-467: the cases, once the metadata is at hand. *)
Definition detectCases (message currentChatInfo : JsVal)
  : M ClassificationResult :=
  if truthy (js_and (field message "external_reply")
                    (field (field message "external_reply") "chat"))
  then
    let externalChat := field (field message "external_reply") "chat" in
    if strict_eq (field externalChat "type") (JStr "channel") then
      let result :=
        {| isCrossChannel := true;
           isExternal := if linkedTo currentChatInfo (field externalChat "id")
                         then false else true;
           channelInfo := channelInfoOf externalChat;
           replyType := external_reply |} in
      (* lines 373 and 376 *)
      step interpolate (field message "message_id");
      step interpolate (field externalChat "title");
      ret result
    else detectReplyCases message currentChatInfo
  else detectReplyCases message currentChatInfo.

Definition detectCrossChannelReply (message : JsVal) : M ClassificationResult :=
  do chat <- get message "chat";
  do chatId <- get chat "id";
  do currentChatInfo <- getChatInfo chatId;
  detectCases message currentChatInfo.

(** *** deleteWarningMessage and scheduleMessageDeletion (lines 671-714) *)

(** The log lines of these two functions substitute the two ids, which
    [sendWarningMessage], their one caller, has substituted before (lines
    638 and 649): here the substitutions return. *)
Definition deleteWarningMessage (chatId messageId : JsVal) : M unit :=
  try_catch
    (do result <- makeApiRequest "deleteMessage"
                    (JObj [("chat_id", chatId); ("message_id", messageId)]);
     ret tt)
    (fun error => ret tt).

Definition scheduleMessageDeletion (chatId messageId : JsVal) (delayMs : Z)
  : M unit :=
  try_catch
    (step sleep delayMs;
     deleteWarningMessage chatId messageId)
    (fun error => ret tt).

(** [ctx.waitUntil(scheduleMessageDeletion(chatId, messageId, env, delayMs))]:
    the deferred task is handed to the runtime, which runs it (the
    computation [scheduleMessageDeletion chatId messageId delayMs]) after
    the response; the invocation itself only records the hand-over. *)
Definition waitUntil_scheduleMessageDeletion (chatId messageId : JsVal)
    (delayMs : Z) : M unit :=
  emit (EvWaitUntil chatId messageId delayMs).

(** *** sendWarningMessage (lines 636-662) *)
Definition sendWarningMessage (chatId : JsVal) (isEdited : bool) : M unit :=
  try_catch
    ((* line 638 *)
     step interpolate chatId;
     do result <- makeApiRequest "sendMessage"
                    (JObj [("chat_id", chatId);
                           ("text", JStr (WARNING_MESSAGE_TEXT cfg));
                           ("parse_mode", JStr "HTML")]);
     if truthy (js_and result (field result "message_id")) then
       let warningMessageId := field result "message_id" in
       (* line 649 *)
       step interpolate warningMessageId;
       step interpolate chatId;
       waitUntil_scheduleMessageDeletion chatId warningMessageId
         (WARNING_AUTO_DELETE_DELAY cfg)
     else
       (* line 656 *)
       step interpolate chatId;
       ret tt)
    (fun error =>
       (* line 660 *)
       step interpolate chatId;
       ret tt).

(** *** deleteCrossChannelReply (lines 599-626) *)
Definition deleteCrossChannelReply (message : JsVal) (isEdited : bool)
  : M unit :=
  do chat <- get message "chat";
  do chatId <- get chat "id";
  let messageId := field message "message_id" in
  try_catch
    ((* line 604 *)
     step interpolate messageId;
     step interpolate chatId;
     do deleteResult <- makeApiRequest "deleteMessage"
                          (JObj [("chat_id", chatId); ("message_id", messageId)]);
     (* lines 613 and 618 substitute the two ids again *)
     if negb (strict_eq deleteResult JNull)
     then sendWarningMessage chatId isEdited
     else sendWarningMessage chatId isEdited)
    (fun error =>
       (* line 624 *)
       step interpolate messageId;
       ret tt).

(** *** handlePrivateMessage (lines 283-341) *)
Definition handlePrivateMessage (message : JsVal) : M unit :=
  try_catch
    (do text <- get message "text";
     if negb (truthy text) then
       (* line 287 *)
       step interpolate (field message "message_id");
       ret tt
     else
       (* message.text.trim(): only a string has the method *)
       do messageText <- match text with
                         | JStr s => ret (trim s)
                         | _ => throw TypeError
                         end;
       if String.eqb messageText "/start" || startsWith "/start " messageText
       then
         (* line 295 *)
         do fromId <- get (field message "from") "id";
         step interpolate fromId;
         step interpolate (js_or (field (field message "from") "username")
                                 (field (field message "from") "first_name"));
         do chatId <- get (field message "chat") "id";
         do sent <- makeApiRequest "sendMessage"
                      (JObj [("chat_id", chatId);
                             ("text", JStr startMessage);
                             ("parse_mode", JStr "Markdown");
                             ("disable_web_page_preview", JBool true)]);
         (* line 323 *)
         step interpolate fromId;
         ret tt
       else
         (* line 326 substitutes the string messageText *)
         do chatId <- get (field message "chat") "id";
         do sent <- makeApiRequest "sendMessage"
                      (JObj [("chat_id", chatId); ("text", JStr helpMessage)]);
         ret tt)
    (fun error =>
       (* line 339: message?.message_id *)
       step interpolate (field message "message_id");
       ret tt).

(** *** handleMessage (lines 229-275) *)
Definition handleMessage (message : JsVal) (isEdited : bool) : M unit :=
  try_catch
    (if negb (truthy message)
        || negb (truthy (field message "message_id"))
        || negb (truthy (field message "chat"))
     then ret tt
     else
       let chatType := field (field message "chat") "type" in
       if strict_eq chatType (JStr "private") then handlePrivateMessage message
       else if negb (strict_eq chatType (JStr "group"))
               && negb (strict_eq chatType (JStr "supergroup"))
       then
         (* line 247 *)
         step interpolate chatType;
         step interpolate (field message "message_id");
         ret tt
       else if truthy (js_and (field message "from")
                              (field (field message "from") "is_bot"))
       then
         (* line 253 *)
         step interpolate (js_or (field (field message "from") "username")
                                 (field (field message "from") "first_name"));
         ret tt
       else
         (* line 257 *)
         do messageId <- interpolate (field message "message_id");
         do chatId <- interpolate (field (field message "chat") "id");
         let messageInfo :=
           "message " +:+ messageId +:+ " in chat " +:+ chatId
           +:+ (if isEdited then " (edited)" else "") in
         do crossChannelInfo <- detectCrossChannelReply message;
         if isCrossChannel crossChannelInfo && isExternal crossChannelInfo
         then
           (* line 264 *)
           step interpolate (JStr messageInfo);
           step interpolate (field (channelInfo crossChannelInfo) "title");
           deleteCrossChannelReply message isEdited
         else ret tt)
    (fun error =>
       (* line 272: message?.message_id *)
       step interpolate (field message "message_id");
       ret tt).

(** *** processUpdate (lines 199-219) *)
Definition processUpdate (update : JsVal) : M unit :=
  try_catch
    (do message <- get update "message";
     step (if truthy message then handleMessage message false else ret tt);
     let edited := field update "edited_message" in
     if truthy edited then handleMessage edited true else ret tt)
    (fun error =>
       (* line 216 *)
       do updateId <- get update "update_id";
       step interpolate updateId;
       ret tt).

(** *** handleWebhook (lines 156-190) *)
Definition textResponse (text : string) (code : Z) : Response :=
  {| status := code; body := BodyText text; headers := [] |}.

Definition handleWebhook (request : Request) : M Response :=
  try_catch
    (let contentType := header request "Content-Type" in
     if negb (truthy contentType)
        || negb (match contentType with
                 | JStr s => includes "application/json" s
                 | _ => false
                 end)
     then ret (textResponse "Invalid Content-Type" 400)
     else
       match req_json request with
       | None => ret (textResponse "Invalid JSON" 400)
       | Some update =>
           if negb (truthy update)
              || negb (typeof_object update)
              || negb (truthy (field update "update_id"))
           then ret (textResponse "Invalid update format" 400)
           else
             (* line 180 *)
             step interpolate (field update "update_id");
             step processUpdate update;
             ret (textResponse "OK" 200)
       end)
    (fun error => ret (textResponse "Internal Server Error" 500)).

(** *** setupWebhook (lines 722-770) *)

(** The JSON bodies carry [new Date().toISOString()]; the instant itself
    stands for its ISO rendering. *)
Definition jsonResponse (v : JsVal) (code : Z) : Response :=
  {| status := code; body := BodyJson v;
     headers := [("Content-Type", "application/json")] |}.

Definition setupWebhook (request : Request) : M Response :=
  try_catch
    (let webhookUrl :=
       req_protocol request +:+ "//" +:+ req_host request +:+ "/webhook" in
     do result <- makeApiRequest "setWebhook"
                    (JObj [("url", JStr webhookUrl);
                           ("allowed_updates",
                            JArr [JStr "message"; JStr "edited_message"]);
                           ("drop_pending_updates", JBool true);
                           ("max_connections", JNum 40)]);
     do now <- dateNow;
     if negb (strict_eq result JNull) then
       ret (jsonResponse
              (JObj [("success", JBool true);
                     ("message", JStr ("Webhook set successfully to " +:+ webhookUrl));
                     ("timestamp", JNum now)]) 200)
     else
       ret (jsonResponse
              (JObj [("success", JBool false);
                     ("error", JStr "Failed to set webhook");
                     ("timestamp", JNum now)]) 500))
    (fun error =>
       do now <- dateNow;
       ret (jsonResponse
              (JObj [("success", JBool false);
                     ("error", JStr (errorMessage error));
                     ("timestamp", JNum now)]) 500)).

(** *** handleRequest (lines 62-101) *)
Definition handleRequest (request : Request) : M Response :=
  let pathname := req_pathname request in
  let method := req_method request in
  do rateLimitResult <- checkRateLimit request;
  if negb (allowed rateLimitResult) then
    ret {| status := 429; body := BodyText "Rate limit exceeded";
           headers := [("Retry-After", "60")] |}
  else if String.eqb pathname "/health" && String.eqb method "GET" then
    do now <- dateNow;
    ret (jsonResponse
           (JObj [("status", JStr "healthy");
                  ("timestamp", JNum now);
                  ("version", JStr "2.0.0")]) 200)
  else if String.eqb pathname "/webhook" && String.eqb method "POST" then
    handleWebhook request
  else if String.eqb pathname "/setup" && String.eqb method "GET" then
    setupWebhook request
  else ret (textResponse "Not Found" 404).

(** *** The entry point [fetch] of the default export (lines 38-53) *)
Definition worker_fetch (request : Request) : M Response :=
  if negb (match BOT_TOKEN env with
           | Some token => negb (String.eqb token "")
           | None => false
           end)
  then ret (textResponse "Configuration Error" 500)
  else
    try_catch (handleRequest request)
      (fun error => ret (textResponse "Internal Server Error" 500)).

End Worker.

(** ** Observations on worlds and traces *)

(** Time passing between two invocations. *)
Definition setClock (t : Z) (w : World) : World :=
  {| clock := t; chatInfoCache := chatInfoCache w;
     rateLimitTracker := rateLimitTracker w; remote := remote w;
     fetched := fetched w; trace := trace w |}.

(** One call of the API client is its first attempt ([retryCount = 0]). *)
Definition isApiCall (method : string) (e : Event) : bool :=
  match e with
  | EvFetch m _ O => String.eqb m method
  | _ => false
  end.

Definition apiCalls (method : string) (tr : list Event) : nat :=
  length (List.filter (isApiCall method) tr).


(** How [makeApiRequest] reads one outcome of the remote service.
    - [Success payload]: a response whose envelope has a truthy [ok];
    - [Fatal]: a logical failure whose [error_code] is not retryable;
    - [Transient]: a logical failure with a retryable code, and every
      outcome that makes the [try] block throw: a rejected or timed-out
      fetch, a response with [!response.ok], a body that is not JSON or
      is [null]. *)
Inductive Verdict :=
| Success (payload : JsVal)
| Transient
| Fatal.

Definition verdict (o : FetchOutcome) : Verdict :=
  match o with
  | FetchRejected _ => Transient
  | FetchResponse false _ => Transient
  | FetchResponse true None => Transient
  | FetchResponse true (Some d) =>
      if nullish d then Transient
      else if truthy (field d "ok") then Success (field d "result")
      else if isRetryableError (field d "error_code") then Transient
      else Fatal
  end.






(** The world after the fetch of attempt [r], and after that attempt and
    its back-off delay. *)
Definition fetchedWorld (method : string) (params : JsVal) (r : nat)
    (w : World) : World :=
  snd (fetch method params r w).

Definition retriedWorld (method : string) (params : JsVal) (r : nat)
    (w : World) : World :=
  snd (sleep (backoff r) (fetchedWorld method params r w)).

Fixpoint retriesWorld (method : string) (params : JsVal) (r k : nat)
    (w : World) : World :=
  match k with
  | O => w
  | S k' => retriesWorld method params (S r) k' (retriedWorld method params r w)
  end.

(** The events of attempts [r], ..., [r + k - 1], each followed by its
    back-off delay. *)
Definition attemptEvents (method : string) (params : JsVal) (r k : nat)
  : list Event :=
  flat_map (fun j => [EvFetch method params j; EvSleep (backoff j)]) (seq r k).

(** A world of a fresh process: empty maps, nothing done yet. *)
Definition freshWorld (service : nat -> FetchOutcome) (now : Z) : World :=
  {| clock := now; chatInfoCache := ∅; rateLimitTracker := ∅;
     remote := service; fetched := 0; trace := [] |}.

(** Envelopes of the platform. *)
Definition okEnvelope (result : JsVal) : FetchOutcome :=
  FetchResponse true (Some (JObj [("ok", JBool true); ("result", result)])).

Definition errorEnvelope (code : Z) : FetchOutcome :=
  FetchResponse true
    (Some (JObj [("ok", JBool false); ("error_code", JNum code)])).



(** The world after [chatInfoCache.delete(key)], and after
    [chatInfoCache.set(key, {data, timestamp})]. *)
Definition evicted (key : string) (w : World) : World :=
  snd (putCache (delete key (chatInfoCache w)) w).

Definition stored (key : string) (v : JsVal) (now : Z) (w : World) : World :=
  snd (putCache (<[key := {| data := v; timestamp := now |}]> (chatInfoCache w)) w).

(** A lookup of [key] at [w] that does not answer from the cache: no
    entry, or an entry of age [CACHE_TTL] or more. *)
Definition cacheMiss (cfg : Config) (key : string) (w : World) : Prop :=
  match chatInfoCache w !! key with
  | Some cached => CACHE_TTL cfg <= clock w - timestamp cached
  | None => True
  end.

(** The record the classifier returns, as a function of the message and
    of the metadata: the cases of [detectReplyCases] and [detectCases]
    without their substitutions ([detectCases_run] relates them).  The
    title of rule 5 is the string the template of line 458 yields when
    it yields one. *)
Definition classifyReplyTo (message currentChatInfo : JsVal)
  : ClassificationResult :=
  let result := {| isCrossChannel := false; isExternal := false;
                   channelInfo := JObj []; replyType := none |} in
  if negb (truthy (field message "reply_to_message")) then result
  else
    let replyToMessage := field message "reply_to_message" in
    if truthy (js_and (field replyToMessage "forward_from_chat")
                 (JBool (strict_eq (field (field replyToMessage "forward_from_chat") "type")
                                   (JStr "channel"))))
    then
      let forwardChat := field replyToMessage "forward_from_chat" in
      {| isCrossChannel := true;
         isExternal := if linkedTo currentChatInfo (field forwardChat "id")
                       then false else true;
         channelInfo := channelInfoOf forwardChat;
         replyType := forward_from_channel |}
    else if truthy (js_and (field replyToMessage "sender_chat")
                      (JBool (strict_eq (field (field replyToMessage "sender_chat") "type")
                                        (JStr "channel"))))
    then
      let senderChat := field replyToMessage "sender_chat" in
      {| isCrossChannel := true;
         isExternal := if linkedTo currentChatInfo (field senderChat "id")
                       then false else true;
         channelInfo := channelInfoOf senderChat;
         replyType := sender_chat_channel |}
    else if truthy (js_or (field replyToMessage "forward_sender_name")
                          (field replyToMessage "forward_date"))
    then
      {| isCrossChannel := true;
         isExternal := true;
         channelInfo :=
           JObj [("id", JNull);
                 ("title", js_or (field replyToMessage "forward_sender_name")
                                 (JStr "Hidden Source"));
                 ("username", JNull)];
         replyType := hidden_forward |}
    else if truthy (field replyToMessage "forward_signature")
    then
      {| isCrossChannel := true;
         isExternal := true;
         channelInfo :=
           JObj [("id", JNull);
                 ("title", JStr ("Channel (signature: "
                                 +:+ toString (field replyToMessage "forward_signature")
                                 +:+ ")"));
                 ("username", JNull)];
         replyType := channel_signature |}
    else result.

Definition classifyWith (message currentChatInfo : JsVal)
  : ClassificationResult :=
  if truthy (js_and (field message "external_reply")
                    (field (field message "external_reply") "chat"))
  then
    let externalChat := field (field message "external_reply") "chat" in
    if strict_eq (field externalChat "type") (JStr "channel") then
      {| isCrossChannel := true;
         isExternal := if linkedTo currentChatInfo (field externalChat "id")
                       then false else true;
         channelInfo := channelInfoOf externalChat;
         replyType := external_reply |}
    else classifyReplyTo message currentChatInfo
  else classifyReplyTo message currentChatInfo.

(** The values the classifier substitutes into template literals (the
    title of line 458 and the log line of the rule that fires), in the
    order of evaluation. *)
Definition substituted (message : JsVal) : list JsVal :=
  let replyToMessage := field message "reply_to_message" in
  match replyType (classifyWith message JNull) with
  | none => []
  | external_reply =>
      [field message "message_id";
       field (field (field message "external_reply") "chat") "title"]
  | forward_from_channel =>
      [field message "message_id";
       field (field replyToMessage "forward_from_chat") "title"]
  | sender_chat_channel =>
      [field message "message_id";
       field (field replyToMessage "sender_chat") "title"]
  | hidden_forward => [field message "message_id"]
  | channel_signature =>
      [field replyToMessage "forward_signature";
       field message "message_id";
       field replyToMessage "forward_signature"]
  end.

(** Messages and services of the examples. *)
Definition groupChat : JsVal :=
  JObj [("id", JNum (-1005)); ("type", JStr "supergroup")].

Definition externalReplyMessage (channelId : JsVal) : JsVal :=
  JObj [("message_id", JNum 1);
        ("chat", groupChat);
        ("external_reply",
         JObj [("chat", JObj [("id", channelId); ("type", JStr "channel")])])].

(** An external reply to a channel with the given title. *)
Definition titledExternalReply (title : JsVal) : JsVal :=
  JObj [("message_id", JNum 1);
        ("chat", groupChat);
        ("external_reply",
         JObj [("chat", JObj [("id", JNum (-100123)); ("type", JStr "channel");
                              ("title", title)])])].

Definition hiddenForwardReply : JsVal :=
  JObj [("message_id", JNum 2);
        ("chat", groupChat);
        ("reply_to_message", JObj [("forward_date", JNum 1700000000)])].

(** A reply to a message with the given forward signature. *)
Definition signedForwardReply (signature : JsVal) : JsVal :=
  JObj [("message_id", JNum 2);
        ("chat", groupChat);
        ("reply_to_message", JObj [("forward_signature", signature)])].

Definition plainMessage : JsVal :=
  JObj [("message_id", JNum 3); ("chat", groupChat); ("text", JStr "hello")].

(** A service whose [getChat] reports the given linked channel. *)
Definition linkedService (linked : JsVal) (k : nat) : FetchOutcome :=
  okEnvelope (JObj [("id", JNum (-1005)); ("type", JStr "supergroup");
                    ("linked_chat_id", linked)]).

(** A message that rule 4 or rule 5 classifies; which rule fires does
    not depend on the metadata. *)
Definition unresolvableOrigin (message : JsVal) : Prop :=
  replyType (classifyWith message JNull) = hidden_forward
  \/ replyType (classifyWith message JNull) = channel_signature.

(** The world after [ctx.waitUntil] has taken the deferred deletion. *)
Definition scheduledWorld (cfg : Config) (chatId messageId : JsVal)
    (w : World) : World :=
  snd (waitUntil_scheduleMessageDeletion chatId messageId
         (WARNING_AUTO_DELETE_DELAY cfg) w).

(** The test of line 647 together with the substitution of line 649:
    the send gave a truthy result whose message id is truthy and can be
    converted to a string. *)
Definition warningScheduled (sendResult : JsVal) : bool :=
  truthy sendResult
  && truthy (field sendResult "message_id")
  && printable (field sendResult "message_id").

(** The parameters of the two calls of the moderation action. *)
Definition deleteParams (chatId messageId : JsVal) : JsVal :=
  JObj [("chat_id", chatId); ("message_id", messageId)].

Definition warningParams (cfg : Config) (chatId : JsVal) : JsVal :=
  JObj [("chat_id", chatId);
        ("text", JStr (WARNING_MESSAGE_TEXT cfg));
        ("parse_mode", JStr "HTML")].

(** A service that confirms the deletion and then answers the send with
    the given message. *)
Definition moderationService (sent : JsVal) (k : nat) : FetchOutcome :=
  match k with
  | 0%nat => okEnvelope (JBool true)
  | _ => okEnvelope sent
  end.

(** The test of lines 159-160 on the Content-Type header. *)
Definition jsonContentType (request : Request) : bool :=
  match req_headers request !! "Content-Type" with
  | Some s => negb (String.eqb s "") && includes "application/json" s
  | None => false
  end.

(** The test of line 175 on the parsed body. *)
Definition acceptedUpdate (update : JsVal) : bool :=
  truthy update && typeof_object update && truthy (field update "update_id").

(** A webhook delivery of the given parsed body. *)
Definition webhookRequest (parsed : option JsVal) : Request :=
  {| req_method := "POST"; req_protocol := "https:";
     req_host := "bot.example.workers.dev"; req_pathname := "/webhook";
     req_headers := {["Content-Type" := "application/json"]} ;
     req_json := parsed |}.

(** The timestamps the tracker holds for an address
    ([rateLimitTracker.get(ip) || []]). *)
Definition entry (tracker : gmap string (list Z)) (ip : string) : list Z :=
  default [] (tracker !! ip).

(** No address holds more than the limit. *)
Definition boundedTracker (cfg : Config) (tracker : gmap string (list Z))
  : Prop :=
  forall ip, (length (entry tracker ip) <= MAX_REQUESTS_PER_WINDOW cfg)%nat.

(** A computation that leaves the rate-limit tracker as it found it. *)
Definition keepsTracker {A} (c : M A) : Prop :=
  forall w, rateLimitTracker (snd (c w)) = rateLimitTracker w.

(** The worker serving a sequence of requests, each arriving at the
    instant paired with it; the responses in order. *)
Fixpoint serve (cfg : Config) (reqs : list (Request * Z)) (w : World)
  : list Response * World :=
  match reqs with
  | [] => ([], w)
  | (request, t) :: rest =>
      match handleRequest cfg request (setClock t w) with
      | (Normal response, w') =>
          let '(responses, w'') := serve cfg rest w' in
          (response :: responses, w'')
      | (Throw _, w') => ([], w')
      end
  end.

(** The throttling response of lines 71-74. *)
Definition tooManyRequests : Response :=
  {| status := 429; body := BodyText "Rate limit exceeded";
     headers := [("Retry-After", "60")] |}.

(** The requests of [reqs] that come from address [ip]. *)
Definition fromAddress (ip : string) (reqs : list (Request * Z))
  : list (Request * Z) :=
  List.filter (fun rt => String.eqb (getClientIP (fst rt)) ip) reqs.

(** A request of the examples, from the given address. *)
Definition requestFrom (ip path : string) : Request :=
  {| req_method := "GET"; req_protocol := "https:";
     req_host := "bot.example.workers.dev"; req_pathname := path;
     req_headers := {["CF-Connecting-IP" := ip]};
     req_json := None |}.

(** A burst of [n] requests of one address at one instant. *)
Definition burst (n : nat) (ip : string) (t : Z) : list (Request * Z) :=
  replicate n (requestFrom ip "/health", t).

(** A private "/start" without a sender: handling it throws on the read
    of [message.from.id], inside [handlePrivateMessage]. *)
Definition startWithoutSender : JsVal :=
  JObj [("update_id", JNum 7);
        ("message",
         JObj [("message_id", JNum 5);
               ("chat", JObj [("id", JNum 9); ("type", JStr "private")]);
               ("text", JStr "/start")])].

Definition offlineService (k : nat) : FetchOutcome := FetchRejected NetworkError.

(** The scenario of an external reply in a group whose linked channel
    is another one: the service answers [getChat], confirms the
    deletion and returns the warning it sent. *)
Definition scenarioService (k : nat) : FetchOutcome :=
  match k with
  | 0%nat => okEnvelope (JObj [("id", JNum (-1005)); ("type", JStr "supergroup");
                               ("linked_chat_id", JNum (-100999))])
  | 1%nat => okEnvelope (JBool true)
  | _ => okEnvelope (JObj [("message_id", JNum 9)])
  end.

Definition scenarioUpdate : JsVal :=
  JObj [("update_id", JNum 1001);
        ("message", externalReplyMessage (JNum (-100123)))].

(** ** Observations for the message dispatch, the cache and the quota *)

(** The structure test of line 232. *)
Definition validMessage (message : JsVal) : bool :=
  truthy message
  && truthy (field message "message_id")
  && truthy (field message "chat").

Definition chatTypeOf (message : JsVal) : JsVal :=
  field (field message "chat") "type".

(** The sender test of line 252. *)
Definition fromBot (message : JsVal) : bool :=
  truthy (js_and (field message "from")
                 (field (field message "from") "is_bot")).

(** The messages [handleMessage] hands to the private-chat flow, and
    those it classifies. *)
Definition privateMessage (message : JsVal) : bool :=
  validMessage message && strict_eq (chatTypeOf message) (JStr "private").

Definition moderatedMessage (message : JsVal) : bool :=
  validMessage message
  && (strict_eq (chatTypeOf message) (JStr "group")
      || strict_eq (chatTypeOf message) (JStr "supergroup"))
  && negb (fromBot message).

(** The messages [handleMessage] hands to the moderation action, given
    the metadata of their chat: the classifier returns (every value it
    substitutes can be converted to a string), its result is
    cross-channel and external, and the title that the log line of line
    264 substitutes can be converted. *)
Definition blocked (message info : JsVal) : bool :=
  forallb printable (substituted message)
  && isCrossChannel (classifyWith message info)
  && isExternal (classifyWith message info)
  && printable (field (channelInfo (classifyWith message info)) "title").

(** The test of line 294 on the trimmed text. *)
Definition isStartCommand (messageText : string) : bool :=
  String.eqb messageText "/start" || startsWith "/start " messageText.

(** A sender the log line of line 295 can print: there is one, and its
    id and its name ([username || first_name]) can be converted to
    strings. *)
Definition greetable (message : JsVal) : bool :=
  negb (nullish (field message "from"))
  && printable (field (field message "from") "id")
  && printable (js_or (field (field message "from") "username")
                      (field (field message "from") "first_name")).

(** Every cached entry holds truthy metadata. *)
Definition cacheTruthy (cache : gmap string CacheEntry) : Prop :=
  forall key cached, cache !! key = Some cached -> truthy (data cached) = true.

(** A computation that keeps an invariant of the metadata cache. *)
Definition keepsCache (I : gmap string CacheEntry -> Prop) {A} (c : M A)
  : Prop :=
  forall w, I (chatInfoCache w) -> I (chatInfoCache (snd (c w))).

(** The statuses the worker answers with. *)
Definition knownStatus (code : Z) : bool :=
  existsb (Z.eqb code) [200; 400; 404; 429; 500].

(** Requests arriving in the order of a clock that does not go back,
    none before [lo]. *)
Fixpoint arrivingFrom (lo : Z) (reqs : list (Request * Z)) : Prop :=
  match reqs with
  | [] => True
  | (_, t) :: rest => lo <= t /\ arrivingFrom t rest
  end.

(** Whether each request of [ip] was refused, as the worker serves
    [reqs]. *)
Fixpoint refusals (cfg : Config) (ip : string) (reqs : list (Request * Z))
    (w : World) : list bool :=
  match reqs with
  | [] => []
  | (request, t) :: rest =>
      match handleRequest cfg request (setClock t w) with
      | (Normal response, w') =>
          if String.eqb (getClientIP request) ip
          then (status response =? 429) :: refusals cfg ip rest w'
          else refusals cfg ip rest w'
      | (Throw _, _) => []
      end
  end.

(** A sliding-window counter for one address, following the words
    "a trailing window holds a bounded count of accepted requests": from
    the timestamps [counted] it refuses an arrival when the limit of
    them lie within the window, and counts it otherwise. *)
Fixpoint slidingWindow (cfg : Config) (counted : list Z) (times : list Z)
  : list bool :=
  match times with
  | [] => []
  | t :: rest =>
      let live := validAfter (t - RATE_LIMIT_WINDOW cfg) counted in
      if (length live <? MAX_REQUESTS_PER_WINDOW cfg)%nat
      then false :: slidingWindow cfg (live ++ [t]) rest
      else true :: slidingWindow cfg live rest
  end.

(** The parameters of the registration call of [setupWebhook]. *)
Definition webhookParams (request : Request) : JsVal :=
  JObj [("url", JStr (req_protocol request +:+ "//" +:+ req_host request
                      +:+ "/webhook"));
        ("allowed_updates", JArr [JStr "message"; JStr "edited_message"]);
        ("drop_pending_updates", JBool true);
        ("max_connections", JNum 40)].

(** Messages of the examples. *)
Definition channelPost : JsVal :=
  JObj [("message_id", JNum 4);
        ("chat", JObj [("id", JNum (-1009)); ("type", JStr "channel")]);
        ("text", JStr "news")].

Definition privateStart : JsVal :=
  JObj [("message_id", JNum 6);
        ("from", JObj [("id", JNum 31); ("first_name", JStr "Ada")]);
        ("chat", JObj [("id", JNum 31); ("type", JStr "private")]);
        ("text", JStr " /start ")].

Definition forwardedReply (channelId : JsVal) : JsVal :=
  JObj [("message_id", JNum 8);
        ("chat", groupChat);
        ("reply_to_message",
         JObj [("message_id", JNum 7);
               ("forward_from_chat",
                JObj [("id", channelId); ("type", JStr "channel");
                      ("title", JStr "News")])])].

(** * Properties *)

(** ** The API client *)

Section ApiClient.

Variable cfg : Config.

(** One iteration of [makeApiRequest], read through [verdict]. *)
Lemma makeApiRequest_attempt fuel method params r w :
  makeApiRequest_from cfg (S fuel) method params r w =
  match verdict (remote w (fetched w)) with
  | Success v => (Normal v, fetchedWorld method params r w)
  | Fatal => (Normal JNull, fetchedWorld method params r w)
  | Transient =>
      if (r <? MAX_RETRIES cfg)%nat
      then makeApiRequest_from cfg fuel method params (S r)
             (retriedWorld method params r w)
      else (Normal JNull, fetchedWorld method params r w)
  end.
Proof.
  unfold retriedWorld, fetchedWorld.
  cbn [makeApiRequest_from].
  generalize (r <? MAX_RETRIES cfg)%nat; intros b.
  unfold bind at 1, try_catch, bind, fetch, verdict.
  destruct (remote w (fetched w)) as [e | [] [d |]]; cbn;
    try (destruct b; reflexivity).
  unfold get. destruct (nullish d); cbn; [destruct b; reflexivity |].
  destruct (truthy (field d "ok")); cbn; [reflexivity |].
  destruct b, (isRetryableError (field d "error_code")); reflexivity.
Qed.

Lemma retriesWorld_fetched method params k : forall r w,
  fetched (retriesWorld method params r k w) = (fetched w + k)%nat
  /\ remote (retriesWorld method params r k w) = remote w
  /\ chatInfoCache (retriesWorld method params r k w) = chatInfoCache w
  /\ rateLimitTracker (retriesWorld method params r k w) = rateLimitTracker w
  /\ trace (retriesWorld method params r k w)
     = (trace w ++ attemptEvents method params r k)%list.
Proof.
  induction k as [| k IH]; intros r w; cbn [retriesWorld].
  - unfold attemptEvents; cbn. rewrite app_nil_r. repeat split; lia.
  - destruct (IH (S r) (retriedWorld method params r w))
      as (Hf & Hr & Hc & Ht & He).
    rewrite Hf, Hr, Hc, Ht, He. unfold retriedWorld, fetchedWorld, fetch, sleep.
    destruct (remote w (fetched w)); cbn;
      rewrite <- !app_assoc; repeat split; lia.
Qed.


(** With fuel above the attempts that remain the client returns, and
    the run is determined by the first outcome that is not transient (or
    by the attempt ceiling): the recursion bound of the model is never
    met. *)
Lemma makeApiRequest_from_run method params n : forall r fuel w,
  (MAX_RETRIES cfg - r <= n)%nat -> (n < fuel)%nat ->
  exists v k,
    (k <= n)%nat
    /\ makeApiRequest_from cfg fuel method params r w
       = (Normal v, fetchedWorld method params (r + k)
                      (retriesWorld method params r k w))
    /\ (forall j, (j < k)%nat ->
          verdict (remote w (fetched w + j)) = Transient)
    /\ match verdict (remote w (fetched w + k)) with
       | Success payload => v = payload
       | Fatal => v = JNull
       | Transient => v = JNull /\ (MAX_RETRIES cfg <= r + k)%nat
       end.
Proof.
  induction n as [| n IH]; intros r fuel w Hn Hfuel;
    (destruct fuel as [| fuel]; [lia |]);
    rewrite makeApiRequest_attempt;
    destruct (verdict (remote w (fetched w))) as [payload | |] eqn:Hv;
    try (exists payload, 0%nat; rewrite !Nat.add_0_r, Hv; cbn [retriesWorld];
         repeat split; [lia | intros; lia]);
    try (exists JNull, 0%nat; rewrite !Nat.add_0_r, Hv; cbn [retriesWorld];
         repeat split; [lia | intros; lia]).
  - destruct (Nat.ltb_spec r (MAX_RETRIES cfg)); [lia |].
    exists JNull, 0%nat; rewrite !Nat.add_0_r, Hv; cbn [retriesWorld].
    repeat split; [lia | intros; lia | lia].
  - destruct (Nat.ltb_spec r (MAX_RETRIES cfg)).
    + destruct (IH (S r) fuel (retriedWorld method params r w))
        as (v & k & Hk & Hrun & Hpre & Hlast); [lia | lia |].
      assert (Hshift : forall i,
                 remote (retriedWorld method params r w)
                   (fetched (retriedWorld method params r w) + i)
                 = remote w (fetched w + S i)).
      { intros i. unfold retriedWorld, fetchedWorld, fetch, sleep.
        destruct (remote w (fetched w)); cbn;
          now replace (S (fetched w + i)) with (fetched w + S i)%nat by lia. }
      exists v, (S k). rewrite Hshift in Hlast.
      replace (r + S k)%nat with (S r + k)%nat by lia.
      repeat split; [lia | exact Hrun | | exact Hlast].
      intros [| j] Hj; [now rewrite Nat.add_0_r |].
      rewrite <- Hshift. apply Hpre. lia.
    + exists JNull, 0%nat; rewrite !Nat.add_0_r, Hv; cbn [retriesWorld].
      repeat split; [lia | intros; lia | lia].
Qed.

Lemma makeApiRequest_run method params w :
  exists v k,
    (k <= MAX_RETRIES cfg)%nat
    /\ makeApiRequest cfg method params w
       = (Normal v, fetchedWorld method params k
                      (retriesWorld method params 0 k w))
    /\ (forall j, (j < k)%nat ->
          verdict (remote w (fetched w + j)) = Transient)
    /\ match verdict (remote w (fetched w + k)) with
       | Success payload => v = payload
       | Fatal => v = JNull
       | Transient => v = JNull /\ k = MAX_RETRIES cfg
       end.
Proof.
  destruct (makeApiRequest_from_run method params (MAX_RETRIES cfg)
              0%nat (S (MAX_RETRIES cfg)) w)
    as (v & k & Hk & Hrun & Hpre & Hlast); [lia | lia |].
  exists v, k. cbn [Nat.add] in *. repeat split; try assumption.
  destruct (verdict (remote w (fetched w + k))); try assumption.
  destruct Hlast; split; [assumption | lia].
Qed.

Lemma makeApiRequest_returns method params w :
  exists v w', makeApiRequest cfg method params w = (Normal v, w').
Proof.
  destruct (makeApiRequest_run method params w) as (v & k & _ & H & _).
  eauto.
Qed.

Lemma fetchedWorld_facts method params r w :
  fetched (fetchedWorld method params r w) = S (fetched w)
  /\ remote (fetchedWorld method params r w) = remote w
  /\ chatInfoCache (fetchedWorld method params r w) = chatInfoCache w
  /\ rateLimitTracker (fetchedWorld method params r w) = rateLimitTracker w
  /\ trace (fetchedWorld method params r w)
     = (trace w ++ [EvFetch method params r])%list.
Proof.
  unfold fetchedWorld, fetch. destruct (remote w (fetched w)); cbn; auto.
Qed.


End ApiClient.







(** ** The chat metadata cache *)

Section ChatInfoCache.

Variable cfg : Config.

Lemma apiCalls_app method (a b : list Event) :
  apiCalls method (a ++ b) = (apiCalls method a + apiCalls method b)%nat.
Proof. unfold apiCalls. now rewrite List.filter_app, length_app. Qed.

Lemma apiCalls_later_attempts method m params k : forall r,
  apiCalls method (attemptEvents m params (S r) k) = 0%nat.
Proof.
  induction k as [| k IH]; intros r; [reflexivity |].
  unfold attemptEvents in *. cbn [seq flat_map].
  rewrite apiCalls_app, IH. reflexivity.
Qed.

(** A call of the client is one API call of its method, whatever the
    number of attempts, and leaves both maps alone. *)
Lemma makeApiRequest_effects m params w :
  exists v w',
    makeApiRequest cfg m params w = (Normal v, w')
    /\ chatInfoCache w' = chatInfoCache w
    /\ rateLimitTracker w' = rateLimitTracker w
    /\ remote w' = remote w
    /\ (exists evs, trace w' = (trace w ++ evs)%list
                    /\ forall method,
                         apiCalls method evs
                         = if String.eqb m method then 1%nat else 0%nat).
Proof.
  destruct (makeApiRequest_run cfg m params w) as (v & k & _ & Hrun & _).
  exists v, (fetchedWorld m params k (retriesWorld m params 0 k w)).
  destruct (fetchedWorld_facts m params k (retriesWorld m params 0 k w))
    as (_ & Hr & Hc & Ht & He).
  destruct (retriesWorld_fetched m params k 0%nat w)
    as (_ & Hr' & Hc' & Ht' & He').
  rewrite Hr, Hc, Ht, He, Hr', Hc', Ht', He'.
  repeat split; try assumption.
  exists (attemptEvents m params 0 k ++ [EvFetch m params k])%list.
  split; [now rewrite app_assoc |].
  intros method. rewrite apiCalls_app.
  destruct k as [| k].
  - unfold apiCalls; cbn. destruct (String.eqb m method); reflexivity.
  - unfold attemptEvents. cbn [seq flat_map]. rewrite apiCalls_app.
    fold (attemptEvents m params 1 k). rewrite apiCalls_later_attempts.
    unfold apiCalls; cbn. destruct (String.eqb m method); reflexivity.
Qed.

Lemma getChatInfo_hit chatId w cached :
  chatInfoCache w !! cacheKeyOf chatId = Some cached ->
  clock w - timestamp cached < CACHE_TTL cfg ->
  getChatInfo cfg chatId w = (Normal (data cached), w).
Proof.
  intros Hlook Hage. unfold getChatInfo, bind, dateNow, getCache. cbn.
  rewrite Hlook. destruct (Z.ltb_spec (clock w - timestamp cached) (CACHE_TTL cfg));
    [reflexivity | lia].
Qed.

Lemma getChatInfo_miss chatId w :
  cacheMiss cfg (cacheKeyOf chatId) w ->
  exists v w1,
    makeApiRequest cfg "getChat" (JObj [("chat_id", chatId)])
      (evicted (cacheKeyOf chatId) w) = (Normal v, w1)
    /\ getChatInfo cfg chatId w
       = (Normal v,
          if truthy v then stored (cacheKeyOf chatId) v (clock w) w1 else w1).
Proof.
  intros Hmiss.
  destruct (makeApiRequest_returns cfg "getChat" (JObj [("chat_id", chatId)])
              (evicted (cacheKeyOf chatId) w)) as (v & w1 & Hrun).
  exists v, w1. split; [exact Hrun |].
  assert (Hgo : try_catch
            (do chatInfo <- makeApiRequest cfg "getChat" (JObj [("chat_id", chatId)]);
             step (if truthy chatInfo
                   then do cache <- getCache;
                        putCache (<[cacheKeyOf chatId :=
                                      {| data := chatInfo; timestamp := clock w |}]> cache)
                   else ret tt);
             ret chatInfo)
            (fun _ => ret JNull) (evicted (cacheKeyOf chatId) w)
          = (Normal v, if truthy v then stored (cacheKeyOf chatId) v (clock w) w1
                       else w1)).
  { unfold try_catch, bind. rewrite Hrun.
    destruct (truthy v); reflexivity. }
  unfold cacheMiss in Hmiss.
  unfold getChatInfo, bind at 1 2 3, dateNow, getCache. cbn -[makeApiRequest].
  destruct (chatInfoCache w !! cacheKeyOf chatId) as [cached |] eqn:Hlook.
  - destruct (Z.ltb_spec (clock w - timestamp cached) (CACHE_TTL cfg)); [lia |].
    cbn -[makeApiRequest]. exact Hgo.
  - cbn -[makeApiRequest].
    replace w with (evicted (cacheKeyOf chatId) w) at 1; [exact Hgo |].
    unfold evicted, putCache; cbn. rewrite delete_id by assumption.
    now destruct w.
Qed.

(** A lookup that misses makes exactly one API call, and stores what it
    got exactly when that is truthy. *)
Lemma getChatInfo_miss_calls chatId w :
  cacheMiss cfg (cacheKeyOf chatId) w ->
  exists r w',
    getChatInfo cfg chatId w = (Normal r, w')
    /\ apiCalls "getChat" (trace w') = S (apiCalls "getChat" (trace w))
    /\ chatInfoCache w' !! cacheKeyOf chatId
       = if truthy r then Some {| data := r; timestamp := clock w |} else None.
Proof.
  intros Hmiss.
  destruct (getChatInfo_miss chatId w Hmiss) as (v & w1 & Hrun & Hget).
  destruct (makeApiRequest_effects "getChat" (JObj [("chat_id", chatId)])
              (evicted (cacheKeyOf chatId) w))
    as (v' & w1' & Hrun' & Hc & _ & _ & evs & Htr & Hcalls).
  rewrite Hrun in Hrun'. injection Hrun' as <- <-.
  specialize (Hcalls "getChat"). cbn in Hcalls.
  eexists _, _. split; [exact Hget |].
  assert (Hcnt : apiCalls "getChat" (trace w1) = S (apiCalls "getChat" (trace w))).
  { rewrite Htr, apiCalls_app, Hcalls. unfold evicted, putCache.
    cbn [snd trace]. lia. }
  destruct (truthy v); cbn.
  - split; [exact Hcnt |]. now rewrite lookup_insert_eq.
  - split; [exact Hcnt |]. rewrite Hc. cbn. apply lookup_delete_eq.
Qed.

End ChatInfoCache.

(** C4 (as amended).  For every chat id and cache TTL [CACHE_TTL cfg]:
    (1) [getChatInfo] returns, and when the first of two calls obtains
    metadata (a truthy value), a second call for the same chat less than
    the TTL later brings the API calls of [getChat] to at most one for
    the two together;
    (2) a call made when the cached entry is of age TTL or more makes
    exactly one API call of [getChat];
    (3) a lookup that misses and whose fetch fails returns [null] and
    leaves no entry for the chat in the cache. *)
Theorem getChatInfo_caching (cfg : Config) (chatId : JsVal) (w : World) :
  (exists r1 w1,
      getChatInfo cfg chatId w = (Normal r1, w1)
      /\ (truthy r1 = true ->
          forall t2, t2 - clock w < CACHE_TTL cfg ->
          exists r2 w2,
            getChatInfo cfg chatId (setClock t2 w1) = (Normal r2, w2)
            /\ (apiCalls "getChat" (trace w2)
                <= apiCalls "getChat" (trace w) + 1)%nat))
  /\ (forall cached,
        chatInfoCache w !! cacheKeyOf chatId = Some cached ->
        CACHE_TTL cfg <= clock w - timestamp cached ->
        exists r w',
          getChatInfo cfg chatId w = (Normal r, w')
          /\ apiCalls "getChat" (trace w') = S (apiCalls "getChat" (trace w)))
  /\ (cacheMiss cfg (cacheKeyOf chatId) w ->
      forall w1,
        makeApiRequest cfg "getChat" (JObj [("chat_id", chatId)])
          (evicted (cacheKeyOf chatId) w) = (Normal JNull, w1) ->
        getChatInfo cfg chatId w = (Normal JNull, w1)
        /\ chatInfoCache w1 !! cacheKeyOf chatId = None).
Proof.
  assert (Hsecond : forall w0 t2,
             exists r2 w2,
               getChatInfo cfg chatId (setClock t2 w0) = (Normal r2, w2)
               /\ (apiCalls "getChat" (trace w2)
                   <= apiCalls "getChat" (trace w0) + 1)%nat).
  { intros w0 t2.
    destruct (chatInfoCache (setClock t2 w0) !! cacheKeyOf chatId)
      as [cached |] eqn:Hlook.
    - destruct (Z.lt_ge_cases (clock (setClock t2 w0) - timestamp cached)
                  (CACHE_TTL cfg)) as [Hage | Hage].
      + rewrite (getChatInfo_hit cfg chatId _ cached Hlook Hage).
        eexists _, _. split; [reflexivity |]. unfold setClock; cbn [trace]. lia.
      + destruct (getChatInfo_miss_calls cfg chatId (setClock t2 w0))
          as (r & w' & Hget & Hcnt & _).
        { unfold cacheMiss. now rewrite Hlook. }
        exists r, w'. split; [exact Hget |]. rewrite Hcnt. unfold setClock; cbn [trace]. lia.
    - destruct (getChatInfo_miss_calls cfg chatId (setClock t2 w0))
        as (r & w' & Hget & Hcnt & _).
      { unfold cacheMiss. now rewrite Hlook. }
      exists r, w'. split; [exact Hget |]. rewrite Hcnt. unfold setClock; cbn [trace]. lia. }
  split; [| split].
  - destruct (chatInfoCache w !! cacheKeyOf chatId) as [cached |] eqn:Hlook.
    + destruct (Z.lt_ge_cases (clock w - timestamp cached) (CACHE_TTL cfg))
        as [Hage | Hage].
      * rewrite (getChatInfo_hit cfg chatId w cached Hlook Hage).
        eexists _, _. split; [reflexivity |]. intros _ t2 _. apply Hsecond.
      * destruct (getChatInfo_miss_calls cfg chatId w)
          as (r & w' & Hget & Hcnt & Hst).
        { unfold cacheMiss. now rewrite Hlook. }
        exists r, w'. split; [exact Hget |]. intros Hr t2 Ht2.
        rewrite Hr in Hst.
        rewrite (getChatInfo_hit cfg chatId (setClock t2 w') _ Hst) by exact Ht2.
        eexists _, _. split; [reflexivity |]. unfold setClock; cbn [trace]. lia.
    + destruct (getChatInfo_miss_calls cfg chatId w)
        as (r & w' & Hget & Hcnt & Hst).
      { unfold cacheMiss. now rewrite Hlook. }
      exists r, w'. split; [exact Hget |]. intros Hr t2 Ht2.
      rewrite Hr in Hst.
      rewrite (getChatInfo_hit cfg chatId (setClock t2 w') _ Hst) by exact Ht2.
      eexists _, _. split; [reflexivity |]. unfold setClock; cbn [trace]. lia.
  - intros cached Hlook Hage.
    destruct (getChatInfo_miss_calls cfg chatId w) as (r & w' & Hget & Hcnt & _).
    { unfold cacheMiss. now rewrite Hlook. }
    eauto.
  - intros Hmiss w1 Hrun.
    destruct (getChatInfo_miss cfg chatId w Hmiss) as (v & w1' & Hrun' & Hget).
    rewrite Hrun in Hrun'. injection Hrun' as <- <-. cbn in Hget.
    split; [exact Hget |].
    destruct (makeApiRequest_effects cfg "getChat" (JObj [("chat_id", chatId)])
                (evicted (cacheKeyOf chatId) w))
      as (v' & w1' & Hrun' & Hc & _).
    rewrite Hrun in Hrun'. injection Hrun' as <- <-.
    rewrite Hc. cbn. apply lookup_delete_eq.
Qed.

(** C4, as stated, fails: failures are not cached, so two calls for one
    chat one millisecond apart both fetch when the fetch fails. *)
Lemma getChatInfo_refetches_after_failure :
  let w0 := freshWorld (fun _ => errorEnvelope 400) 0 in
  let w1 := snd (getChatInfo CONFIG (JNum 1) w0) in
  let w2 := snd (getChatInfo CONFIG (JNum 1) (setClock 1 w1)) in
  1 - clock w0 < CACHE_TTL CONFIG
  /\ fst (getChatInfo CONFIG (JNum 1) w0) = Normal JNull
  /\ apiCalls "getChat" (trace w2) = 2%nat
  /\ ~ (apiCalls "getChat" (trace w2) <= apiCalls "getChat" (trace w0) + 1)%nat.
Proof.
  vm_compute. repeat split; try reflexivity. intros H.
  apply Nat.leb_le in H. discriminate H.
Qed.

(** ** The classifier *)

Ltac case_ifs :=
  repeat match goal with
         | |- context [if ?b then _ else _] => destruct b eqn:?
         end.

Lemma getChatInfo_returns cfg chatId w :
  exists info w', getChatInfo cfg chatId w = (Normal info, w').
Proof.
  destruct (chatInfoCache w !! cacheKeyOf chatId) as [cached |] eqn:Hlook.
  - destruct (Z.lt_ge_cases (clock w - timestamp cached) (CACHE_TTL cfg))
      as [Hage | Hage].
    + rewrite (getChatInfo_hit cfg chatId w cached Hlook Hage). eauto.
    + destruct (getChatInfo_miss cfg chatId w) as (v & w1 & _ & Hget).
      { unfold cacheMiss. now rewrite Hlook. }
      eauto.
  - destruct (getChatInfo_miss cfg chatId w) as (v & w1 & _ & Hget).
    { unfold cacheMiss. now rewrite Hlook. }
    eauto.
Qed.

(** The cases of the classifier return the record [classifyWith]
    computes when every value they substitute can be converted to a
    string, and throw otherwise; they leave the world alone. *)
Lemma detectCases_run message info w :
  detectCases message info w =
  if forallb printable (substituted message)
  then (Normal (classifyWith message info), w)
  else (Throw TypeError, w).
Proof.
  unfold detectCases, detectReplyCases, substituted, classifyWith,
    classifyReplyTo.
  repeat match goal with
         | |- context [if truthy ?v then _ else _] => destruct (truthy v) eqn:?
         | |- context [if negb (truthy ?v) then _ else _] =>
             destruct (truthy v) eqn:?; cbn [negb]
         | |- context [if strict_eq ?a ?b then _ else _] =>
             destruct (strict_eq a b) eqn:?
         end;
    cbn [replyType forallb]; unfold bind, interpolate, ret, throw;
    repeat match goal with
           | |- context [printable ?v] => destruct (printable v) eqn:?
           end;
    cbn; try reflexivity; congruence.
Qed.

(** The classifier is the metadata lookup followed by the cases. *)
Lemma detectCrossChannelReply_run cfg message w :
  nullish message = false ->
  nullish (field message "chat") = false ->
  exists info w',
    getChatInfo cfg (field (field message "chat") "id") w = (Normal info, w')
    /\ detectCrossChannelReply cfg message w
       = if forallb printable (substituted message)
         then (Normal (classifyWith message info), w')
         else (Throw TypeError, w').
Proof.
  intros Hm Hc.
  destruct (getChatInfo_returns cfg (field (field message "chat") "id") w)
    as (info & w' & Hget).
  exists info, w'. split; [exact Hget |].
  unfold detectCrossChannelReply, bind, get, ret. rewrite Hm, Hc.
  rewrite Hget. apply detectCases_run.
Qed.

Lemma detectCrossChannelReply_inv cfg message w r w' :
  detectCrossChannelReply cfg message w = (Normal r, w') ->
  exists info, r = classifyWith message info.
Proof.
  unfold detectCrossChannelReply, bind, get, ret, throw.
  destruct (nullish message); [discriminate |].
  destruct (nullish (field message "chat")); [discriminate |].
  destruct (getChatInfo cfg (field (field message "chat") "id") w)
    as [[info | e] w1]; [| discriminate].
  rewrite detectCases_run.
  destruct (forallb printable (substituted message)); [| discriminate].
  intros H. injection H as <- <-. eauto.
Qed.

Lemma classifyWith_invariant message info :
  (isExternal (classifyWith message info) = true ->
   isCrossChannel (classifyWith message info) = true)
  /\ (replyType (classifyWith message info) = none ->
      isCrossChannel (classifyWith message info) = false
      /\ isExternal (classifyWith message info) = false).
Proof.
  unfold classifyWith, classifyReplyTo.
  case_ifs; cbn; split; intros; try discriminate; auto.
Qed.

Lemma truthy_not_nullish v : truthy v = true -> nullish v = false.
Proof. destruct v; cbn; congruence. Qed.

Lemma truthy_field_base v k : truthy (field v k) = true -> nullish v = false.
Proof. destruct v; cbn; congruence. Qed.

(** C1 (as amended).  For every message that identifies its chat and
    carries an external-reply reference whose chat has type "channel",
    the classifier looks the current chat up, and then:
    - when the message id and the title of the referenced channel can be
      converted to strings, it returns isCrossChannel = true;
      isExternal = false exactly when the metadata is available
      (truthy), its linked-channel id is truthy (present and neither 0
      nor the empty string) and strictly equal to the id of the
      referenced channel; in every other case isExternal = true;
    - when one of the two cannot be converted (an object with an own
      [toString] key, or an array holding one), the log line of lines
      373 and 376 throws and the classifier returns no result. *)
Theorem external_reply_classification (cfg : Config) (message : JsVal)
    (w : World) :
  nullish (field message "chat") = false ->
  printable (field (field message "chat") "id") = true ->
  truthy (field message "external_reply") = true ->
  truthy (field (field message "external_reply") "chat") = true ->
  strict_eq (field (field (field message "external_reply") "chat") "type")
            (JStr "channel") = true ->
  let externalChat := field (field message "external_reply") "chat" in
  exists info w',
    getChatInfo cfg (field (field message "chat") "id") w = (Normal info, w')
    /\ (printable (field message "message_id") = false
        \/ printable (field externalChat "title") = false ->
        detectCrossChannelReply cfg message w = (Throw TypeError, w'))
    /\ (printable (field message "message_id") = true ->
        printable (field externalChat "title") = true ->
        exists r,
          detectCrossChannelReply cfg message w = (Normal r, w')
          /\ isCrossChannel r = true
          /\ replyType r = external_reply
          /\ (isExternal r = false <->
              truthy info = true
              /\ truthy (field info "linked_chat_id") = true
              /\ strict_eq (field info "linked_chat_id") (field externalChat "id")
                 = true)
          /\ (isExternal r = true <->
              truthy info = false
              \/ truthy (field info "linked_chat_id") = false
              \/ strict_eq (field info "linked_chat_id") (field externalChat "id")
                 = false)).
Proof.
  intros Hchat _ Hext Hextchat Htype externalChat.
  destruct (detectCrossChannelReply_run cfg message w) as (info & w' & Hget & Hrun);
    [eapply truthy_field_base; exact Hext | exact Hchat |].
  assert (Hsub : substituted message
                 = [field message "message_id"; field externalChat "title"]).
  { unfold substituted, classifyWith, js_and.
    now rewrite Hext, Hextchat, Htype. }
  rewrite Hsub in Hrun. cbn [forallb] in Hrun.
  exists info, w'. split; [exact Hget |]. split.
  - intros [Hp | Hp]; rewrite Hrun, Hp; [reflexivity |].
    now destruct (printable (field message "message_id")).
  - intros Hid Htitle. rewrite Hid, Htitle in Hrun. cbn in Hrun.
    exists (classifyWith message info). split; [exact Hrun |].
    unfold classifyWith, js_and. rewrite Hext, Hextchat, Htype. cbn.
    unfold linkedTo, isLinkedChannel, js_and. fold externalChat.
    destruct (truthy info) eqn:Hinfo; cbn;
      [destruct (truthy (field info "linked_chat_id")) eqn:Hlinked; cbn;
       [destruct (strict_eq (field info "linked_chat_id")
                    (field externalChat "id")) eqn:Hsame; cbn |] |];
      rewrite ?Hinfo, ?Hlinked; cbn;
      repeat split; intros; intuition (try discriminate; auto).
Qed.

(** C1, as stated, fails in two places.  Where the linked-channel id is
    present and equal to the id of the referenced channel but falsy, the
    reply counts as external: the guard of [isLinkedChannel] tests the
    truthiness of [linked_chat_id].  And where the title of the
    referenced channel is an object with an own [toString] key, as in
    the body [{"toString": 1}] of a webhook delivery, the classifier
    returns nothing: its log line throws. *)
Lemma external_reply_not_as_stated :
  (let message := externalReplyMessage (JNum 0) in
   let w0 := freshWorld (linkedService (JNum 0)) 0 in
   let info := JObj [("id", JNum (-1005)); ("type", JStr "supergroup");
                     ("linked_chat_id", JNum 0)] in
   fst (getChatInfo CONFIG (field (field message "chat") "id") w0) = Normal info
   /\ truthy info = true
   /\ field info "linked_chat_id" = JNum 0
   /\ field (field (field message "external_reply") "chat") "id" = JNum 0
   /\ fst (detectCrossChannelReply CONFIG message w0)
      = Normal {| isCrossChannel := true; isExternal := true;
                  channelInfo := JObj [("id", JNum 0);
                                       ("title", JStr "Unknown Channel");
                                       ("username", JNull)];
                  replyType := external_reply |})
  /\ (let message := titledExternalReply (JObj [("toString", JNum 1)]) in
      let w0 := freshWorld (linkedService (JNum (-100999))) 0 in
      strict_eq (field (field (field message "external_reply") "chat") "type")
                (JStr "channel") = true
      /\ fst (detectCrossChannelReply CONFIG message w0) = Throw TypeError).
Proof. vm_compute. repeat split. Qed.

(** Which rule fires does not depend on the metadata. *)
Lemma replyType_classifyWith message info :
  replyType (classifyWith message info) = replyType (classifyWith message JNull).
Proof.
  unfold classifyWith, classifyReplyTo. case_ifs; reflexivity.
Qed.

Lemma unresolvableOrigin_not_nullish message :
  unresolvableOrigin message -> nullish message = false.
Proof.
  unfold unresolvableOrigin. destruct message; cbn; try reflexivity;
    intros [H | H]; discriminate H.
Qed.

Lemma unresolvableOrigin_classifyWith message info :
  unresolvableOrigin message ->
  classifyWith message info = classifyWith message JNull
  /\ isCrossChannel (classifyWith message JNull) = true
  /\ isExternal (classifyWith message JNull) = true.
Proof.
  unfold unresolvableOrigin, classifyWith, classifyReplyTo.
  case_ifs; cbn; intros [H | H]; try discriminate H; auto.
Qed.

(** C2 (as amended).  For every message classified by rule 4 or rule 5
    the result does not depend on the chat metadata: whatever the lookup
    gives, the message is cross-channel and external.  The classifier
    does consult the metadata cache once at its start, for every message:
    its effects are exactly those of that lookup (on a miss, one remote
    fetch and, when it succeeds, a cache entry).  It returns when the
    values it substitutes into its log line and, for rule 5, into the
    title can be converted to strings (the message id, and for rule 5
    the forward signature); when one of them cannot, it throws after
    the lookup. *)
Theorem unresolvable_origin_classification (cfg : Config) (message : JsVal)
    (w : World) :
  nullish (field message "chat") = false ->
  printable (field (field message "chat") "id") = true ->
  unresolvableOrigin message ->
  (forall info, classifyWith message info = classifyWith message JNull)
  /\ isCrossChannel (classifyWith message JNull) = true
  /\ isExternal (classifyWith message JNull) = true
  /\ exists info w',
       getChatInfo cfg (field (field message "chat") "id") w = (Normal info, w')
       /\ (printable (field message "message_id") = true ->
           (replyType (classifyWith message JNull) = channel_signature ->
            printable (field (field message "reply_to_message")
                         "forward_signature") = true) ->
           detectCrossChannelReply cfg message w
           = (Normal (classifyWith message JNull), w'))
       /\ (printable (field message "message_id") = false
           \/ (replyType (classifyWith message JNull) = channel_signature
               /\ printable (field (field message "reply_to_message")
                               "forward_signature") = false) ->
           detectCrossChannelReply cfg message w = (Throw TypeError, w')).
Proof.
  intros Hchat _ Hrule.
  split; [intros info; now apply unresolvableOrigin_classifyWith |].
  destruct (unresolvableOrigin_classifyWith message JNull Hrule) as (_ & Hc & He).
  split; [exact Hc |]. split; [exact He |].
  destruct (detectCrossChannelReply_run cfg message w) as (info & w' & Hget & Hrun);
    [now apply unresolvableOrigin_not_nullish | exact Hchat |].
  exists info, w'. split; [exact Hget |].
  destruct (unresolvableOrigin_classifyWith message info Hrule) as (Heq & _).
  rewrite Heq in Hrun. unfold substituted in Hrun.
  destruct Hrule as [Hrule | Hrule]; rewrite Hrule in Hrun |- *;
    cbn [forallb] in Hrun; split.
  - intros Hid _. now rewrite Hid in Hrun.
  - intros [Hid | [Habs _]]; [now rewrite Hid in Hrun | discriminate Habs].
  - intros Hid Hsig. now rewrite Hid, Hsig in Hrun by reflexivity.
  - intros [Hid | [_ Hsig]].
    + rewrite Hid in Hrun.
      now destruct (printable (field (field message "reply_to_message")
                                 "forward_signature")).
    + now rewrite Hsig in Hrun.
Qed.

(** C2, as stated, fails in two places.  A reply to a hidden forward,
    classified by rule 4, still triggers the metadata lookup, here one
    remote fetch and a new cache entry.  And for a reply to a message
    whose forward signature is an object with an own [toString] key,
    which rule 5 classifies, the classification does not complete: the
    title template of line 458 throws, after the lookup. *)
Lemma unresolvable_origin_not_as_stated :
  (let w0 := freshWorld (linkedService (JNum (-1009))) 0 in
   let w1 := snd (detectCrossChannelReply CONFIG hiddenForwardReply w0) in
   replyType (classifyWith hiddenForwardReply JNull) = hidden_forward
   /\ trace w0 = []
   /\ trace w1 = [EvFetch "getChat" (JObj [("chat_id", JNum (-1005))]) 0]
   /\ chatInfoCache w0 !! "chat_-1005" = None
   /\ is_Some (chatInfoCache w1 !! "chat_-1005"))
  /\ (let message := signedForwardReply (JObj [("toString", JNum 1)]) in
      let w0 := freshWorld (linkedService (JNum (-1009))) 0 in
      replyType (classifyWith message JNull) = channel_signature
      /\ fst (detectCrossChannelReply CONFIG message w0) = Throw TypeError
      /\ trace (snd (detectCrossChannelReply CONFIG message w0))
         = [EvFetch "getChat" (JObj [("chat_id", JNum (-1005))]) 0]).
Proof.
  vm_compute. repeat split. eexists. reflexivity.
Qed.

(** C8.  Every result the classifier produces satisfies: isExternal
    implies isCrossChannel, and a result of reply type 'none' has both
    flags false. *)
Theorem classification_invariant (cfg : Config) (message : JsVal)
    (w : World) (r : ClassificationResult) (w' : World) :
  detectCrossChannelReply cfg message w = (Normal r, w') ->
  (isExternal r = true -> isCrossChannel r = true)
  /\ (replyType r = none -> isCrossChannel r = false /\ isExternal r = false).
Proof.
  intros Hrun.
  destruct (detectCrossChannelReply_inv cfg message w r w' Hrun) as (info & ->).
  apply classifyWith_invariant.
Qed.

(** ** The moderation action *)

Lemma truthy_js_and a b : truthy (js_and a b) = truthy a && truthy b.
Proof. unfold js_and. destruct (truthy a) eqn:Ha; [reflexivity | exact Ha]. Qed.

Lemma interpolate_printable v w :
  printable v = true -> interpolate v w = (Normal (toString v), w).
Proof. intros H. unfold interpolate. now rewrite H. Qed.

Lemma interpolate_unprintable v w :
  printable v = false -> interpolate v w = (Throw TypeError, w).
Proof. intros H. unfold interpolate. now rewrite H. Qed.

(** The deferred deletion is handed over when the send gives a truthy
    result whose message id is truthy and can be converted to a string
    (line 649 substitutes it before [ctx.waitUntil]). *)
Lemma sendWarningMessage_run cfg chatId isEdited w :
  printable chatId = true ->
  exists sendResult w2,
    makeApiRequest cfg "sendMessage" (warningParams cfg chatId) w
    = (Normal sendResult, w2)
    /\ sendWarningMessage cfg chatId isEdited w
       = (Normal tt,
          if warningScheduled sendResult
          then scheduledWorld cfg chatId (field sendResult "message_id") w2
          else w2).
Proof.
  intros Hchat.
  destruct (makeApiRequest_returns cfg "sendMessage" (warningParams cfg chatId) w)
    as (sendResult & w2 & Hrun).
  exists sendResult, w2. split; [exact Hrun |].
  unfold sendWarningMessage, try_catch, bind at 1.
  rewrite (interpolate_printable chatId) by exact Hchat.
  unfold bind at 1. fold (warningParams cfg chatId). rewrite Hrun.
  unfold warningScheduled. rewrite truthy_js_and.
  destruct (truthy sendResult && truthy (field sendResult "message_id"));
    cbn [andb]; unfold bind.
  - destruct (printable (field sendResult "message_id")) eqn:Hid.
    + rewrite (interpolate_printable _ _ Hid),
        (interpolate_printable chatId) by exact Hchat.
      reflexivity.
    + rewrite (interpolate_unprintable _ _ Hid),
        (interpolate_printable chatId) by exact Hchat.
      reflexivity.
  - rewrite (interpolate_printable chatId) by exact Hchat. reflexivity.
Qed.

(** C7 (as amended).  For every message handled by the moderation action
    (a message that identifies its chat and whose two ids
    [handleMessage] has converted to strings at line 257): the deletion
    of the offending message is requested first; whatever its outcome
    the fixed warning text is then sent to the same chat; and the
    deferred deletion of the warning after [WARNING_AUTO_DELETE_DELAY]
    is handed to the runtime exactly when the send returns a truthy
    result whose message identifier is truthy (present and not 0) and
    can be converted to a string.  Called on a message one of whose ids
    cannot be converted, the action requests nothing: the log line of
    line 604 throws, and when it is the message id that cannot be
    converted the log line of the handler (line 624) throws too. *)
Theorem deleteCrossChannelReply_sequence (cfg : Config) (message : JsVal)
    (isEdited : bool) (w : World) :
  nullish message = false ->
  nullish (field message "chat") = false ->
  let chatId := field (field message "chat") "id" in
  let messageId := field message "message_id" in
  (printable messageId = true ->
   printable chatId = true ->
   exists deleteResult w1 sendResult w2,
     makeApiRequest cfg "deleteMessage" (deleteParams chatId messageId) w
     = (Normal deleteResult, w1)
     /\ makeApiRequest cfg "sendMessage" (warningParams cfg chatId) w1
        = (Normal sendResult, w2)
     /\ deleteCrossChannelReply cfg message isEdited w
        = (Normal tt,
           if truthy sendResult && truthy (field sendResult "message_id")
              && printable (field sendResult "message_id")
           then scheduledWorld cfg chatId (field sendResult "message_id") w2
           else w2)
     /\ (exists deleting sending,
           trace w1 = (trace w ++ deleting)%list
           /\ trace w2 = (trace w1 ++ sending)%list
           /\ apiCalls "deleteMessage" deleting = 1%nat
           /\ apiCalls "sendMessage" deleting = 0%nat
           /\ apiCalls "sendMessage" sending = 1%nat
           /\ trace (scheduledWorld cfg chatId (field sendResult "message_id") w2)
              = (trace w2 ++ [EvWaitUntil chatId (field sendResult "message_id")
                                 (WARNING_AUTO_DELETE_DELAY cfg)])%list))
  /\ (printable messageId = false ->
      deleteCrossChannelReply cfg message isEdited w = (Throw TypeError, w))
  /\ (printable messageId = true ->
      printable chatId = false ->
      deleteCrossChannelReply cfg message isEdited w = (Normal tt, w)).
Proof.
  intros Hm Hc chatId messageId.
  assert (Hstart : deleteCrossChannelReply cfg message isEdited w
                   = try_catch
                       (step interpolate messageId;
                        step interpolate chatId;
                        do deleteResult <- makeApiRequest cfg "deleteMessage"
                                             (deleteParams chatId messageId);
                        if negb (strict_eq deleteResult JNull)
                        then sendWarningMessage cfg chatId isEdited
                        else sendWarningMessage cfg chatId isEdited)
                       (fun error => step interpolate messageId; ret tt) w).
  { unfold deleteCrossChannelReply, bind at 1 2, get, ret at 1 2.
    now rewrite Hm, Hc. }
  rewrite Hstart. clear Hstart. split; [| split].
  - intros Hid Hchat.
    destruct (makeApiRequest_effects cfg "deleteMessage"
                (deleteParams chatId messageId) w)
      as (deleteResult & w1 & Hdel & _ & _ & _ & deleting & Htr1 & Hcalls1).
    destruct (sendWarningMessage_run cfg chatId isEdited w1 Hchat)
      as (sendResult & w2 & Hsend & Hwarn).
    destruct (makeApiRequest_effects cfg "sendMessage" (warningParams cfg chatId) w1)
      as (sendResult' & w2' & Hsend' & _ & _ & _ & sending & Htr2 & Hcalls2).
    rewrite Hsend in Hsend'. injection Hsend' as <- <-.
    exists deleteResult, w1, sendResult, w2.
    split; [exact Hdel |]. split; [exact Hsend |]. split.
    + unfold try_catch, bind at 1. rewrite (interpolate_printable _ _ Hid).
      unfold bind at 1. rewrite (interpolate_printable _ _ Hchat).
      unfold bind. rewrite Hdel.
      destruct (negb (strict_eq deleteResult JNull)); now rewrite Hwarn.
    + exists deleting, sending. repeat split; try assumption.
      * apply (Hcalls1 "deleteMessage").
      * apply (Hcalls1 "sendMessage").
      * apply (Hcalls2 "sendMessage").
  - intros Hid. unfold try_catch, bind at 1.
    rewrite (interpolate_unprintable _ _ Hid).
    unfold bind. now rewrite (interpolate_unprintable _ _ Hid).
  - intros Hid Hchat. unfold try_catch, bind at 1.
    rewrite (interpolate_printable _ _ Hid).
    unfold bind at 1. rewrite (interpolate_unprintable _ _ Hchat).
    unfold bind. now rewrite (interpolate_printable _ _ Hid).
Qed.

(** C7, as stated, fails where the send succeeds and yields a message
    identifier that is falsy, such as 0, or that cannot be converted to
    a string, such as [{"toString": 1}]: the test
    [result && result.message_id] is on truthiness, the log line of line
    649 throws before [ctx.waitUntil], and no deferred deletion is
    handed over. *)
Lemma warning_not_scheduled :
  let message := externalReplyMessage (JNum (-1009)) in
  let calls :=
    [EvFetch "deleteMessage" (deleteParams (JNum (-1005)) (JNum 1)) 0;
     EvFetch "sendMessage" (warningParams CONFIG (JNum (-1005))) 0] in
  let sentAs (id : JsVal) := JObj [("message_id", id); ("chat", groupChat)] in
  let run (id : JsVal) :=
    deleteCrossChannelReply CONFIG message false
      (freshWorld (moderationService (sentAs id)) 0) in
  let sendOf (id : JsVal) :=
    makeApiRequest CONFIG "sendMessage" (warningParams CONFIG (JNum (-1005)))
      (snd (makeApiRequest CONFIG "deleteMessage"
              (deleteParams (JNum (-1005)) (JNum 1))
              (freshWorld (moderationService (sentAs id)) 0))) in
  (fst (sendOf (JNum 0)) = Normal (sentAs (JNum 0))
   /\ fst (run (JNum 0)) = Normal tt
   /\ trace (snd (run (JNum 0))) = calls)
  /\ (fst (sendOf (JObj [("toString", JNum 1)]))
      = Normal (sentAs (JObj [("toString", JNum 1)]))
      /\ fst (run (JObj [("toString", JNum 1)])) = Normal tt
      /\ trace (snd (run (JObj [("toString", JNum 1)]))) = calls)
  /\ trace (snd (run (JNum 9)))
     = (calls ++ [EvWaitUntil (JNum (-1005)) (JNum 9) 10000])%list.
Proof. vm_compute. repeat split. Qed.

(** ** Webhook intake *)

(** [handleMessage] ends normally when the message id can be converted
    to a string: its handler substitutes it (line 272). *)
Lemma handleMessage_returns cfg message isEdited w :
  printable (field message "message_id") = true ->
  exists w', handleMessage cfg message isEdited w = (Normal tt, w').
Proof.
  intros Hid. unfold handleMessage, try_catch.
  match goal with |- context [match ?c with _ => _ end] => destruct c as [[[] | e] w1] end.
  - eauto.
  - unfold bind. rewrite (interpolate_printable _ _ Hid). unfold ret. eauto.
Qed.

(** [processUpdate] ends normally when the update id can be converted
    to a string: its handler substitutes it (line 216). *)
Lemma processUpdate_returns cfg update w :
  nullish update = false ->
  printable (field update "update_id") = true ->
  exists w', processUpdate cfg update w = (Normal tt, w').
Proof.
  intros Hu Hid. unfold processUpdate, try_catch.
  match goal with |- context [match ?c with _ => _ end] => destruct c as [[[] | e] w1] end.
  - eauto.
  - unfold bind, get, ret. rewrite Hu. rewrite (interpolate_printable _ _ Hid). eauto.
Qed.

Lemma handleWebhook_cases cfg request w :
  handleWebhook cfg request w =
  if negb (jsonContentType request)
  then (Normal (textResponse "Invalid Content-Type" 400), w)
  else match req_json request with
       | None => (Normal (textResponse "Invalid JSON" 400), w)
       | Some update =>
           if negb (acceptedUpdate update)
           then (Normal (textResponse "Invalid update format" 400), w)
           else if printable (field update "update_id")
           then (Normal (textResponse "OK" 200),
                 snd (processUpdate cfg update w))
           else (Normal (textResponse "Internal Server Error" 500), w)
       end.
Proof.
  unfold handleWebhook, jsonContentType, header, try_catch.
  destruct (req_headers request !! "Content-Type") as [s |]; cbn;
    [| reflexivity].
  destruct (String.eqb s ""); cbn; [reflexivity |].
  destruct (includes "application/json" s); cbn; [| reflexivity].
  destruct (req_json request) as [update |]; [| reflexivity].
  unfold acceptedUpdate.
  destruct (truthy update) eqn:Ht; cbn; [| reflexivity].
  destruct (typeof_object update); cbn; [| reflexivity].
  destruct (truthy (field update "update_id")); cbn; [| reflexivity].
  unfold bind at 1.
  destruct (printable (field update "update_id")) eqn:Hid.
  - rewrite (interpolate_printable _ _ Hid).
    destruct (processUpdate_returns cfg update w) as (w' & Hrun);
      [now apply truthy_not_nullish | exact Hid |].
    unfold bind. rewrite Hrun. reflexivity.
  - rewrite (interpolate_unprintable _ _ Hid). reflexivity.
Qed.

(** C6 (as amended).  For every webhook request: a missing or non-JSON
    Content-Type, an unparsable body, or a body that is not an object
    with a truthy [update_id] (the id is missing, or falsy such as 0)
    yields status 400 and nothing is processed (the world is unchanged);
    a request that passes these checks and whose [update_id] can be
    converted to a string yields status 200 "OK" after [processUpdate],
    which itself ends normally whatever happens while the messages are
    handled; a request that passes them and whose [update_id] cannot be
    converted (an object with an own [toString] key, or an array
    holding one) yields status 500 and nothing is processed. *)
Theorem handleWebhook_status (cfg : Config) (request : Request) (w : World) :
  (jsonContentType request = false ->
   handleWebhook cfg request w
   = (Normal (textResponse "Invalid Content-Type" 400), w))
  /\ (jsonContentType request = true -> req_json request = None ->
      handleWebhook cfg request w = (Normal (textResponse "Invalid JSON" 400), w))
  /\ (forall update,
        jsonContentType request = true -> req_json request = Some update ->
        acceptedUpdate update = false ->
        handleWebhook cfg request w
        = (Normal (textResponse "Invalid update format" 400), w))
  /\ (forall update,
        jsonContentType request = true -> req_json request = Some update ->
        acceptedUpdate update = true ->
        printable (field update "update_id") = true ->
        exists w',
          processUpdate cfg update w = (Normal tt, w')
          /\ handleWebhook cfg request w = (Normal (textResponse "OK" 200), w'))
  /\ (forall update,
        jsonContentType request = true -> req_json request = Some update ->
        acceptedUpdate update = true ->
        printable (field update "update_id") = false ->
        handleWebhook cfg request w
        = (Normal (textResponse "Internal Server Error" 500), w)).
Proof.
  rewrite handleWebhook_cases. repeat split.
  - now intros ->.
  - now intros -> ->.
  - now intros update -> -> ->.
  - intros update -> -> Hacc Hid. rewrite Hacc, Hid. cbn.
    destruct (processUpdate_returns cfg update w) as (w' & Hrun).
    + unfold acceptedUpdate in Hacc. apply truthy_not_nullish.
      destruct (truthy update); [reflexivity | discriminate].
    + exact Hid.
    + exists w'. rewrite Hrun. auto.
  - intros update -> -> Hacc Hid. now rewrite Hacc, Hid.
Qed.

(** C6, as stated, fails in two places.  An update that has an update
    id, the integer 0, passes the three checks the claim names and is
    answered 400.  And an update whose update id is an object with an
    own [toString] key passes every check of the intake and is answered
    500: the log line of line 180 throws inside the [try] of
    [handleWebhook]. *)
Lemma update_id_not_as_stated :
  (let update := JObj [("update_id", JNum 0); ("message", plainMessage)] in
   let request := webhookRequest (Some update) in
   let w0 := freshWorld (linkedService JNull) 0 in
   jsonContentType request = true
   /\ req_json request = Some update
   /\ field update "update_id" = JNum 0
   /\ handleWebhook CONFIG request w0
      = (Normal (textResponse "Invalid update format" 400), w0))
  /\ (let update := JObj [("update_id", JObj [("toString", JNum 1)]);
                          ("message", plainMessage)] in
      let request := webhookRequest (Some update) in
      let w0 := freshWorld (linkedService JNull) 0 in
      jsonContentType request = true
      /\ req_json request = Some update
      /\ acceptedUpdate update = true
      /\ handleWebhook CONFIG request w0
         = (Normal (textResponse "Internal Server Error" 500), w0)).
Proof. vm_compute. repeat split. Qed.

(** C10.  A webhook update whose [update_id] is present but falsy is
    answered 400 "Invalid update format" and is not processed: the world
    is left as it was. *)
Theorem falsy_update_id_rejected (cfg : Config) (request : Request)
    (w : World) (fields : list (string * JsVal)) (updateId : JsVal) :
  jsonContentType request = true ->
  req_json request = Some (JObj fields) ->
  assoc "update_id" fields = Some updateId ->
  truthy updateId = false ->
  handleWebhook cfg request w
  = (Normal (textResponse "Invalid update format" 400), w).
Proof.
  intros Hct Hbody Hid Hfalsy. rewrite handleWebhook_cases, Hct, Hbody.
  unfold acceptedUpdate, field. rewrite Hid. cbn. now rewrite Hfalsy.
Qed.

(** ** Only the rate limiter writes the rate-limit tracker *)

Lemma keeps_ret {A} (a : A) : keepsTracker (ret a).
Proof. intros w. reflexivity. Qed.

Lemma keeps_throw {A} e : keepsTracker (@throw A e).
Proof. intros w. reflexivity. Qed.

Lemma keeps_bind {A B} (c : M A) (k : A -> M B) :
  keepsTracker c -> (forall a, keepsTracker (k a)) -> keepsTracker (bind c k).
Proof.
  intros Hc Hk w. unfold bind. specialize (Hc w).
  destruct (c w) as [[a | e] w1]; cbn in *; [| exact Hc].
  now rewrite Hk.
Qed.

Lemma keeps_try_catch {A} (body : M A) handler :
  keepsTracker body -> (forall e, keepsTracker (handler e)) ->
  keepsTracker (try_catch body handler).
Proof.
  intros Hb Hh w. unfold try_catch. specialize (Hb w).
  destruct (body w) as [[a | e] w1]; cbn in *; [exact Hb |].
  now rewrite Hh.
Qed.

Lemma keeps_get v k : keepsTracker (get v k).
Proof. unfold get. destruct (nullish v); intros w; reflexivity. Qed.

Lemma keeps_dateNow : keepsTracker dateNow.
Proof. intros w. reflexivity. Qed.

Lemma keeps_emit e : keepsTracker (emit e).
Proof. intros w. reflexivity. Qed.

Lemma keeps_sleep ms : keepsTracker (sleep ms).
Proof. intros w. reflexivity. Qed.

Lemma keeps_fetch method params r : keepsTracker (fetch method params r).
Proof. intros w. unfold fetch. now destruct (remote w (fetched w)). Qed.

Lemma keeps_getCache : keepsTracker getCache.
Proof. intros w. reflexivity. Qed.

Lemma keeps_putCache c : keepsTracker (putCache c).
Proof. intros w. reflexivity. Qed.

Lemma keeps_interpolate v : keepsTracker (interpolate v).
Proof. unfold interpolate. destruct (printable v); intros w; reflexivity. Qed.

Create HintDb frame.

#[local] Hint Resolve keeps_ret keeps_throw keeps_get keeps_interpolate
  keeps_dateNow keeps_emit keeps_sleep keeps_fetch keeps_getCache
  keeps_putCache : frame.

(** Walk a computation along its binds, handlers and branches. *)
Ltac frame :=
  repeat first
    [ progress intros
    | solve [auto with frame]
    | match goal with
      | |- keepsTracker (if ?b then _ else _) => destruct b
      | |- keepsTracker (match ?x with _ => _ end) => destruct x
      end
    | apply keeps_bind
    | apply keeps_try_catch ].

Lemma keeps_makeApiRequest_from cfg fuel : forall method params r,
  keepsTracker (makeApiRequest_from cfg fuel method params r).
Proof.
  induction fuel as [| fuel IH]; intros method params r;
    cbn [makeApiRequest_from]; [apply keeps_throw |].
  frame.
Qed.

Lemma keeps_makeApiRequest cfg method params :
  keepsTracker (makeApiRequest cfg method params).
Proof. apply keeps_makeApiRequest_from. Qed.

#[local] Hint Resolve keeps_makeApiRequest : frame.

Lemma keeps_getChatInfo cfg chatId : keepsTracker (getChatInfo cfg chatId).
Proof. unfold getChatInfo. frame. Qed.

#[local] Hint Resolve keeps_getChatInfo : frame.

Lemma keeps_detectCrossChannelReply cfg message :
  keepsTracker (detectCrossChannelReply cfg message).
Proof.
  unfold detectCrossChannelReply, detectCases, detectReplyCases. cbv zeta.
  frame.
Qed.

Lemma keeps_sendWarningMessage cfg chatId isEdited :
  keepsTracker (sendWarningMessage cfg chatId isEdited).
Proof.
  unfold sendWarningMessage, waitUntil_scheduleMessageDeletion. frame.
Qed.

#[local] Hint Resolve keeps_detectCrossChannelReply keeps_sendWarningMessage
  : frame.

Lemma keeps_deleteCrossChannelReply cfg message isEdited :
  keepsTracker (deleteCrossChannelReply cfg message isEdited).
Proof. unfold deleteCrossChannelReply. frame. Qed.

Lemma keeps_handlePrivateMessage cfg message :
  keepsTracker (handlePrivateMessage cfg message).
Proof. unfold handlePrivateMessage. frame. Qed.

#[local] Hint Resolve keeps_deleteCrossChannelReply keeps_handlePrivateMessage
  : frame.

Lemma keeps_handleMessage cfg message isEdited :
  keepsTracker (handleMessage cfg message isEdited).
Proof. unfold handleMessage. frame. Qed.

#[local] Hint Resolve keeps_handleMessage : frame.

Lemma keeps_processUpdate cfg update : keepsTracker (processUpdate cfg update).
Proof. unfold processUpdate. frame. Qed.

#[local] Hint Resolve keeps_processUpdate : frame.

Lemma keeps_handleWebhook cfg request : keepsTracker (handleWebhook cfg request).
Proof. unfold handleWebhook. frame. Qed.

Lemma keeps_setupWebhook cfg request : keepsTracker (setupWebhook cfg request).
Proof. unfold setupWebhook. frame. Qed.

(** ** The rate limiter *)

Section RateLimiter.

Variable cfg : Config.

Lemma validAfter_all ws (l : list Z) :
  Forall (fun ts => ws < ts) l -> validAfter ws l = l.
Proof.
  unfold validAfter. induction 1 as [| ts l Hts _ IH]; [reflexivity |].
  rewrite filter_cons, decide_True by exact Hts. now rewrite IH.
Qed.

Lemma validAfter_idem ws (l : list Z) :
  validAfter ws (validAfter ws l) = validAfter ws l.
Proof. unfold validAfter. apply list_filter_filter_l. auto. Qed.

Lemma validAfter_Forall ws (l : list Z) :
  Forall (fun ts => ws < ts) (validAfter ws l).
Proof.
  apply Forall_forall. intros ts Hin.
  apply list_elem_of_filter in Hin. tauto.
Qed.

Lemma entry_cleanup ws (tracker : gmap string (list Z)) ip :
  entry (omap (cleanupEntry ws) tracker) ip = validAfter ws (entry tracker ip).
Proof.
  unfold entry. rewrite lookup_omap.
  destruct (tracker !! ip) as [l |]; cbn -[validAfter]; [| reflexivity].
  unfold cleanupEntry.
  destruct (validAfter ws l) as [| ts rest]; reflexivity.
Qed.

Lemma entry_insert (tracker : gmap string (list Z)) ip l :
  entry (<[ip := l]> tracker) ip = l.
Proof. unfold entry. now rewrite lookup_insert_eq. Qed.

Lemma entry_insert_ne (tracker : gmap string (list Z)) ip ip' l :
  ip <> ip' -> entry (<[ip := l]> tracker) ip' = entry tracker ip'.
Proof. intros Hne. unfold entry. now rewrite lookup_insert_ne. Qed.

(** What one check does to the entry of each address. *)
Lemma checkRateLimit_spec request w :
  let ip := getClientIP request in
  let windowStart := clock w - RATE_LIMIT_WINDOW cfg in
  let valid := validAfter windowStart (entry (rateLimitTracker w) ip) in
  exists r w',
    checkRateLimit cfg request w = (Normal r, w')
    /\ allowed r = (length valid <? MAX_REQUESTS_PER_WINDOW cfg)%nat
    /\ entry (rateLimitTracker w') ip
       = (if allowed r then valid ++ [clock w] else valid)%list
    /\ (forall ip', ip' <> ip ->
          entry (rateLimitTracker w') ip'
          = validAfter windowStart (entry (rateLimitTracker w) ip'))
    /\ trace w' = trace w /\ fetched w' = fetched w /\ remote w' = remote w
    /\ chatInfoCache w' = chatInfoCache w /\ clock w' = clock w.
Proof.
  intros ip windowStart valid.
  set (tracker' := omap (cleanupEntry windowStart) (rateLimitTracker w)).
  assert (Hvalid : validAfter windowStart (default [] (tracker' !! ip)) = valid).
  { fold (entry tracker' ip). unfold tracker'.
    rewrite entry_cleanup. apply validAfter_idem. }
  unfold checkRateLimit, bind, dateNow, getTracker, putTracker, ret.
  cbn -[validAfter entry Nat.leb Nat.ltb].
  fold ip. fold windowStart. fold tracker'. rewrite Hvalid.
  destruct (Nat.leb_spec (MAX_REQUESTS_PER_WINDOW cfg) (length valid))
    as [Hfull | Hroom];
    eexists _, _; (split; [reflexivity |]); cbn -[validAfter entry Nat.ltb].
  - destruct (Nat.ltb_spec (length valid) (MAX_REQUESTS_PER_WINDOW cfg)); [lia |].
    unfold tracker'. rewrite entry_cleanup.
    repeat split; try reflexivity. intros ip' _. apply entry_cleanup.
  - destruct (Nat.ltb_spec (length valid) (MAX_REQUESTS_PER_WINDOW cfg)); [| lia].
    rewrite entry_insert.
    repeat split; try reflexivity. intros ip' Hne.
    rewrite entry_insert_ne by congruence. apply entry_cleanup.
Qed.

Lemma setupWebhook_status request w :
  exists response w',
    setupWebhook cfg request w = (Normal response, w')
    /\ (status response = 200 \/ status response = 500).
Proof.
  unfold setupWebhook, try_catch, bind at 1.
  match goal with
  | |- context [makeApiRequest cfg ?m ?p w] =>
      destruct (makeApiRequest_returns cfg m p w) as (v & w1 & Hrun);
      rewrite Hrun
  end.
  unfold bind, dateNow, ret.
  destruct (negb (strict_eq v JNull)); eexists _, _; split;
    try reflexivity; cbn; auto.
Qed.

(** The router past the rate limiter never answers 429. *)
Lemma handleRequest_limit request w :
  exists r w1 response w2,
    checkRateLimit cfg request w = (Normal r, w1)
    /\ handleRequest cfg request w = (Normal response, w2)
    /\ rateLimitTracker w2 = rateLimitTracker w1
    /\ (if allowed r then status response <> 429
        else response = tooManyRequests /\ w2 = w1).
Proof.
  destruct (checkRateLimit_spec request w) as (r & w1 & Hcheck & _).
  exists r, w1. unfold handleRequest, bind at 1. rewrite Hcheck.
  destruct (allowed r); cbn [negb].
  2: { eexists _, _. repeat split; reflexivity. }
  destruct (String.eqb (req_pathname request) "/health"
            && String.eqb (req_method request) "GET").
  { eexists _, _. repeat split; try reflexivity. cbn. lia. }
  destruct (String.eqb (req_pathname request) "/webhook"
            && String.eqb (req_method request) "POST").
  { pose proof (keeps_handleWebhook cfg request w1) as Hkeep.
    rewrite handleWebhook_cases in *.
    destruct (negb (jsonContentType request));
      [eexists _, _; repeat split; try reflexivity; cbn; lia |].
    destruct (req_json request) as [update |];
      [| eexists _, _; repeat split; try reflexivity; cbn; lia].
    destruct (negb (acceptedUpdate update));
      [| destruct (printable (field update "update_id"))];
      eexists _, _; (split; [reflexivity |]); (split; [reflexivity |]);
      (split; [exact Hkeep | cbn; lia]). }
  destruct (String.eqb (req_pathname request) "/setup"
            && String.eqb (req_method request) "GET").
  { destruct (setupWebhook_status request w1) as (response & w2 & Hrun & Hst).
    pose proof (keeps_setupWebhook cfg request w1) as Hkeep.
    rewrite Hrun in *. exists response, w2.
    repeat split; try reflexivity; [exact Hkeep | lia]. }
  eexists _, _. repeat split; try reflexivity. cbn. lia.
Qed.

(** One request, seen from the entry of its address and of the others. *)
Lemma handleRequest_entry request w :
  let ip := getClientIP request in
  let windowStart := clock w - RATE_LIMIT_WINDOW cfg in
  let valid := validAfter windowStart (entry (rateLimitTracker w) ip) in
  exists response w2,
    handleRequest cfg request w = (Normal response, w2)
    /\ (if (length valid <? MAX_REQUESTS_PER_WINDOW cfg)%nat
        then status response <> 429
             /\ entry (rateLimitTracker w2) ip = (valid ++ [clock w])%list
        else response = tooManyRequests
             /\ entry (rateLimitTracker w2) ip = valid)
    /\ (forall ip', ip' <> ip ->
          entry (rateLimitTracker w2) ip'
          = validAfter windowStart (entry (rateLimitTracker w) ip')).
Proof.
  intros ip windowStart valid.
  destruct (handleRequest_limit request w)
    as (r & w1 & response & w2 & Hcheck & Hrun & Hkeep & Hresp).
  destruct (checkRateLimit_spec request w)
    as (r' & w1' & Hcheck' & Hallowed & Hentry & Hothers & _).
  rewrite Hcheck in Hcheck'. injection Hcheck' as <- <-.
  fold ip windowStart valid in Hallowed, Hentry, Hothers.
  exists response, w2. split; [exact Hrun |]. rewrite Hkeep.
  rewrite <- Hallowed. split; [| exact Hothers].
  destruct (allowed r); [split; assumption | split; tauto].
Qed.

Lemma serve_cons request t rest w :
  exists response w2,
    handleRequest cfg request (setClock t w) = (Normal response, w2)
    /\ serve cfg ((request, t) :: rest) w
       = (response :: fst (serve cfg rest w2), snd (serve cfg rest w2)).
Proof.
  destruct (handleRequest_entry request (setClock t w))
    as (response & w2 & Hrun & _).
  exists response, w2. split; [exact Hrun |].
  cbn [serve]. rewrite Hrun. now destruct (serve cfg rest w2).
Qed.

(** Within one window, counting from [c] live timestamps of [ip]: the
    request of [ip] that has [k] earlier requests of [ip] before it is
    refused exactly when [c + k] has reached the limit. *)
Lemma serve_window ip t : forall reqs w,
  Forall (fun rt => t - RATE_LIMIT_WINDOW cfg < snd rt <= t) reqs ->
  Forall (fun ts => t - RATE_LIMIT_WINDOW cfg < ts) (entry (rateLimitTracker w) ip) ->
  length (fst (serve cfg reqs w)) = length reqs
  /\ forall i request ti response,
       reqs !! i = Some (request, ti) ->
       getClientIP request = ip ->
       fst (serve cfg reqs w) !! i = Some response ->
       if decide (length (entry (rateLimitTracker w) ip)
                  + length (fromAddress ip (take i reqs))
                  < MAX_REQUESTS_PER_WINDOW cfg)%nat
       then status response <> 429
       else response = tooManyRequests.
Proof.
  induction reqs as [| [request0 t0] rest IH]; intros w Htimes Hlive.
  - split; [reflexivity |]. intros i request ti response Hi. discriminate Hi.
  - apply Forall_cons in Htimes as [Ht0 Hrest]. cbn [snd] in Ht0.
    destruct (serve_cons request0 t0 rest w) as (response0 & w2 & Hrun & ->).
    cbn [fst].
    destruct (handleRequest_entry request0 (setClock t0 w))
      as (response0' & w2' & Hrun' & Hmine & Hothers).
    rewrite Hrun in Hrun'. injection Hrun' as <- <-.
    change (clock (setClock t0 w)) with t0 in Hmine, Hothers.
    change (rateLimitTracker (setClock t0 w)) with (rateLimitTracker w)
      in Hmine, Hothers.
    assert (Hsame : validAfter (t0 - RATE_LIMIT_WINDOW cfg)
                      (entry (rateLimitTracker w) ip)
                    = entry (rateLimitTracker w) ip).
    { apply validAfter_all. eapply Forall_impl; [exact Hlive |].
      cbn. intros ts Hts. lia. }
    destruct (String.eqb_spec (getClientIP request0) ip) as [Heq | Hne].
    + (* the request comes from [ip] *)
      rewrite Heq, Hsame in Hmine.
      destruct (Nat.ltb_spec (length (entry (rateLimitTracker w) ip))
                  (MAX_REQUESTS_PER_WINDOW cfg)) as [Hroom | Hfull];
        destruct Hmine as [Hresp Hentry].
      * destruct (IH w2 Hrest) as [Hlen Hlater].
        { rewrite Hentry. apply Forall_app. split; [exact Hlive |].
          repeat constructor. lia. }
        split; [cbn; now rewrite Hlen |].
        intros [| i] request ti response Hi Hip Hr; cbn in Hi, Hr.
        -- injection Hr as <-. cbn. rewrite Nat.add_0_r.
           destruct (decide _); [exact Hresp | lia].
        -- specialize (Hlater i request ti response Hi Hip Hr).
           rewrite Hentry, length_app in Hlater. cbn [length] in Hlater.
           unfold fromAddress in *. cbn [take List.filter fst].
           rewrite Heq, String.eqb_refl. cbn [length].
           destruct (decide _), (decide _); try assumption; lia.
      * destruct (IH w2 Hrest) as [Hlen Hlater].
        { now rewrite Hentry. }
        split; [cbn; now rewrite Hlen |].
        intros [| i] request ti response Hi Hip Hr; cbn in Hi, Hr.
        -- injection Hr as <-. destruct (decide _); [lia | exact Hresp].
        -- specialize (Hlater i request ti response Hi Hip Hr).
           rewrite Hentry in Hlater.
           destruct (decide _), (decide _); try assumption; lia.
    + (* the request comes from another address *)
      assert (Hentry : entry (rateLimitTracker w2) ip
                       = entry (rateLimitTracker w) ip).
      { rewrite Hothers by congruence. exact Hsame. }
      destruct (IH w2 Hrest) as [Hlen Hlater]; [now rewrite Hentry |].
      split; [cbn; now rewrite Hlen |].
      intros [| i] request ti response Hi Hip Hr; cbn in Hi, Hr.
      * injection Hi as -> ->. contradiction.
      * specialize (Hlater i request ti response Hi Hip Hr).
        rewrite Hentry in Hlater.
        unfold fromAddress in *. cbn [take List.filter fst].
        destruct (String.eqb_spec (getClientIP request0) ip); [contradiction |].
        exact Hlater.
Qed.

Lemma handleRequest_bounded request w :
  boundedTracker cfg (rateLimitTracker w) ->
  boundedTracker cfg (rateLimitTracker (snd (handleRequest cfg request w))).
Proof.
  intros Hb ip.
  destruct (handleRequest_entry request w)
    as (response & w2 & Hrun & Hmine & Hothers).
  rewrite Hrun. cbn [snd].
  assert (Hshrink : forall ws ip',
             (length (validAfter ws (entry (rateLimitTracker w) ip'))
              <= MAX_REQUESTS_PER_WINDOW cfg)%nat).
  { intros ws ip'. specialize (Hb ip').
    pose proof (length_filter (fun ts => ws < ts) (entry (rateLimitTracker w) ip')).
    unfold validAfter. lia. }
  destruct (decide (ip = getClientIP request)) as [-> | Hne].
  - destruct (Nat.ltb_spec
                (length (validAfter (clock w - RATE_LIMIT_WINDOW cfg)
                           (entry (rateLimitTracker w) (getClientIP request))))
                (MAX_REQUESTS_PER_WINDOW cfg)) as [Hroom | Hfull];
      destruct Hmine as [_ ->].
    + rewrite length_app. cbn. lia.
    + apply Hshrink.
  - rewrite Hothers by exact Hne. apply Hshrink.
Qed.

Lemma serve_bounded : forall reqs w,
  boundedTracker cfg (rateLimitTracker w) ->
  boundedTracker cfg (rateLimitTracker (snd (serve cfg reqs w))).
Proof.
  induction reqs as [| [request t] rest IH]; intros w Hb; [exact Hb |].
  destruct (serve_cons request t rest w) as (response & w2 & Hrun & ->).
  cbn [snd]. apply IH.
  pose proof (handleRequest_bounded request (setClock t w) Hb) as Hb2.
  now rewrite Hrun in Hb2.
Qed.

(** Once a counted timestamp has left the window there is room again. *)
Lemma handleRequest_readmits request w t ts :
  boundedTracker cfg (rateLimitTracker w) ->
  ts ∈ entry (rateLimitTracker w) (getClientIP request) ->
  ts + RATE_LIMIT_WINDOW cfg <= t ->
  exists response w',
    handleRequest cfg request (setClock t w) = (Normal response, w')
    /\ status response <> 429.
Proof.
  intros Hb Hin Hold.
  destruct (handleRequest_entry request (setClock t w))
    as (response & w2 & Hrun & Hmine & _).
  exists response, w2. split; [exact Hrun |].
  change (clock (setClock t w)) with t in Hmine.
  change (rateLimitTracker (setClock t w)) with (rateLimitTracker w) in Hmine.
  pose proof (length_filter_lt (fun x => t - RATE_LIMIT_WINDOW cfg < x) _ ts Hin)
    as Hlt.
  specialize (Hb (getClientIP request)).
  destruct (Nat.ltb_spec
              (length (validAfter (t - RATE_LIMIT_WINDOW cfg)
                         (entry (rateLimitTracker w) (getClientIP request))))
              (MAX_REQUESTS_PER_WINDOW cfg)) as [Hroom | Hfull];
    [tauto |].
  unfold validAfter in Hfull. specialize (Hlt ltac:(lia)). lia.
Qed.

End RateLimiter.

(** C3.  For every window [RATE_LIMIT_WINDOW cfg], limit
    [MAX_REQUESTS_PER_WINDOW cfg] and client address [ip]:
    (1) when the worker serves requests that all arrive within one
    window, starting with nothing counted for [ip], the requests of [ip]
    that have fewer than the limit of [ip]'s requests before them are
    admitted (not answered 429), and every later one - the (N+1)-th in
    particular - is answered 429 with a Retry-After header, whatever
    other addresses do in between;
    (2) in any state the worker reaches from an empty tracker, once the
    window has elapsed since a counted request of [ip] (the earliest one
    in particular), a new request of [ip] is admitted. *)
Theorem rate_limit_window (cfg : Config) (ip : string) :
  (forall reqs w t,
      entry (rateLimitTracker w) ip = [] ->
      Forall (fun rt => t - RATE_LIMIT_WINDOW cfg < snd rt <= t) reqs ->
      length (fst (serve cfg reqs w)) = length reqs
      /\ forall i request ti response,
           reqs !! i = Some (request, ti) ->
           getClientIP request = ip ->
           fst (serve cfg reqs w) !! i = Some response ->
           if decide (length (fromAddress ip (take i reqs))
                      < MAX_REQUESTS_PER_WINDOW cfg)%nat
           then status response <> 429
           else response = tooManyRequests)
  /\ (forall reqs w0 request t ts,
        rateLimitTracker w0 = ∅ ->
        getClientIP request = ip ->
        ts ∈ entry (rateLimitTracker (snd (serve cfg reqs w0))) ip ->
        ts + RATE_LIMIT_WINDOW cfg <= t ->
        exists response w',
          handleRequest cfg request (setClock t (snd (serve cfg reqs w0)))
          = (Normal response, w')
          /\ status response <> 429)
  /\ status tooManyRequests = 429
  /\ headers tooManyRequests = [("Retry-After", "60")].
Proof.
  split; [| split; [| split; reflexivity]].
  - intros reqs w t Hempty Htimes.
    destruct (serve_window cfg ip t reqs w Htimes) as [Hlen Hresp].
    { rewrite Hempty. constructor. }
    split; [exact Hlen |]. intros i request ti response Hi Hip Hr.
    specialize (Hresp i request ti response Hi Hip Hr).
    now rewrite Hempty in Hresp.
  - intros reqs w0 request t ts Hfresh Hip Hin Hold. subst ip.
    apply (handleRequest_readmits cfg request _ t ts); try assumption.
    apply serve_bounded. intros ip. unfold entry.
    rewrite Hfresh, lookup_empty. cbn. lia.
Qed.

(** ** The router *)

(** C9.  A request that passes the rate limiter and is none of
    GET /health, POST /webhook, GET /setup is answered 404 "Not Found";
    no fetch is issued and the trace of effects is unchanged. *)
Theorem unknown_route_not_found (cfg : Config) (request : Request)
    (w : World) (r : RateLimitResult) (w1 : World) :
  checkRateLimit cfg request w = (Normal r, w1) ->
  allowed r = true ->
  ~ (req_pathname request = "/health" /\ req_method request = "GET") ->
  ~ (req_pathname request = "/webhook" /\ req_method request = "POST") ->
  ~ (req_pathname request = "/setup" /\ req_method request = "GET") ->
  handleRequest cfg request w = (Normal (textResponse "Not Found" 404), w1)
  /\ trace w1 = trace w
  /\ fetched w1 = fetched w.
Proof.
  intros Hcheck Hallowed Hhealth Hwebhook Hsetup.
  destruct (checkRateLimit_spec cfg request w)
    as (r' & w1' & Hcheck' & _ & _ & _ & Htrace & Hfetched & _).
  rewrite Hcheck in Hcheck'. injection Hcheck' as <- <-.
  split; [| split; assumption].
  unfold handleRequest, bind. rewrite Hcheck, Hallowed. cbn [negb].
  destruct (String.eqb_spec (req_pathname request) "/health"),
           (String.eqb_spec (req_method request) "GET"),
           (String.eqb_spec (req_pathname request) "/webhook"),
           (String.eqb_spec (req_method request) "POST"),
           (String.eqb_spec (req_pathname request) "/setup");
    cbn [andb]; try tauto; reflexivity.
Qed.

(** ** The theorems at concrete inputs *)

Lemma external_reply_classification_witness :
  let message := externalReplyMessage (JNum (-1009)) in
  let w0 := freshWorld (linkedService (JNum (-1009))) 0 in
  nullish (field message "chat") = false
  /\ truthy (field message "external_reply") = true
  /\ printable (field message "message_id") = true
  /\ exists r w',
       detectCrossChannelReply CONFIG message w0 = (Normal r, w')
       /\ isCrossChannel r = true /\ isExternal r = false.
Proof.
  intros message w0. split; [reflexivity |]. split; [reflexivity |].
  split; [reflexivity |].
  destruct (external_reply_classification CONFIG message w0
              eq_refl eq_refl eq_refl eq_refl eq_refl)
    as (info & w' & Hget & _ & Hreturns).
  destruct (Hreturns eq_refl eq_refl)
    as (r & Hrun & Hcross & _ & Hlinked & _).
  exists r, w'. split; [exact Hrun |]. split; [exact Hcross |].
  apply Hlinked. vm_compute in Hget. injection Hget as <- _.
  repeat split.
Defined.

Lemma unresolvable_origin_classification_witness :
  let w0 := freshWorld (linkedService (JNum (-1009))) 0 in
  nullish (field hiddenForwardReply "chat") = false
  /\ unresolvableOrigin hiddenForwardReply
  /\ isExternal (classifyWith hiddenForwardReply JNull) = true
  /\ exists info w',
       getChatInfo CONFIG (field (field hiddenForwardReply "chat") "id") w0
       = (Normal info, w')
       /\ detectCrossChannelReply CONFIG hiddenForwardReply w0
          = (Normal (classifyWith hiddenForwardReply JNull), w').
Proof.
  intros w0.
  assert (Hrule : unresolvableOrigin hiddenForwardReply) by (left; reflexivity).
  split; [reflexivity |]. split; [exact Hrule |].
  destruct (unresolvable_origin_classification CONFIG hiddenForwardReply w0
              eq_refl eq_refl Hrule)
    as (_ & _ & Hext & info & w' & Hget & Hreturns & _).
  split; [exact Hext |]. exists info, w'. split; [exact Hget |].
  apply Hreturns; [reflexivity | intros Habs; discriminate Habs].
Defined.

Lemma rate_limit_window_witness :
  let ip := "203.0.113.7" in
  let reqs := burst 31 ip 1000 in
  let w0 := freshWorld offlineService 0 in
  entry (rateLimitTracker w0) ip = []
  /\ Forall (fun rt => 1000 - RATE_LIMIT_WINDOW CONFIG < snd rt <= 1000) reqs
  /\ (exists response,
        fst (serve CONFIG reqs w0) !! 29%nat = Some response
        /\ status response <> 429)
  /\ fst (serve CONFIG reqs w0) !! 30%nat = Some tooManyRequests
  /\ 1000 ∈ entry (rateLimitTracker (snd (serve CONFIG reqs w0))) ip
  /\ exists response w',
       handleRequest CONFIG (requestFrom ip "/health")
         (setClock 61000 (snd (serve CONFIG reqs w0)))
       = (Normal response, w')
       /\ status response <> 429.
Proof.
  intros ip reqs w0.
  assert (Hcounted : 1000 ∈ entry (rateLimitTracker (snd (serve CONFIG reqs w0))) ip).
  { replace (entry (rateLimitTracker (snd (serve CONFIG reqs w0))) ip)
      with (replicate 30 1000) by (vm_compute; reflexivity).
    left. }
  assert (Htimes : Forall (fun rt => 1000 - RATE_LIMIT_WINDOW CONFIG < snd rt <= 1000)
                     reqs).
  { apply Forall_replicate. cbn. lia. }
  split; [reflexivity |]. split; [exact Htimes |].
  destruct (proj1 (rate_limit_window CONFIG ip) reqs w0 1000 eq_refl Htimes)
    as [_ Hresp].
  split.
  - eexists. split; [vm_compute; reflexivity |].
    refine (Hresp 29%nat (requestFrom ip "/health") 1000 _ eq_refl eq_refl _).
    vm_compute. reflexivity.
  - split; [| split; [exact Hcounted |]].
    + assert (Hlast : exists response,
                 fst (serve CONFIG reqs w0) !! 30%nat = Some response)
        by (eexists; vm_compute; reflexivity).
      destruct Hlast as (response & Hlast). rewrite Hlast. f_equal.
      exact (Hresp 30%nat (requestFrom ip "/health") 1000 response
               eq_refl eq_refl Hlast).
    + refine (proj1 (proj2 (rate_limit_window CONFIG ip)) reqs w0
                (requestFrom ip "/health") 61000 1000 eq_refl eq_refl
                Hcounted _).
      cbn. lia.
Defined.

Lemma getChatInfo_caching_witness :
  let chatId := JNum (-1005) in
  let w0 := freshWorld (linkedService (JNum (-1009))) 0 in
  let w1 := snd (getChatInfo CONFIG chatId w0) in
  let stale := setClock 300000 w1 in
  (exists r2 w2,
      getChatInfo CONFIG chatId (setClock 299999 w1) = (Normal r2, w2)
      /\ (apiCalls "getChat" (trace w2) <= 1)%nat)
  /\ (exists r w',
        getChatInfo CONFIG chatId stale = (Normal r, w')
        /\ apiCalls "getChat" (trace w') = 2%nat)
  /\ getChatInfo CONFIG chatId (freshWorld offlineService 0)
     = (Normal JNull,
        snd (makeApiRequest CONFIG "getChat" (JObj [("chat_id", chatId)])
               (freshWorld offlineService 0))).
Proof.
  intros chatId w0 w1 stale. split; [| split].
  - destruct (proj1 (getChatInfo_caching CONFIG chatId w0))
      as (r1 & w1' & Hget & Hsecond).
    assert (Hr : truthy r1 = true)
      by (vm_compute in Hget; now injection Hget as <- _).
    assert (Hw : w1 = w1') by (unfold w1; now rewrite Hget).
    rewrite Hw. apply (Hsecond Hr 299999). cbn. lia.
  - refine (proj1 (proj2 (getChatInfo_caching CONFIG chatId stale))
              {| data := JObj [("id", JNum (-1005)); ("type", JStr "supergroup");
                               ("linked_chat_id", JNum (-1009))];
                 timestamp := 0 |} _ _).
    + vm_compute. reflexivity.
    + cbn. lia.
  - refine (proj1 (proj2 (proj2 (getChatInfo_caching CONFIG chatId
                                   (freshWorld offlineService 0))) I _ _)).
    vm_compute. reflexivity.
Defined.


Lemma handleWebhook_status_witness :
  let request := webhookRequest (Some startWithoutSender) in
  let w0 := freshWorld offlineService 0 in
  jsonContentType request = true
  /\ acceptedUpdate startWithoutSender = true
  /\ printable (field startWithoutSender "update_id") = true
  /\ fst (handlePrivateMessage CONFIG (field startWithoutSender "message") w0)
     = Normal tt
  /\ exists w',
       processUpdate CONFIG startWithoutSender w0 = (Normal tt, w')
       /\ handleWebhook CONFIG request w0 = (Normal (textResponse "OK" 200), w').
Proof.
  intros request w0. split; [reflexivity |]. split; [reflexivity |].
  split; [reflexivity |]. split; [reflexivity |].
  exact (proj1 (proj2 (proj2 (proj2 (handleWebhook_status CONFIG request w0))))
           startWithoutSender eq_refl eq_refl eq_refl eq_refl).
Defined.

Lemma deleteCrossChannelReply_sequence_witness :
  let message := externalReplyMessage (JNum (-1009)) in
  let sent := JObj [("message_id", JNum 77)] in
  let w0 := freshWorld (moderationService sent) 0 in
  nullish message = false
  /\ nullish (field message "chat") = false
  /\ printable (field message "message_id") = true
  /\ printable (field (field message "chat") "id") = true
  /\ trace (snd (deleteCrossChannelReply CONFIG message false w0))
     = [EvFetch "deleteMessage" (deleteParams (JNum (-1005)) (JNum 1)) 0;
        EvFetch "sendMessage" (warningParams CONFIG (JNum (-1005))) 0;
        EvWaitUntil (JNum (-1005)) (JNum 77) 10000].
Proof.
  intros message sent w0. split; [reflexivity |]. split; [reflexivity |].
  split; [reflexivity |]. split; [reflexivity |].
  destruct (proj1 (deleteCrossChannelReply_sequence CONFIG message false w0
                     eq_refl eq_refl) eq_refl eq_refl)
    as (deleteResult & w1 & sendResult & w2 & Hdel & Hsend & Hrun & _).
  rewrite Hrun. vm_compute in Hdel. injection Hdel as <- <-.
  vm_compute in Hsend. injection Hsend as <- <-.
  reflexivity.
Defined.

Lemma classification_invariant_witness :
  let w0 := freshWorld (linkedService (JNum (-1009))) 0 in
  let r := {| isCrossChannel := false; isExternal := false;
              channelInfo := JObj []; replyType := none |} in
  detectCrossChannelReply CONFIG plainMessage w0
  = (Normal r, snd (detectCrossChannelReply CONFIG plainMessage w0))
  /\ (isExternal r = true -> isCrossChannel r = true)
  /\ (replyType r = none -> isCrossChannel r = false /\ isExternal r = false).
Proof.
  intros w0 r.
  assert (Hrun : detectCrossChannelReply CONFIG plainMessage w0
                 = (Normal r, snd (detectCrossChannelReply CONFIG plainMessage w0)))
    by (vm_compute; reflexivity).
  split; [exact Hrun |].
  exact (classification_invariant CONFIG plainMessage w0 r _ Hrun).
Defined.

Lemma unknown_route_not_found_witness :
  let request := requestFrom "203.0.113.7" "/nowhere" in
  let w0 := freshWorld offlineService 0 in
  let w1 := snd (checkRateLimit CONFIG request w0) in
  checkRateLimit CONFIG request w0
  = (Normal {| allowed := true; count := 1 |}, w1)
  /\ handleRequest CONFIG request w0 = (Normal (textResponse "Not Found" 404), w1)
  /\ trace w1 = trace w0
  /\ fetched w1 = fetched w0.
Proof.
  intros request w0 w1.
  assert (Hcheck : checkRateLimit CONFIG request w0
                   = (Normal {| allowed := true; count := 1 |}, w1))
    by (vm_compute; reflexivity).
  split; [exact Hcheck |].
  apply (unknown_route_not_found CONFIG request w0 _ w1 Hcheck eq_refl);
    intros [Hpath _]; discriminate Hpath.
Defined.

Lemma falsy_update_id_rejected_witness :
  let fields := [("update_id", JNum 0); ("message", plainMessage)] in
  let request := webhookRequest (Some (JObj fields)) in
  let w0 := freshWorld offlineService 0 in
  assoc "update_id" fields = Some (JNum 0)
  /\ truthy (JNum 0) = false
  /\ handleWebhook CONFIG request w0
     = (Normal (textResponse "Invalid update format" 400), w0).
Proof.
  intros fields request w0. split; [reflexivity |]. split; [reflexivity |].
  exact (falsy_update_id_rejected CONFIG request w0 fields (JNum 0)
           eq_refl eq_refl eq_refl eq_refl).
Defined.

(** ** End to end *)

(** A group message replying to a channel that is not the linked one is
    deleted, the warning is sent and its deletion is handed to the
    runtime; the platform is answered 200. *)
Example external_reply_end_to_end :
  let w0 := freshWorld scenarioService 0 in
  let run := worker_fetch CONFIG {| BOT_TOKEN := Some "123:abc" |}
               (webhookRequest (Some scenarioUpdate)) w0 in
  fst run = Normal (textResponse "OK" 200)
  /\ trace (snd run)
     = [EvFetch "getChat" (JObj [("chat_id", JNum (-1005))]) 0;
        EvFetch "deleteMessage" (deleteParams (JNum (-1005)) (JNum 1)) 0;
        EvFetch "sendMessage" (warningParams CONFIG (JNum (-1005))) 0;
        EvWaitUntil (JNum (-1005)) (JNum 9) 10000].
Proof. vm_compute. split; reflexivity. Qed.

(** A private [/start] is answered with the greeting and nothing is
    classified or deleted. *)
Example private_start_end_to_end :
  let update :=
    JObj [("update_id", JNum 1002);
          ("message",
           JObj [("message_id", JNum 6);
                 ("from", JObj [("id", JNum 31); ("first_name", JStr "Ada")]);
                 ("chat", JObj [("id", JNum 31); ("type", JStr "private")]);
                 ("text", JStr " /start ")])] in
  let run := worker_fetch CONFIG {| BOT_TOKEN := Some "123:abc" |}
               (webhookRequest (Some update)) (freshWorld scenarioService 0) in
  fst run = Normal (textResponse "OK" 200)
  /\ trace (snd run)
     = [EvFetch "sendMessage"
          (JObj [("chat_id", JNum 31); ("text", JStr startMessage);
                 ("parse_mode", JStr "Markdown");
                 ("disable_web_page_preview", JBool true)]) 0].
Proof. vm_compute. split; reflexivity. Qed.

(** A body that is not JSON is answered 400 and no API call is made. *)
Example malformed_body_end_to_end :
  let w0 := freshWorld scenarioService 0 in
  let run := worker_fetch CONFIG {| BOT_TOKEN := Some "123:abc" |}
               (webhookRequest None) w0 in
  fst run = Normal (textResponse "Invalid JSON" 400)
  /\ trace (snd run) = [].
Proof. vm_compute. split; reflexivity. Qed.

(** A delivery whose update id cannot be converted to a string is
    answered 500 and nothing is processed. *)
Example unprintable_update_id_end_to_end :
  let update := JObj [("update_id", JObj [("toString", JNum 1)]);
                      ("message", externalReplyMessage (JNum (-100123)))] in
  let w0 := freshWorld scenarioService 0 in
  let run := worker_fetch CONFIG {| BOT_TOKEN := Some "123:abc" |}
               (webhookRequest (Some update)) w0 in
  fst run = Normal (textResponse "Internal Server Error" 500)
  /\ trace (snd run) = [].
Proof. vm_compute. split; reflexivity. Qed.

(** A reply to a hidden forward whose sender name cannot be converted
    to a string is classified external, but the log line of line 264
    throws: the chat is looked up, nothing is deleted, and the platform
    is answered 200. *)
Example unprintable_sender_name_end_to_end :
  let message :=
    JObj [("message_id", JNum 2);
          ("chat", groupChat);
          ("reply_to_message",
           JObj [("forward_sender_name", JObj [("toString", JNum 1)])])] in
  let update := JObj [("update_id", JNum 1004); ("message", message)] in
  let w0 := freshWorld scenarioService 0 in
  let run := worker_fetch CONFIG {| BOT_TOKEN := Some "123:abc" |}
               (webhookRequest (Some update)) w0 in
  isExternal (classifyWith message JNull) = true
  /\ fst run = Normal (textResponse "OK" 200)
  /\ trace (snd run) = [EvFetch "getChat" (JObj [("chat_id", JNum (-1005))]) 0].
Proof. vm_compute. repeat split. Qed.

(** A message of a channel chat whose id cannot be converted to a
    string makes [handleMessage] throw, from the log line of its own
    handler; [processUpdate] catches it, and the edited message of the
    same update is not handled. *)
Example unprintable_message_id_end_to_end :
  let message :=
    JObj [("message_id", JObj [("toString", JNum 1)]);
          ("chat", JObj [("id", JNum (-1009)); ("type", JStr "channel")])] in
  let update := JObj [("update_id", JNum 1005);
                      ("message", message);
                      ("edited_message", externalReplyMessage (JNum (-100123)))] in
  let w0 := freshWorld scenarioService 0 in
  let run := worker_fetch CONFIG {| BOT_TOKEN := Some "123:abc" |}
               (webhookRequest (Some update)) w0 in
  fst (handleMessage CONFIG message false w0) = Throw TypeError
  /\ fst run = Normal (textResponse "OK" 200)
  /\ trace (snd run) = [].
Proof. vm_compute. repeat split. Qed.

(** The start command is recognised behind a no-break space (U+00A0),
    which [trim] strips. *)
Example no_break_space_start_end_to_end :
  let message :=
    JObj [("message_id", JNum 6);
          ("from", JObj [("id", JNum 31); ("first_name", JStr "Ada")]);
          ("chat", JObj [("id", JNum 31); ("type", JStr "private")]);
          ("text", JStr (utf8 [194; 160]%nat +:+ "/start"))] in
  let w0 := freshWorld scenarioService 0 in
  trace (snd (handleMessage CONFIG message false w0))
  = [EvFetch "sendMessage"
       (JObj [("chat_id", JNum 31); ("text", JStr startMessage);
              ("parse_mode", JStr "Markdown");
              ("disable_web_page_preview", JBool true)]) 0].
Proof. vm_compute. reflexivity. Qed.

(** A private start command whose sender id cannot be converted to a
    string gets no reply: the log line of line 295 throws. *)
Example unprintable_sender_id_end_to_end :
  let message :=
    JObj [("message_id", JNum 6);
          ("from", JObj [("id", JObj [("toString", JNum 1)]);
                         ("first_name", JStr "Ada")]);
          ("chat", JObj [("id", JNum 31); ("type", JStr "private")]);
          ("text", JStr "/start")] in
  let w0 := freshWorld scenarioService 0 in
  handleMessage CONFIG message false w0 = (Normal tt, w0).
Proof. vm_compute. reflexivity. Qed.

(** * Further properties of the worker *)

(** ** Cost and shape of one call of the API client *)

Lemma backoff_nonneg r : 0 <= backoff r.
Proof. unfold backoff. pose proof (Z.pow_nonneg 2 (Z.of_nat r)). lia. Qed.

Lemma retriesWorld_clock method params k : forall r w,
  clock (retriesWorld method params r k w)
  = clock w + backoff r * (2 ^ Z.of_nat k - 1).
Proof.
  induction k as [| k IH]; intros r w; cbn [retriesWorld].
  - cbn. lia.
  - rewrite IH. unfold retriedWorld, fetchedWorld, fetch, sleep.
    assert (Hclock : forall o, clock (snd (match o with
              | FetchRejected e => (@Throw (bool * option JsVal) e,
                  {| clock := clock w; chatInfoCache := chatInfoCache w;
                     rateLimitTracker := rateLimitTracker w; remote := remote w;
                     fetched := S (fetched w);
                     trace := (trace w ++ [EvFetch method params r])%list |})
              | FetchResponse ok body => (Normal (ok, body),
                  {| clock := clock w; chatInfoCache := chatInfoCache w;
                     rateLimitTracker := rateLimitTracker w; remote := remote w;
                     fetched := S (fetched w);
                     trace := (trace w ++ [EvFetch method params r])%list |})
              end)) = clock w) by (intros []; reflexivity).
    cbn [snd clock]. rewrite Hclock.
    unfold backoff. rewrite !Nat2Z.inj_succ, !Z.pow_succ_r by lia. lia.
Qed.

Lemma fetchedWorld_clock method params r w :
  clock (fetchedWorld method params r w) = clock w.
Proof. unfold fetchedWorld, fetch. now destruct (remote w (fetched w)). Qed.

(** The events of one call: the first attempt, then what follows it,
    none of which is a first attempt. *)
Lemma makeApiRequest_shape cfg m params w :
  exists v w' rest,
    makeApiRequest cfg m params w = (Normal v, w')
    /\ trace w' = (trace w ++ EvFetch m params 0 :: rest)%list
    /\ (forall method, apiCalls method rest = 0%nat)
    /\ chatInfoCache w' = chatInfoCache w
    /\ clock w <= clock w'.
Proof.
  destruct (makeApiRequest_run cfg m params w) as (v & k & _ & Hrun & _).
  destruct (fetchedWorld_facts m params k (retriesWorld m params 0 k w))
    as (_ & _ & Hc & _ & He).
  destruct (retriesWorld_fetched m params k 0%nat w) as (_ & _ & Hc' & _ & He').
  pose proof (fetchedWorld_clock m params k (retriesWorld m params 0 k w)) as Hk.
  rewrite retriesWorld_clock in Hk.
  assert (Hpow : 1 <= 2 ^ Z.of_nat k) by (apply Z.pow_le_mono_r with (b := 0); lia).
  pose proof (backoff_nonneg 0).
  exists v, (fetchedWorld m params k (retriesWorld m params 0 k w)).
  destruct k as [| k].
  - exists []. rewrite He, He', Hc, Hc', Hk. unfold attemptEvents. cbn [seq flat_map].
    rewrite app_nil_r. repeat split; try assumption; try reflexivity. nia.
  - exists (EvSleep (backoff 0) :: attemptEvents m params 1 k
            ++ [EvFetch m params (S k)])%list.
    rewrite He, He', Hc, Hc', Hk. unfold attemptEvents. cbn [seq flat_map].
    rewrite <- !app_assoc. cbn [app].
    repeat split; try assumption; try reflexivity; [| nia].
    intros method.
    change (EvSleep (backoff 0) :: ?l) with ([EvSleep (backoff 0)] ++ l)%list.
    rewrite !apiCalls_app. fold (attemptEvents m params 1 k).
    rewrite apiCalls_later_attempts. reflexivity.
Qed.

(** X1.  One call of the API client issues at most [MAX_RETRIES + 1]
    fetches and waits, in back-off delays, exactly 1000 * (2^k - 1) ms
    when it makes [k] retries: never more than
    1000 * (2^MAX_RETRIES - 1) ms. *)
Theorem makeApiRequest_cost (cfg : Config) (method : string) (params : JsVal)
    (w : World) :
  exists v w' k,
    makeApiRequest cfg method params w = (Normal v, w')
    /\ (k <= MAX_RETRIES cfg)%nat
    /\ fetched w' = (fetched w + k + 1)%nat
    /\ clock w' = clock w + 1000 * (2 ^ Z.of_nat k - 1)
    /\ clock w' - clock w <= 1000 * (2 ^ Z.of_nat (MAX_RETRIES cfg) - 1).
Proof.
  destruct (makeApiRequest_run cfg method params w) as (v & k & Hk & Hrun & _).
  exists v, (fetchedWorld method params k (retriesWorld method params 0 k w)), k.
  destruct (fetchedWorld_facts method params k (retriesWorld method params 0 k w))
    as (Hf & _).
  destruct (retriesWorld_fetched method params k 0%nat w) as (Hf' & _).
  rewrite Hf, Hf', fetchedWorld_clock, retriesWorld_clock.
  assert (Hmono : 2 ^ Z.of_nat k <= 2 ^ Z.of_nat (MAX_RETRIES cfg))
    by (apply Z.pow_le_mono_r; lia).
  change (backoff 0) with 1000.
  repeat split; try assumption; lia.
Qed.

(** ** The classifier, over all its rules *)

Lemma strict_eq_null_truthy v : truthy v = true -> strict_eq v JNull = false.
Proof. destruct v; cbn; congruence. Qed.

Lemma linkedTo_null info : linkedTo info JNull = false.
Proof.
  unfold linkedTo, isLinkedChannel. rewrite !truthy_js_and.
  destruct (truthy info); [| reflexivity].
  destruct (truthy (field info "linked_chat_id")) eqn:Hl; [| reflexivity].
  cbn. now rewrite strict_eq_null_truthy.
Qed.

Lemma truthy_js_or_default a (s : string) :
  s <> "" -> truthy (js_or a (JStr s)) = true.
Proof.
  intros Hs. unfold js_or. destruct (truthy a) eqn:Ha; [exact Ha |].
  cbn. destruct (String.eqb_spec s ""); [contradiction | reflexivity].
Qed.

(** X2.  Whatever rule classifies a message as cross-channel, the result
    is external exactly when the channel it records is not the linked
    channel of the current chat (the linked test of [isLinkedChannel] on
    the recorded id), and the recorded title is never empty. *)
Theorem classification_external_iff_not_linked (message info : JsVal) :
  let r := classifyWith message info in
  isCrossChannel r = true ->
  isExternal r = negb (linkedTo info (field (channelInfo r) "id"))
  /\ truthy (field (channelInfo r) "title") = true.
Proof.
  unfold classifyWith, classifyReplyTo.
  case_ifs; cbn -[linkedTo]; intros Hcross; try discriminate Hcross;
    rewrite ?linkedTo_null; try match goal with
    | H : linkedTo _ _ = _ |- _ => rewrite H
    end; (split; [reflexivity |]);
    try (apply truthy_js_or_default; discriminate).
  all: reflexivity.
Qed.

(** ** Message dispatch *)

Lemma apiCalls_cons_fetch method m params rest :
  apiCalls method (EvFetch m params 0 :: rest)
  = ((if String.eqb m method then 1 else 0) + apiCalls method rest)%nat.
Proof. unfold apiCalls. cbn. now destruct (String.eqb m method). Qed.

(** The events of the metadata lookup: at most one API call, of
    [getChat]. *)
Lemma getChatInfo_trace cfg chatId w :
  exists info w1 evs,
    getChatInfo cfg chatId w = (Normal info, w1)
    /\ trace w1 = (trace w ++ evs)%list
    /\ (apiCalls "getChat" evs <= 1)%nat
    /\ (forall method, method <> "getChat" -> apiCalls method evs = 0%nat).
Proof.
  assert (Hmiss : cacheMiss cfg (cacheKeyOf chatId) w ->
            exists info w1 evs,
              getChatInfo cfg chatId w = (Normal info, w1)
              /\ trace w1 = (trace w ++ evs)%list
              /\ (apiCalls "getChat" evs <= 1)%nat
              /\ (forall method, method <> "getChat" ->
                    apiCalls method evs = 0%nat)).
  { intros Hm. destruct (getChatInfo_miss cfg chatId w Hm) as (v & w1 & Hrun & Hget).
    destruct (makeApiRequest_effects cfg "getChat" (JObj [("chat_id", chatId)])
                (evicted (cacheKeyOf chatId) w))
      as (v' & w1' & Hrun' & _ & _ & _ & evs & Htr & Hcalls).
    rewrite Hrun in Hrun'. injection Hrun' as <- <-.
    eexists _, _, evs. split; [exact Hget |].
    split; [destruct (truthy v); exact Htr |]. split.
    - rewrite (Hcalls "getChat"). cbn. lia.
    - intros method Hne. rewrite (Hcalls method).
      destruct (String.eqb_spec "getChat" method); congruence. }
  destruct (chatInfoCache w !! cacheKeyOf chatId) as [cached |] eqn:Hlook.
  - destruct (Z.lt_ge_cases (clock w - timestamp cached) (CACHE_TTL cfg))
      as [Hage | Hage].
    + rewrite (getChatInfo_hit cfg chatId w cached Hlook Hage).
      eexists _, _, []. rewrite app_nil_r. repeat split. cbn. lia.
    + apply Hmiss. unfold cacheMiss. now rewrite Hlook.
  - apply Hmiss. unfold cacheMiss. now rewrite Hlook.
Qed.

(** The moderation action on a message that identifies its chat and
    whose ids can be converted to strings. *)
Lemma deleteCrossChannelReply_run cfg message isEdited w :
  nullish message = false ->
  nullish (field message "chat") = false ->
  printable (field message "message_id") = true ->
  printable (field (field message "chat") "id") = true ->
  exists w' rest,
    deleteCrossChannelReply cfg message isEdited w = (Normal tt, w')
    /\ trace w'
       = (trace w
          ++ EvFetch "deleteMessage"
               (deleteParams (field (field message "chat") "id")
                  (field message "message_id")) 0 :: rest)%list
    /\ apiCalls "deleteMessage" rest = 0%nat
    /\ apiCalls "sendMessage" rest = 1%nat
    /\ apiCalls "getChat" rest = 0%nat.
Proof.
  intros Hm Hc Hid Hchat.
  set (chatId := field (field message "chat") "id") in *.
  destruct (makeApiRequest_shape cfg "deleteMessage"
              (deleteParams chatId (field message "message_id")) w)
    as (deleteResult & w1 & rest1 & Hdel & Htr1 & Hcalls1 & _).
  destruct (sendWarningMessage_run cfg chatId isEdited w1 Hchat)
    as (sendResult & w2 & Hsend & Hwarn).
  destruct (makeApiRequest_shape cfg "sendMessage" (warningParams cfg chatId) w1)
    as (sendResult' & w2' & rest2 & Hsend' & Htr2 & Hcalls2 & _).
  rewrite Hsend in Hsend'. injection Hsend' as <- <-.
  assert (Hrun : deleteCrossChannelReply cfg message isEdited w
                 = (Normal tt,
                    if warningScheduled sendResult
                    then scheduledWorld cfg chatId (field sendResult "message_id") w2
                    else w2)).
  { unfold deleteCrossChannelReply, bind at 1 2, get, ret. rewrite Hm, Hc.
    fold chatId. fold (deleteParams chatId (field message "message_id")).
    unfold try_catch, bind at 1. rewrite (interpolate_printable _ _ Hid).
    unfold bind at 1. rewrite (interpolate_printable chatId) by exact Hchat.
    unfold bind. rewrite Hdel.
    destruct (negb (strict_eq deleteResult JNull)); now rewrite Hwarn. }
  rewrite Hrun.
  destruct (warningScheduled sendResult).
  - eexists _, (rest1 ++ EvFetch "sendMessage" (warningParams cfg chatId) 0
                :: rest2 ++ [EvWaitUntil chatId (field sendResult "message_id")
                               (WARNING_AUTO_DELETE_DELAY cfg)])%list.
    split; [reflexivity |]. split.
    + unfold scheduledWorld, waitUntil_scheduleMessageDeletion, emit.
      cbn [snd trace]. rewrite Htr2, Htr1, <- !app_assoc. reflexivity.
    + rewrite !apiCalls_app, !apiCalls_cons_fetch, !apiCalls_app, !Hcalls1, !Hcalls2.
      repeat split; reflexivity.
  - eexists _, (rest1 ++ EvFetch "sendMessage" (warningParams cfg chatId) 0
                :: rest2)%list.
    split; [reflexivity |]. split.
    + rewrite Htr2, Htr1, <- !app_assoc. reflexivity.
    + rewrite !apiCalls_app, !apiCalls_cons_fetch, !Hcalls1, !Hcalls2.
      repeat split; reflexivity.
Qed.

Lemma validMessage_base message :
  validMessage message = true ->
  nullish message = false /\ nullish (field message "chat") = false.
Proof.
  unfold validMessage. intros H.
  apply andb_prop in H as [H Hc]. apply andb_prop in H as [Hm _].
  split; now apply truthy_not_nullish.
Qed.

(** [handleMessage] on a message it classifies, up to the classifier. *)
Lemma handleMessage_dispatch cfg message isEdited w :
  moderatedMessage message = true ->
  handleMessage cfg message isEdited w =
  try_catch
    (do messageId <- interpolate (field message "message_id");
     do chatId <- interpolate (field (field message "chat") "id");
     do crossChannelInfo <- detectCrossChannelReply cfg message;
     if isCrossChannel crossChannelInfo && isExternal crossChannelInfo
     then
       step interpolate
              (JStr ("message " +:+ messageId +:+ " in chat " +:+ chatId
                     +:+ (if isEdited then " (edited)" else "")));
       step interpolate (field (channelInfo crossChannelInfo) "title");
       deleteCrossChannelReply cfg message isEdited
     else ret tt)
    (fun error => step interpolate (field message "message_id"); ret tt) w.
Proof.
  unfold moderatedMessage, validMessage, chatTypeOf, fromBot. intros H.
  apply andb_prop in H as [H Hbot]. apply andb_prop in H as [Hvalid Htype].
  apply andb_prop in Hvalid as [Hv Hchat]. apply andb_prop in Hv as [Hmsg Hid].
  unfold handleMessage, try_catch. rewrite Hmsg, Hid, Hchat. cbn [negb orb].
  destruct (strict_eq (field (field message "chat") "type") (JStr "private")) eqn:Hp.
  { destruct (field (field message "chat") "type") as [| | | | s | |];
      try discriminate Hp. cbn in Hp, Htype.
    apply String.eqb_eq in Hp. subst s. discriminate Htype. }
  apply orb_prop in Htype.
  assert (Hskip : negb (strict_eq (field (field message "chat") "type") (JStr "group"))
                  && negb (strict_eq (field (field message "chat") "type")
                             (JStr "supergroup")) = false).
  { destruct Htype as [-> | ->]; [reflexivity | apply andb_false_r]. }
  rewrite Hskip. apply negb_true_iff in Hbot. rewrite Hbot. reflexivity.
Qed.

(** What [handleMessage] does with a message it classifies and whose
    two ids can be converted to strings: the moderation action runs
    exactly on the messages that are [blocked]. *)
Lemma handleMessage_moderated cfg message isEdited w :
  moderatedMessage message = true ->
  printable (field message "message_id") = true ->
  printable (field (field message "chat") "id") = true ->
  exists info w1,
    getChatInfo cfg (field (field message "chat") "id") w = (Normal info, w1)
    /\ handleMessage cfg message isEdited w
       = if blocked message info
         then (Normal tt, snd (deleteCrossChannelReply cfg message isEdited w1))
         else (Normal tt, w1).
Proof.
  intros Hmod Hid Hchat.
  rewrite (handleMessage_dispatch cfg message isEdited w Hmod).
  unfold moderatedMessage in Hmod.
  apply andb_prop in Hmod as [H _]. apply andb_prop in H as [Hvalid _].
  destruct (validMessage_base message Hvalid) as [Hm Hc].
  destruct (detectCrossChannelReply_run cfg message w Hm Hc)
    as (info & w1 & Hget & Hrun).
  exists info, w1. split; [exact Hget |].
  unfold try_catch, bind at 1. rewrite (interpolate_printable _ _ Hid).
  unfold bind at 1. rewrite (interpolate_printable _ _ Hchat).
  unfold bind at 1. rewrite Hrun. unfold blocked.
  destruct (forallb printable (substituted message)); cbn [andb].
  2: { unfold bind. rewrite (interpolate_printable _ _ Hid). reflexivity. }
  destruct (isCrossChannel (classifyWith message info)
            && isExternal (classifyWith message info)); cbn [andb];
    [| reflexivity].
  unfold bind at 1. rewrite interpolate_printable by reflexivity.
  unfold bind at 1.
  destruct (printable (field (channelInfo (classifyWith message info)) "title"))
    eqn:Htitle.
  - rewrite (interpolate_printable _ _ Htitle).
    destruct (deleteCrossChannelReply_run cfg message isEdited w1 Hm Hc Hid Hchat)
      as (w2 & rest & Hdel & _).
    now rewrite Hdel.
  - rewrite (interpolate_unprintable _ _ Htitle).
    unfold bind. rewrite (interpolate_printable _ _ Hid). reflexivity.
Qed.

(** X3.  A message whose structure is invalid, whose chat is neither
    private nor a group or supergroup, or whose sender is a bot is
    ignored: [handleMessage] changes nothing (no API call, no cache
    access).  It ends normally when the structure is invalid or the
    message id can be converted to a string; a message of another chat
    type whose id cannot be converted makes it throw: the log line of
    line 247 throws, and so does the one of its handler (line 272). *)
Theorem handleMessage_ignores (cfg : Config) (message : JsVal)
    (isEdited : bool) (w : World) :
  privateMessage message = false ->
  moderatedMessage message = false ->
  snd (handleMessage cfg message isEdited w) = w
  /\ (validMessage message = false ->
      handleMessage cfg message isEdited w = (Normal tt, w))
  /\ (printable (field message "message_id") = true ->
      handleMessage cfg message isEdited w = (Normal tt, w))
  /\ (validMessage message = true ->
      strict_eq (chatTypeOf message) (JStr "group") = false ->
      strict_eq (chatTypeOf message) (JStr "supergroup") = false ->
      printable (field message "message_id") = false ->
      handleMessage cfg message isEdited w = (Throw TypeError, w)).
Proof.
  unfold privateMessage, moderatedMessage, validMessage, chatTypeOf, fromBot.
  intros Hp Hmod. unfold handleMessage, try_catch.
  destruct (truthy message); cbn [negb orb andb] in *;
    [| repeat split; intros; discriminate].
  destruct (truthy (field message "message_id")); cbn [negb orb andb] in *;
    [| repeat split; intros; discriminate].
  destruct (truthy (field message "chat")); cbn [negb orb andb] in *;
    [| repeat split; intros; discriminate].
  rewrite Hp.
  destruct (strict_eq (field (field message "chat") "type") (JStr "group")),
           (strict_eq (field (field message "chat") "type") (JStr "supergroup"));
    cbn [negb orb andb] in *;
    try (apply negb_false_iff in Hmod; rewrite Hmod);
    unfold bind, interpolate, ret, throw;
    repeat match goal with
           | |- context [printable ?v] => destruct (printable v) eqn:?
           end;
    cbn; repeat split; intros; congruence.
Qed.

(** X4.  For a group or supergroup message of a sender that is not a
    bot, whose message id and chat id can be converted to strings,
    [handleMessage] looks the chat up and ends normally.  The moderation
    action runs exactly when the message is [blocked]: the classifier
    returns (what it substitutes can be converted), its result is
    external, and the title the log line of line 264 substitutes can be
    converted.  Then the deletion of the offending message is requested
    first and one warning is sent; otherwise nothing else happens (no
    deletion, no warning).  When the message id cannot be converted,
    [handleMessage] throws before any lookup; when only the chat id
    cannot, it ends at once. *)
Theorem handleMessage_moderates (cfg : Config) (message : JsVal)
    (isEdited : bool) (w : World) :
  moderatedMessage message = true ->
  (printable (field message "message_id") = false ->
   handleMessage cfg message isEdited w = (Throw TypeError, w))
  /\ (printable (field message "message_id") = true ->
      printable (field (field message "chat") "id") = false ->
      handleMessage cfg message isEdited w = (Normal tt, w))
  /\ (printable (field message "message_id") = true ->
      printable (field (field message "chat") "id") = true ->
      exists info w1 w2 looking acting,
        getChatInfo cfg (field (field message "chat") "id") w = (Normal info, w1)
        /\ handleMessage cfg message isEdited w = (Normal tt, w2)
        /\ trace w1 = (trace w ++ looking)%list
        /\ trace w2 = (trace w1 ++ acting)%list
        /\ apiCalls "deleteMessage" looking = 0%nat
        /\ apiCalls "sendMessage" looking = 0%nat
        /\ (blocked message info = false -> w2 = w1 /\ acting = [])
        /\ (blocked message info = true ->
            exists rest,
              acting = EvFetch "deleteMessage"
                         (deleteParams (field (field message "chat") "id")
                            (field message "message_id")) 0 :: rest
              /\ apiCalls "deleteMessage" rest = 0%nat
              /\ apiCalls "sendMessage" rest = 1%nat)
        /\ (blocked message info = true ->
            isExternal (classifyWith message info) = true)).
Proof.
  intros Hmod. split; [| split].
  - intros Hid. rewrite (handleMessage_dispatch cfg message isEdited w Hmod).
    unfold try_catch, bind at 1. rewrite (interpolate_unprintable _ _ Hid).
    unfold bind. now rewrite (interpolate_unprintable _ _ Hid).
  - intros Hid Hchat. rewrite (handleMessage_dispatch cfg message isEdited w Hmod).
    unfold try_catch, bind at 1. rewrite (interpolate_printable _ _ Hid).
    unfold bind at 1. rewrite (interpolate_unprintable _ _ Hchat).
    unfold bind. now rewrite (interpolate_printable _ _ Hid).
  - intros Hid Hchat.
    destruct (handleMessage_moderated cfg message isEdited w Hmod Hid Hchat)
      as (info & w1 & Hget & Hrun).
    destruct (getChatInfo_trace cfg (field (field message "chat") "id") w)
      as (info' & w1' & looking & Hget' & Hlook & _ & Hother).
    rewrite Hget in Hget'. injection Hget' as <- <-.
    unfold moderatedMessage in Hmod.
    apply andb_prop in Hmod as [Hmod _]. apply andb_prop in Hmod as [Hvalid _].
    destruct (validMessage_base message Hvalid) as [Hm Hc].
    assert (Hext : blocked message info = true ->
                   isExternal (classifyWith message info) = true).
    { unfold blocked. intros H.
      apply andb_prop in H as [H _]. apply andb_prop in H as [H He].
      exact He. }
    destruct (blocked message info) eqn:Hblocked.
    + destruct (deleteCrossChannelReply_run cfg message isEdited w1 Hm Hc Hid Hchat)
        as (w2 & rest & Hdel & Htr & Hd & Hs & _).
      rewrite Hdel in Hrun. cbn [snd] in Hrun.
      exists info, w1, w2, looking,
        (EvFetch "deleteMessage"
           (deleteParams (field (field message "chat") "id")
              (field message "message_id")) 0 :: rest).
      split; [exact Hget |]. split; [exact Hrun |]. split; [exact Hlook |].
      split; [exact Htr |].
      split; [apply Hother; discriminate |].
      split; [apply Hother; discriminate |].
      split; [intros H; congruence |].
      split; [| intros _; now apply Hext].
      intros _. exists rest. auto.
    + exists info, w1, w1, looking, [].
      rewrite app_nil_r.
      split; [exact Hget |]. split; [exact Hrun |]. split; [exact Hlook |].
      split; [reflexivity |].
      split; [apply Hother; discriminate |].
      split; [apply Hother; discriminate |].
      split; [auto |].
      split; intros H; congruence.
Qed.

(** ** The private-chat flow *)

(** The private-chat flow, case by case.  Where no reply is sent the
    flow has gone through a log line that substitutes the message id
    (line 287, or line 339 of the handler). *)
Lemma handlePrivateMessage_cases cfg message w :
  nullish message = false ->
  nullish (field message "chat") = false ->
  handlePrivateMessage cfg message w =
  let quiet := (if printable (field message "message_id")
                then Normal tt else Throw TypeError, w) in
  match field message "text" with
  | JStr s =>
      if String.eqb s "" then quiet
      else if isStartCommand (trim s)
      then
        if greetable message
        then (Normal tt,
              snd (makeApiRequest cfg "sendMessage"
                     (JObj [("chat_id", field (field message "chat") "id");
                            ("text", JStr startMessage);
                            ("parse_mode", JStr "Markdown");
                            ("disable_web_page_preview", JBool true)]) w))
        else quiet
      else (Normal tt,
            snd (makeApiRequest cfg "sendMessage"
                   (JObj [("chat_id", field (field message "chat") "id");
                          ("text", JStr helpMessage)]) w))
  | _ => quiet
  end.
Proof.
  intros Hm Hc.
  unfold handlePrivateMessage, try_catch, bind, get, interpolate, ret, throw,
    isStartCommand, greetable.
  rewrite Hm, Hc. cbv zeta.
  destruct (field message "text") as [| | b | n | s | items | fields];
    cbn [truthy negb];
    try change (String.eqb (trim s) "/start" || startsWith "/start " (trim s))
      with (isStartCommand (trim s));
    try generalize (isStartCommand (trim s));
    try generalize (String.eqb s "");
    intros;
    repeat match goal with
           | |- context [printable ?v] => destruct (printable v) eqn:?
           | |- context [nullish ?v] => destruct (nullish v) eqn:?
           | |- context [if ?c then _ else _] => destruct c eqn:?
           end;
    cbn [negb andb fst snd] in *; try congruence;
    repeat match goal with
           | |- context [makeApiRequest cfg ?m ?p ?w0] =>
               destruct (makeApiRequest_returns cfg m p w0) as (? & ? & ->)
           end;
    reflexivity.
Qed.

(** For a private message [handleMessage] is the private-chat flow: its
    own handler substitutes the message id, as the handler of the flow
    does. *)
Lemma handleMessage_private cfg message isEdited w :
  privateMessage message = true ->
  handleMessage cfg message isEdited w = handlePrivateMessage cfg message w.
Proof.
  unfold privateMessage. intros H. apply andb_prop in H as [Hvalid Hprivate].
  destruct (validMessage_base message Hvalid) as [Hm Hc].
  unfold validMessage in Hvalid.
  apply andb_prop in Hvalid as [Hv Hchat]. apply andb_prop in Hv as [Hmsg Hid].
  unfold handleMessage, try_catch. rewrite Hmsg, Hid, Hchat. cbn [negb orb].
  unfold chatTypeOf in Hprivate. rewrite Hprivate.
  rewrite (handlePrivateMessage_cases cfg message w Hm Hc). cbv zeta.
  unfold bind, interpolate, ret, throw.
  destruct (printable (field message "message_id"));
    destruct (field message "text"); try reflexivity;
    repeat match goal with
           | |- context [if ?b then _ else _] => destruct b
           end; reflexivity.
Qed.

(** X5.  A private-chat message is never classified or moderated:
    [handleMessage] leaves the metadata cache alone and makes no API
    call but at most one [sendMessage]; it ends normally when the
    message id can be converted to a string.  A message whose text is a
    non-empty string gets exactly one reply, to its own chat: the help
    text when the trimmed text is not the start command, the greeting
    when it is and the sender can be logged (line 295: a sender whose id
    and name can be converted to strings).  A message without such a
    text, and a start command whose sender cannot be logged, get
    none. *)
Theorem private_message_reply (cfg : Config) (message : JsVal)
    (isEdited : bool) (w : World) :
  privateMessage message = true ->
  exists c w' evs,
    handleMessage cfg message isEdited w = (c, w')
    /\ trace w' = (trace w ++ evs)%list
    /\ chatInfoCache w' = chatInfoCache w
    /\ (apiCalls "sendMessage" evs <= 1)%nat
    /\ (forall method, method <> "sendMessage" -> apiCalls method evs = 0%nat)
    /\ (printable (field message "message_id") = true -> c = Normal tt)
    /\ (forall s,
          field message "text" = JStr s -> s <> "" ->
          (isStartCommand (trim s) = true -> greetable message = true) ->
          c = Normal tt
          /\ exists params rest,
               evs = EvFetch "sendMessage" params 0 :: rest
               /\ field params "chat_id" = field (field message "chat") "id"
               /\ field params "text"
                  = JStr (if isStartCommand (trim s)
                          then startMessage else helpMessage))
    /\ ((forall s, field message "text" = JStr s ->
                   s = ""
                   \/ (isStartCommand (trim s) = true
                       /\ greetable message = false)) ->
        evs = []).
Proof.
  intros Hprivate.
  rewrite (handleMessage_private cfg message isEdited w Hprivate).
  unfold privateMessage in Hprivate.
  apply andb_prop in Hprivate as [Hvalid _].
  destruct (validMessage_base message Hvalid) as [Hm Hc].
  rewrite (handlePrivateMessage_cases cfg message w Hm Hc). cbv zeta.
  set (quiet := (if printable (field message "message_id")
                 then Normal tt else Throw TypeError, w)).
  assert (Hquiet :
            (forall s, field message "text" = JStr s ->
                       s = ""
                       \/ (isStartCommand (trim s) = true
                           /\ greetable message = false)) ->
            exists c w' evs,
              quiet = (c, w')
              /\ trace w' = (trace w ++ evs)%list
              /\ chatInfoCache w' = chatInfoCache w
              /\ (apiCalls "sendMessage" evs <= 1)%nat
              /\ (forall method, method <> "sendMessage" ->
                    apiCalls method evs = 0%nat)
              /\ (printable (field message "message_id") = true -> c = Normal tt)
              /\ (forall s,
                    field message "text" = JStr s -> s <> "" ->
                    (isStartCommand (trim s) = true -> greetable message = true) ->
                    c = Normal tt
                    /\ exists params rest,
                         evs = EvFetch "sendMessage" params 0 :: rest
                         /\ field params "chat_id" = field (field message "chat") "id"
                         /\ field params "text"
                            = JStr (if isStartCommand (trim s)
                                    then startMessage else helpMessage))
              /\ ((forall s, field message "text" = JStr s ->
                             s = ""
                             \/ (isStartCommand (trim s) = true
                                 /\ greetable message = false)) ->
                  evs = [])).
  { intros Hno. eexists _, w, []. rewrite app_nil_r.
    split; [reflexivity |]. repeat (split; [auto; cbn; lia |]).
    split; [intros ->; reflexivity |]. split; [| reflexivity].
    intros s Hs Hne Hstart. destruct (Hno s Hs) as [-> | [Hst Hg]];
      [contradiction | rewrite (Hstart Hst) in Hg; discriminate Hg]. }
  assert (Hloud : forall s params,
             field message "text" = JStr s -> s <> "" ->
             (isStartCommand (trim s) = true -> greetable message = true) ->
             field params "chat_id" = field (field message "chat") "id" ->
             field params "text"
             = JStr (if isStartCommand (trim s) then startMessage else helpMessage) ->
             exists c w' evs,
               (Normal tt, snd (makeApiRequest cfg "sendMessage" params w))
               = (c, w')
               /\ trace w' = (trace w ++ evs)%list
               /\ chatInfoCache w' = chatInfoCache w
               /\ (apiCalls "sendMessage" evs <= 1)%nat
               /\ (forall method, method <> "sendMessage" ->
                     apiCalls method evs = 0%nat)
               /\ (printable (field message "message_id") = true -> c = Normal tt)
               /\ (forall s,
                     field message "text" = JStr s -> s <> "" ->
                     (isStartCommand (trim s) = true -> greetable message = true) ->
                     c = Normal tt
                     /\ exists params rest,
                          evs = EvFetch "sendMessage" params 0 :: rest
                          /\ field params "chat_id" = field (field message "chat") "id"
                          /\ field params "text"
                             = JStr (if isStartCommand (trim s)
                                     then startMessage else helpMessage))
               /\ ((forall s, field message "text" = JStr s ->
                              s = ""
                              \/ (isStartCommand (trim s) = true
                                  /\ greetable message = false)) ->
                   evs = [])).
  { intros s params Hs Hne Hstart Hchat Htext.
    destruct (makeApiRequest_shape cfg "sendMessage" params w)
      as (v & w' & rest & Hrun & Htr & Hcalls & Hcache & _).
    rewrite Hrun. exists (Normal tt), w', (EvFetch "sendMessage" params 0 :: rest).
    split; [reflexivity |]. split; [exact Htr |]. split; [exact Hcache |].
    split; [rewrite apiCalls_cons_fetch, Hcalls; cbn; lia |].
    split.
    { intros method Hmethod. rewrite apiCalls_cons_fetch, Hcalls.
      destruct (String.eqb_spec "sendMessage" method); [congruence | reflexivity]. }
    split; [reflexivity |]. split.
    - intros s0 Hs0 _ _. rewrite Hs in Hs0. injection Hs0 as <-.
      split; [reflexivity |]. exists params, rest. auto.
    - intros Hall. destruct (Hall s Hs) as [-> | [Hst Hg]];
        [contradiction | rewrite (Hstart Hst) in Hg; discriminate Hg]. }
  destruct (field message "text") as [| | b | n | s | items | fields] eqn:Htext;
    try (apply Hquiet; intros s0 Hs0; discriminate Hs0).
  destruct (String.eqb_spec s "") as [-> | Hne].
  { apply Hquiet. intros s0 Hs0. injection Hs0 as <-. now left. }
  destruct (isStartCommand (trim s)) eqn:Hstart.
  - destruct (greetable message) eqn:Hgreet.
    + apply (Hloud s); [reflexivity | assumption | auto | reflexivity |].
      now rewrite Hstart.
    + apply Hquiet. intros s0 Hs0. injection Hs0 as <-. right. auto.
  - apply (Hloud s); [reflexivity | assumption | | reflexivity |].
    + intros H. congruence.
    + now rewrite Hstart.
Qed.

(** ** The metadata cache: freshness, round trip, separation *)

(** The two ways a lookup ends. *)
Lemma getChatInfo_never_stale_aux cfg chatId w :
  exists r w',
    getChatInfo cfg chatId w = (Normal r, w')
    /\ ((exists cached,
           chatInfoCache w !! cacheKeyOf chatId = Some cached
           /\ clock w - timestamp cached < CACHE_TTL cfg
           /\ r = data cached /\ w' = w)
        \/ (cacheMiss cfg (cacheKeyOf chatId) w
            /\ apiCalls "getChat" (trace w') = S (apiCalls "getChat" (trace w))
            /\ chatInfoCache w' !! cacheKeyOf chatId
               = if truthy r
                 then Some {| data := r; timestamp := clock w |}
                 else None)).
Proof.
  assert (Hmiss : cacheMiss cfg (cacheKeyOf chatId) w ->
            exists r w',
              getChatInfo cfg chatId w = (Normal r, w')
              /\ ((exists cached,
                     chatInfoCache w !! cacheKeyOf chatId = Some cached
                     /\ clock w - timestamp cached < CACHE_TTL cfg
                     /\ r = data cached /\ w' = w)
                  \/ (cacheMiss cfg (cacheKeyOf chatId) w
                      /\ apiCalls "getChat" (trace w')
                         = S (apiCalls "getChat" (trace w))
                      /\ chatInfoCache w' !! cacheKeyOf chatId
                         = if truthy r
                           then Some {| data := r; timestamp := clock w |}
                           else None))).
  { intros Hm.
    destruct (getChatInfo_miss_calls cfg chatId w Hm) as (r & w' & Hget & Hcnt & Hst).
    exists r, w'. split; [exact Hget |]. right. auto. }
  destruct (chatInfoCache w !! cacheKeyOf chatId) as [cached |] eqn:Hlook.
  - destruct (Z.lt_ge_cases (clock w - timestamp cached) (CACHE_TTL cfg))
      as [Hage | Hage].
    + exists (data cached), w.
      split; [exact (getChatInfo_hit cfg chatId w cached Hlook Hage) |].
      left. exists cached. auto.
    + apply Hmiss. unfold cacheMiss. now rewrite Hlook.
  - apply Hmiss. unfold cacheMiss. now rewrite Hlook.
Qed.

(** X6.  [getChatInfo] never serves an expired entry: it either answers
    from an entry younger than the TTL, changing nothing, or finds no
    such entry, makes exactly one API call of [getChat], and leaves for
    the chat the fresh entry (stamped with the instant of the call) when
    the result is truthy and no entry at all otherwise - an expired
    entry is evicted even when the re-fetch fails. *)
Theorem getChatInfo_never_stale (cfg : Config) (chatId : JsVal) (w : World) :
  exists r w',
    getChatInfo cfg chatId w = (Normal r, w')
    /\ ((exists cached,
           chatInfoCache w !! cacheKeyOf chatId = Some cached
           /\ clock w - timestamp cached < CACHE_TTL cfg
           /\ r = data cached /\ w' = w)
        \/ (cacheMiss cfg (cacheKeyOf chatId) w
            /\ apiCalls "getChat" (trace w') = S (apiCalls "getChat" (trace w))
            /\ chatInfoCache w' !! cacheKeyOf chatId
               = if truthy r
                 then Some {| data := r; timestamp := clock w |}
                 else None)).
Proof. apply getChatInfo_never_stale_aux. Qed.

(** X7.  Round trip: what a lookup fetched and found truthy is what
    every later lookup for the chat returns, without any effect, as long
    as less than the TTL has passed since the instant of the fetching
    call. *)
Theorem getChatInfo_round_trip (cfg : Config) (chatId : JsVal) (w : World)
    (r : JsVal) (w1 : World) (t2 : Z) :
  cacheMiss cfg (cacheKeyOf chatId) w ->
  getChatInfo cfg chatId w = (Normal r, w1) ->
  truthy r = true ->
  t2 - clock w < CACHE_TTL cfg ->
  getChatInfo cfg chatId (setClock t2 w1) = (Normal r, setClock t2 w1).
Proof.
  intros Hmiss Hget Hr Ht2.
  destruct (getChatInfo_miss_calls cfg chatId w Hmiss) as (r' & w1' & Hget' & _ & Hst).
  rewrite Hget in Hget'. injection Hget' as <- <-. rewrite Hr in Hst.
  now rewrite (getChatInfo_hit cfg chatId (setClock t2 w1) _ Hst).
Qed.

Lemma cacheKeyOf_integer_inj a b :
  cacheKeyOf (JNum a) = cacheKeyOf (JNum b) -> a = b.
Proof.
  unfold cacheKeyOf. cbn [toString]. intros H.
  apply (inj pretty). cbn in H. now injection H.
Qed.

(** X8.  A lookup touches the cache entry of its own key only; the keys
    of two different integer chat ids differ, so lookups for different
    chats never disturb each other's entries. *)
Theorem getChatInfo_separation (cfg : Config) (chatId : JsVal) (w : World) :
  (forall key, key <> cacheKeyOf chatId ->
     chatInfoCache (snd (getChatInfo cfg chatId w)) !! key
     = chatInfoCache w !! key)
  /\ (forall a b, chatId = JNum a -> a <> b ->
        chatInfoCache (snd (getChatInfo cfg chatId w)) !! cacheKeyOf (JNum b)
        = chatInfoCache w !! cacheKeyOf (JNum b)).
Proof.
  assert (Hkeys : forall key, key <> cacheKeyOf chatId ->
            chatInfoCache (snd (getChatInfo cfg chatId w)) !! key
            = chatInfoCache w !! key).
  { intros key Hne.
    assert (Hmiss : cacheMiss cfg (cacheKeyOf chatId) w ->
              chatInfoCache (snd (getChatInfo cfg chatId w)) !! key
              = chatInfoCache w !! key).
    { intros Hm.
      destruct (getChatInfo_miss cfg chatId w Hm) as (v & w1 & Hrun & Hget).
      destruct (makeApiRequest_effects cfg "getChat" (JObj [("chat_id", chatId)])
                  (evicted (cacheKeyOf chatId) w))
        as (v' & w1' & Hrun' & Hc & _).
      rewrite Hrun in Hrun'. injection Hrun' as <- <-.
      rewrite Hget. cbn [snd].
      destruct (truthy v); unfold stored, putCache; cbn [snd chatInfoCache];
        rewrite ?lookup_insert_ne by congruence; rewrite Hc;
        unfold evicted, putCache; cbn [snd chatInfoCache];
        now rewrite lookup_delete_ne by congruence. }
    destruct (chatInfoCache w !! cacheKeyOf chatId) as [cached |] eqn:Hlook.
    - destruct (Z.lt_ge_cases (clock w - timestamp cached) (CACHE_TTL cfg))
        as [Hage | Hage].
      + now rewrite (getChatInfo_hit cfg chatId w cached Hlook Hage).
      + apply Hmiss. unfold cacheMiss. now rewrite Hlook.
    - apply Hmiss. unfold cacheMiss. now rewrite Hlook. }
  split; [exact Hkeys |].
  intros a b -> Hab. apply Hkeys. intros Heq.
  apply cacheKeyOf_integer_inj in Heq. congruence.
Qed.

(** ** An invariant of the cache through the whole worker *)

Section CacheInvariant.

Variable I : gmap string CacheEntry -> Prop.
Hypothesis I_delete : forall key cache, I cache -> I (delete key cache).
Hypothesis I_insert : forall key v now cache,
  truthy v = true -> I cache ->
  I (<[key := {| data := v; timestamp := now |}]> cache).

Lemma keepsCache_ret {A} (a : A) : keepsCache I (ret a).
Proof. intros w H. exact H. Qed.

Lemma keepsCache_throw {A} e : keepsCache I (@throw A e).
Proof. intros w H. exact H. Qed.

Lemma keepsCache_bind {A B} (c : M A) (k : A -> M B) :
  keepsCache I c -> (forall a, keepsCache I (k a)) -> keepsCache I (bind c k).
Proof.
  intros Hc Hk w H. unfold bind. specialize (Hc w H).
  destruct (c w) as [[a | e] w1]; cbn in *; [| exact Hc].
  now apply Hk.
Qed.

Lemma keepsCache_try_catch {A} (body : M A) handler :
  keepsCache I body -> (forall e, keepsCache I (handler e)) ->
  keepsCache I (try_catch body handler).
Proof.
  intros Hb Hh w H. unfold try_catch. specialize (Hb w H).
  destruct (body w) as [[a | e] w1]; cbn in *; [exact Hb |].
  now apply Hh.
Qed.

Lemma keepsCache_get v k : keepsCache I (get v k).
Proof. unfold get. destruct (nullish v); intros w H; exact H. Qed.

Lemma keepsCache_dateNow : keepsCache I dateNow.
Proof. intros w H. exact H. Qed.

Lemma keepsCache_emit e : keepsCache I (emit e).
Proof. intros w H. exact H. Qed.

Lemma keepsCache_sleep ms : keepsCache I (sleep ms).
Proof. intros w H. exact H. Qed.

Lemma keepsCache_fetch method params r : keepsCache I (fetch method params r).
Proof. intros w H. unfold fetch. now destruct (remote w (fetched w)). Qed.

Lemma keepsCache_getTracker : keepsCache I getTracker.
Proof. intros w H. exact H. Qed.

Lemma keepsCache_putTracker t : keepsCache I (putTracker t).
Proof. intros w H. exact H. Qed.

Lemma keepsCache_interpolate v : keepsCache I (interpolate v).
Proof. unfold interpolate. destruct (printable v); intros w H; exact H. Qed.

Create HintDb cache_frame.

#[local] Hint Resolve keepsCache_ret keepsCache_throw keepsCache_get
  keepsCache_interpolate keepsCache_dateNow keepsCache_emit keepsCache_sleep
  keepsCache_fetch keepsCache_getTracker keepsCache_putTracker : cache_frame.

Ltac cache_frame :=
  repeat first
    [ progress intros
    | solve [auto with cache_frame]
    | match goal with
      | |- keepsCache I (if ?b then _ else _) => destruct b
      | |- keepsCache I (match ?x with _ => _ end) => destruct x
      end
    | apply keepsCache_bind
    | apply keepsCache_try_catch ].

Lemma keepsCache_makeApiRequest cfg method params :
  keepsCache I (makeApiRequest cfg method params).
Proof.
  intros w H.
  destruct (makeApiRequest_effects cfg method params w)
    as (v & w' & Hrun & Hc & _).
  rewrite Hrun. cbn [snd]. now rewrite Hc.
Qed.

Lemma keepsCache_getChatInfo cfg chatId : keepsCache I (getChatInfo cfg chatId).
Proof.
  intros w H.
  assert (Hmiss : cacheMiss cfg (cacheKeyOf chatId) w ->
            I (chatInfoCache (snd (getChatInfo cfg chatId w)))).
  { intros Hm.
    destruct (getChatInfo_miss cfg chatId w Hm) as (v & w1 & Hrun & ->).
    destruct (makeApiRequest_effects cfg "getChat" (JObj [("chat_id", chatId)])
                (evicted (cacheKeyOf chatId) w))
      as (v' & w1' & Hrun' & Hc & _).
    rewrite Hrun in Hrun'. injection Hrun' as <- <-. cbn [snd].
    assert (H1 : I (chatInfoCache w1)) by (rewrite Hc; now apply I_delete).
    destruct (truthy v) eqn:Hv; [| exact H1].
    now apply I_insert. }
  destruct (chatInfoCache w !! cacheKeyOf chatId) as [cached |] eqn:Hlook.
  - destruct (Z.lt_ge_cases (clock w - timestamp cached) (CACHE_TTL cfg))
      as [Hage | Hage].
    + now rewrite (getChatInfo_hit cfg chatId w cached Hlook Hage).
    + apply Hmiss. unfold cacheMiss. now rewrite Hlook.
  - apply Hmiss. unfold cacheMiss. now rewrite Hlook.
Qed.

#[local] Hint Resolve keepsCache_makeApiRequest keepsCache_getChatInfo
  : cache_frame.

Lemma keepsCache_detectCrossChannelReply cfg message :
  keepsCache I (detectCrossChannelReply cfg message).
Proof.
  unfold detectCrossChannelReply, detectCases, detectReplyCases. cbv zeta.
  cache_frame.
Qed.

Lemma keepsCache_sendWarningMessage cfg chatId isEdited :
  keepsCache I (sendWarningMessage cfg chatId isEdited).
Proof.
  unfold sendWarningMessage, waitUntil_scheduleMessageDeletion. cache_frame.
Qed.

#[local] Hint Resolve keepsCache_detectCrossChannelReply
  keepsCache_sendWarningMessage : cache_frame.

Lemma keepsCache_deleteCrossChannelReply cfg message isEdited :
  keepsCache I (deleteCrossChannelReply cfg message isEdited).
Proof. unfold deleteCrossChannelReply. cache_frame. Qed.

Lemma keepsCache_handlePrivateMessage cfg message :
  keepsCache I (handlePrivateMessage cfg message).
Proof. unfold handlePrivateMessage. cache_frame. Qed.

#[local] Hint Resolve keepsCache_deleteCrossChannelReply
  keepsCache_handlePrivateMessage : cache_frame.

Lemma keepsCache_handleMessage cfg message isEdited :
  keepsCache I (handleMessage cfg message isEdited).
Proof. unfold handleMessage. cbv zeta. cache_frame. Qed.

#[local] Hint Resolve keepsCache_handleMessage : cache_frame.

Lemma keepsCache_processUpdate cfg update :
  keepsCache I (processUpdate cfg update).
Proof. unfold processUpdate. cbv zeta. cache_frame. Qed.

#[local] Hint Resolve keepsCache_processUpdate : cache_frame.

Lemma keepsCache_handleWebhook cfg request :
  keepsCache I (handleWebhook cfg request).
Proof. unfold handleWebhook. cbv zeta. cache_frame. Qed.

Lemma keepsCache_setupWebhook cfg request :
  keepsCache I (setupWebhook cfg request).
Proof. unfold setupWebhook. cbv zeta. cache_frame. Qed.

#[local] Hint Resolve keepsCache_handleWebhook keepsCache_setupWebhook
  : cache_frame.

Lemma keepsCache_handleRequest cfg request :
  keepsCache I (handleRequest cfg request).
Proof.
  intros w H.
  destruct (checkRateLimit_spec cfg request w)
    as (r & w1 & Hcheck & _ & _ & _ & _ & _ & _ & Hc & _).
  unfold handleRequest, bind at 1. rewrite Hcheck. rewrite <- Hc in H.
  revert H. generalize w1.
  change (keepsCache I
            (if negb (allowed r)
             then ret {| status := 429; body := BodyText "Rate limit exceeded";
                         headers := [("Retry-After", "60")] |}
             else if String.eqb (req_pathname request) "/health"
                     && String.eqb (req_method request) "GET"
             then do now <- dateNow;
                  ret (jsonResponse
                         (JObj [("status", JStr "healthy");
                                ("timestamp", JNum now);
                                ("version", JStr "2.0.0")]) 200)
             else if String.eqb (req_pathname request) "/webhook"
                     && String.eqb (req_method request) "POST"
             then handleWebhook cfg request
             else if String.eqb (req_pathname request) "/setup"
                     && String.eqb (req_method request) "GET"
             then setupWebhook cfg request
             else ret (textResponse "Not Found" 404))).
  cache_frame.
Qed.

End CacheInvariant.

(** X9.  The cache only ever holds metadata that is truthy: the
    invariant is kept by every request the worker serves, and under it
    a lookup that returns a falsy value has not answered from the cache
    but made its API call. *)
Theorem cache_holds_truthy_metadata (cfg : Config) :
  (forall reqs w,
      cacheTruthy (chatInfoCache w) ->
      cacheTruthy (chatInfoCache (snd (serve cfg reqs w))))
  /\ (forall chatId w r w',
        cacheTruthy (chatInfoCache w) ->
        getChatInfo cfg chatId w = (Normal r, w') ->
        truthy r = false ->
        apiCalls "getChat" (trace w') = S (apiCalls "getChat" (trace w))).
Proof.
  assert (Hdel : forall key cache, cacheTruthy cache -> cacheTruthy (delete key cache)).
  { intros key cache H k cached Hk.
    destruct (decide (key = k)) as [-> | Hne].
    - now rewrite lookup_delete_eq in Hk.
    - rewrite lookup_delete_ne in Hk by assumption. eauto. }
  assert (Hins : forall key v now cache,
             truthy v = true -> cacheTruthy cache ->
             cacheTruthy (<[key := {| data := v; timestamp := now |}]> cache)).
  { intros key v now cache Hv H k cached Hk.
    destruct (decide (key = k)) as [-> | Hne].
    - rewrite lookup_insert_eq in Hk. now injection Hk as <-.
    - rewrite lookup_insert_ne in Hk by assumption. eauto. }
  split.
  - induction reqs as [| [request t] rest IH]; intros w H; [exact H |].
    destruct (serve_cons cfg request t rest w) as (response & w2 & Hrun & ->).
    cbn [snd]. apply IH.
    pose proof (keepsCache_handleRequest cacheTruthy Hdel Hins cfg request
                  (setClock t w) H) as H2.
    now rewrite Hrun in H2.
  - intros chatId w r w' H Hget Hr.
    destruct (getChatInfo_never_stale_aux cfg chatId w) as (r' & w'' & Hget' & Hcase).
    rewrite Hget in Hget'. injection Hget' as <- <-.
    destruct Hcase as [(cached & Hlook & _ & -> & _) | (_ & Hcnt & _)];
      [| exact Hcnt].
    rewrite (H _ _ Hlook) in Hr. discriminate Hr.
Qed.

(** ** The rate limiter: pruning, memory bound, independence of addresses *)

Lemma checkRateLimit_tracker cfg request w :
  let ip := getClientIP request in
  let windowStart := clock w - RATE_LIMIT_WINDOW cfg in
  let pruned := omap (cleanupEntry windowStart) (rateLimitTracker w) in
  let valid := validAfter windowStart (entry (rateLimitTracker w) ip) in
  exists r w',
    checkRateLimit cfg request w = (Normal r, w')
    /\ allowed r = (length valid <? MAX_REQUESTS_PER_WINDOW cfg)%nat
    /\ count r = (if allowed r then S (length valid) else length valid)
    /\ rateLimitTracker w'
       = (if allowed r then <[ip := (valid ++ [clock w])%list]> pruned
          else pruned).
Proof.
  intros ip windowStart pruned valid.
  assert (Hvalid : validAfter windowStart (default [] (pruned !! ip)) = valid).
  { fold (entry pruned ip). unfold pruned.
    rewrite entry_cleanup. apply validAfter_idem. }
  unfold checkRateLimit, bind, dateNow, getTracker, putTracker, ret.
  cbn -[validAfter entry Nat.leb Nat.ltb].
  fold ip. fold windowStart. fold pruned. rewrite Hvalid.
  destruct (Nat.leb_spec (MAX_REQUESTS_PER_WINDOW cfg) (length valid))
    as [Hfull | Hroom];
    eexists _, _; (split; [reflexivity |]); cbn -[validAfter entry Nat.ltb].
  - destruct (Nat.ltb_spec (length valid) (MAX_REQUESTS_PER_WINDOW cfg)); [lia |].
    repeat split.
  - destruct (Nat.ltb_spec (length valid) (MAX_REQUESTS_PER_WINDOW cfg)); [| lia].
    rewrite length_app. cbn. repeat split. lia.
Qed.

(** X10.  After every check the tracker holds no empty entry and no
    timestamp that has left the window (each one is later than
    now - window, or is the instant of this very request); a refused
    request is not recorded: it only prunes, and the count it reports is
    the number of live timestamps of its address. *)
Theorem checkRateLimit_prunes (cfg : Config) (request : Request) (w : World) :
  exists r w',
    checkRateLimit cfg request w = (Normal r, w')
    /\ (forall ip timestamps,
          rateLimitTracker w' !! ip = Some timestamps ->
          timestamps <> []
          /\ Forall (fun ts => clock w - RATE_LIMIT_WINDOW cfg < ts
                               \/ ts = clock w) timestamps)
    /\ (allowed r = false ->
        rateLimitTracker w'
        = omap (cleanupEntry (clock w - RATE_LIMIT_WINDOW cfg)) (rateLimitTracker w)
        /\ count r
           = length (validAfter (clock w - RATE_LIMIT_WINDOW cfg)
                       (entry (rateLimitTracker w) (getClientIP request)))
        /\ (MAX_REQUESTS_PER_WINDOW cfg <= count r)%nat).
Proof.
  destruct (checkRateLimit_tracker cfg request w)
    as (r & w' & Hrun & Hallowed & Hcount & Htracker).
  exists r, w'. split; [exact Hrun |].
  set (windowStart := clock w - RATE_LIMIT_WINDOW cfg) in *.
  assert (Hpruned : forall ip timestamps,
             omap (cleanupEntry windowStart) (rateLimitTracker w) !! ip
             = Some timestamps ->
             timestamps <> []
             /\ Forall (fun ts => windowStart < ts \/ ts = clock w) timestamps).
  { intros ip timestamps Hlook. rewrite lookup_omap in Hlook.
    destruct (rateLimitTracker w !! ip) as [l |]; cbn in Hlook; [| discriminate].
    unfold cleanupEntry in Hlook.
    destruct (validAfter windowStart l) as [| ts rest] eqn:Hv; cbn in Hlook;
      [discriminate |].
    injection Hlook as <-. split; [discriminate |].
    rewrite <- Hv. eapply Forall_impl; [apply validAfter_Forall |].
    cbn. auto. }
  split.
  - intros ip timestamps Hlook. rewrite Htracker in Hlook.
    destruct (allowed r); [| exact (Hpruned _ _ Hlook)].
    destruct (decide (getClientIP request = ip)) as [<- | Hne].
    + rewrite lookup_insert_eq in Hlook. injection Hlook as <-.
      split; [now destruct (validAfter windowStart _) |].
      apply Forall_app. split.
      * eapply Forall_impl; [apply validAfter_Forall |]. cbn. auto.
      * constructor; [now right | constructor].
    + rewrite lookup_insert_ne in Hlook by assumption. exact (Hpruned _ _ Hlook).
  - intros Hrefused. rewrite Hrefused in *.
    split; [exact Htracker |]. split; [exact Hcount |].
    rewrite Hcount. symmetry in Hallowed. apply Nat.ltb_ge in Hallowed. exact Hallowed.
Qed.

(** X11.  Memory bound: in every state the worker reaches from an empty
    tracker, no address holds more timestamps than the limit. *)
Theorem tracker_stays_bounded (cfg : Config) (reqs : list (Request * Z))
    (w0 : World) (ip : string) :
  rateLimitTracker w0 = ∅ ->
  (length (entry (rateLimitTracker (snd (serve cfg reqs w0))) ip)
   <= MAX_REQUESTS_PER_WINDOW cfg)%nat.
Proof.
  intros Hfresh. apply serve_bounded. intros ip'. unfold entry.
  rewrite Hfresh, lookup_empty. cbn. lia.
Qed.

Lemma arrivingFrom_weaken lo lo' reqs :
  lo <= lo' -> arrivingFrom lo' reqs -> arrivingFrom lo reqs.
Proof. destruct reqs as [| [request t] rest]; cbn; [auto |]. intros ? [? ?]. split; [lia | auto]. Qed.

Lemma arrivingFrom_fromAddress ip : forall reqs lo,
  arrivingFrom lo reqs -> arrivingFrom lo (fromAddress ip reqs).
Proof.
  induction reqs as [| [request t] rest IH]; intros lo H; [exact H |].
  destruct H as [Hlo Hrest]. unfold fromAddress in *. cbn [List.filter fst].
  destruct (String.eqb (getClientIP request) ip).
  - split; [exact Hlo |]. now apply IH.
  - apply (arrivingFrom_weaken lo t); [exact Hlo |]. now apply IH.
Qed.

Lemma validAfter_later ws ws' (l : list Z) :
  ws' <= ws -> validAfter ws (validAfter ws' l) = validAfter ws l.
Proof.
  intros H. unfold validAfter. apply list_filter_filter_l. intros ts. lia.
Qed.

Lemma fromAddress_idem ip reqs :
  fromAddress ip (fromAddress ip reqs) = fromAddress ip reqs.
Proof.
  unfold fromAddress. induction reqs as [| [request t] rest IH]; [reflexivity |].
  cbn [List.filter fst].
  destruct (String.eqb (getClientIP request) ip) eqn:Heq; [| exact IH].
  cbn [List.filter fst]. rewrite Heq. now f_equal.
Qed.

(** The worker's answers to one address follow the sliding-window
    counter, from any list of counted timestamps that has the same live
    part as the tracked entry. *)
Lemma refusals_slidingWindow cfg ip : forall reqs w counted lo,
  arrivingFrom lo reqs ->
  (forall ws, lo - RATE_LIMIT_WINDOW cfg <= ws ->
     validAfter ws (entry (rateLimitTracker w) ip) = validAfter ws counted) ->
  refusals cfg ip reqs w
  = slidingWindow cfg counted (List.map snd (fromAddress ip reqs)).
Proof.
  induction reqs as [| [request t] rest IH]; intros w counted lo Harr Hsame;
    [reflexivity |].
  destruct Harr as [Hlo Hrest].
  destruct (handleRequest_entry cfg request (setClock t w))
    as (response & w2 & Hrun & Hmine & Hothers).
  change (clock (setClock t w)) with t in Hmine, Hothers.
  change (rateLimitTracker (setClock t w)) with (rateLimitTracker w)
    in Hmine, Hothers.
  cbn [refusals]. rewrite Hrun. unfold fromAddress. cbn [List.filter fst].
  destruct (String.eqb_spec (getClientIP request) ip) as [Heq | Hne].
  - rewrite Heq in Hmine. cbn [List.map snd slidingWindow].
    rewrite <- (Hsame (t - RATE_LIMIT_WINDOW cfg)) by lia.
    destruct (Nat.ltb_spec
                (length (validAfter (t - RATE_LIMIT_WINDOW cfg)
                           (entry (rateLimitTracker w) ip)))
                (MAX_REQUESTS_PER_WINDOW cfg)) as [Hroom | Hfull];
      destruct Hmine as [Hresp Hentry].
    + destruct (Z.eqb_spec (status response) 429); [contradiction |].
      f_equal. apply (IH w2 _ t Hrest). intros ws _. now rewrite Hentry.
    + rewrite Hresp. cbn [status tooManyRequests Z.eqb Pos.eqb].
      f_equal. apply (IH w2 _ t Hrest). intros ws _. now rewrite Hentry.
  - apply (IH w2 counted t Hrest). intros ws Hws.
    rewrite Hothers by congruence.
    rewrite validAfter_later by lia. apply Hsame. lia.
Qed.

(** X12.  Addresses do not share a quota: when requests arrive in the
    order of a clock that does not go back, the refusals the worker
    gives to the requests of one address are those of a sliding-window
    counter run on that address's own arrivals - so they are the same
    as if the requests of all other addresses had never been made. *)
Theorem addresses_are_independent (cfg : Config) (ip : string)
    (reqs : list (Request * Z)) (w : World) (lo : Z) :
  arrivingFrom lo reqs ->
  refusals cfg ip reqs w
  = slidingWindow cfg (entry (rateLimitTracker w) ip)
      (List.map snd (fromAddress ip reqs))
  /\ refusals cfg ip reqs w = refusals cfg ip (fromAddress ip reqs) w.
Proof.
  intros Harr.
  assert (Hall : refusals cfg ip reqs w
                 = slidingWindow cfg (entry (rateLimitTracker w) ip)
                     (List.map snd (fromAddress ip reqs)))
    by (apply (refusals_slidingWindow cfg ip reqs w _ lo); auto).
  split; [exact Hall |]. rewrite Hall.
  rewrite (refusals_slidingWindow cfg ip (fromAddress ip reqs) w
             (entry (rateLimitTracker w) ip) lo);
    [| now apply arrivingFrom_fromAddress | auto].
  now rewrite fromAddress_idem.
Qed.

(** ** The entry point, the registration route and the deferred deletion *)

Lemma handleWebhook_answer cfg request w :
  exists response w2,
    handleWebhook cfg request w = (Normal response, w2)
    /\ knownStatus (status response) = true
    /\ (status response = 500 ->
        exists update,
          jsonContentType request = true
          /\ req_json request = Some update
          /\ acceptedUpdate update = true
          /\ printable (field update "update_id") = false).
Proof.
  rewrite handleWebhook_cases.
  destruct (jsonContentType request); cbn [negb].
  2: { eexists _, _. repeat split. cbn. discriminate. }
  destruct (req_json request) as [update |].
  2: { eexists _, _. repeat split. cbn. discriminate. }
  destruct (acceptedUpdate update) eqn:Hacc; cbn [negb].
  2: { eexists _, _. repeat split. cbn. discriminate. }
  destruct (printable (field update "update_id")) eqn:Hid.
  - eexists _, _. repeat split. cbn. discriminate.
  - eexists _, _. repeat split. intros _. exists update. auto.
Qed.

Lemma handleRequest_status cfg request w :
  exists response w2,
    handleRequest cfg request w = (Normal response, w2)
    /\ knownStatus (status response) = true
    /\ (req_pathname request = "/webhook" -> req_method request = "POST" ->
        status response = 500 ->
        exists update,
          jsonContentType request = true
          /\ req_json request = Some update
          /\ acceptedUpdate update = true
          /\ printable (field update "update_id") = false).
Proof.
  destruct (checkRateLimit_spec cfg request w) as (r & w1 & Hcheck & _).
  unfold handleRequest, bind at 1. rewrite Hcheck.
  destruct (allowed r); cbn [negb].
  2: { eexists _, _. repeat split; cbn; auto. discriminate. }
  destruct (String.eqb_spec (req_pathname request) "/health") as [Hh | Hh];
    destruct (String.eqb_spec (req_method request) "GET") as [Hg | Hg];
    cbn [andb].
  1: { eexists _, _. repeat split; cbn; try reflexivity. congruence. }
  all: destruct (String.eqb_spec (req_pathname request) "/webhook") as [Hw | Hw];
    destruct (String.eqb_spec (req_method request) "POST") as [Hp | Hp];
    cbn [andb];
    try (destruct (handleWebhook_answer cfg request w1)
           as (response & w2 & Hrun & Hknown & Hfail);
         exists response, w2; auto; fail).
  all: destruct (String.eqb_spec (req_pathname request) "/setup") as [Hs | Hs];
    cbn [andb];
    try (destruct (setupWebhook_status cfg request w1)
           as (response & w2 & Hrun & [Hst | Hst]);
         rewrite Hrun; exists response, w2; rewrite Hst;
         repeat split; try reflexivity; congruence);
    try (eexists _, _; repeat split; cbn; try reflexivity; congruence).
Qed.

(** X13.  The entry point always answers: it never throws, its status
    is one of 200, 400, 404, 429 and 500; without a bot token (absent or
    empty) every request is answered 500 "Configuration Error" and
    nothing happens, not even rate-limit accounting; with a token a
    webhook delivery is answered 500 only when its body passes the
    checks of the intake and carries an update id that cannot be
    converted to a string. *)
Theorem worker_fetch_answers (cfg : Config) (env : Env) (request : Request)
    (w : World) :
  exists response w',
    worker_fetch cfg env request w = (Normal response, w')
    /\ knownStatus (status response) = true
    /\ (BOT_TOKEN env = None \/ BOT_TOKEN env = Some "" ->
        response = textResponse "Configuration Error" 500 /\ w' = w)
    /\ (forall token,
          BOT_TOKEN env = Some token -> token <> "" ->
          req_pathname request = "/webhook" -> req_method request = "POST" ->
          status response = 500 ->
          exists update,
            jsonContentType request = true
            /\ req_json request = Some update
            /\ acceptedUpdate update = true
            /\ printable (field update "update_id") = false).
Proof.
  unfold worker_fetch.
  destruct (BOT_TOKEN env) as [token |] eqn:Htoken.
  - destruct (String.eqb_spec token "") as [-> | Hne]; cbn [negb].
    + eexists _, _. split; [reflexivity |]. split; [reflexivity |].
      split; [auto |]. intros token Ht Hne. injection Ht as <-. contradiction.
    + destruct (handleRequest_status cfg request w)
        as (response & w2 & Hrun & Hknown & Hwebhook).
      exists response, w2. unfold try_catch. rewrite Hrun.
      split; [reflexivity |]. split; [exact Hknown |]. split.
      * intros [H | H]; [discriminate H | injection H as ->; contradiction].
      * intros token' _ _. exact Hwebhook.
  - cbn [negb]. eexists _, _. split; [reflexivity |]. split; [reflexivity |].
    split; [auto |]. intros token Ht. discriminate Ht.
Qed.

(** X14.  The registration route makes exactly one API call,
    [setWebhook], for the URL of this service's own /webhook path, and
    reports its outcome: 200 with success = true when the call returns
    anything but null, 500 with success = false when it returns null; it
    never throws. *)
Theorem setupWebhook_outcome (cfg : Config) (request : Request) (w : World) :
  exists result w1 response answer rest,
    makeApiRequest cfg "setWebhook" (webhookParams request) w
    = (Normal result, w1)
    /\ setupWebhook cfg request w = (Normal response, w1)
    /\ body response = BodyJson answer
    /\ trace w1
       = (trace w ++ EvFetch "setWebhook" (webhookParams request) 0 :: rest)%list
    /\ (forall method, apiCalls method rest = 0%nat)
    /\ field (webhookParams request) "url"
       = JStr (req_protocol request +:+ "//" +:+ req_host request +:+ "/webhook")
    /\ (if strict_eq result JNull
        then status response = 500 /\ field answer "success" = JBool false
        else status response = 200 /\ field answer "success" = JBool true).
Proof.
  destruct (makeApiRequest_shape cfg "setWebhook" (webhookParams request) w)
    as (result & w1 & rest & Hrun & Htr & Hcalls & _).
  unfold setupWebhook, try_catch, bind at 1.
  fold (webhookParams request). rewrite Hrun.
  unfold bind, dateNow, ret.
  destruct (strict_eq result JNull) eqn:Hnull; cbn [negb];
    eexists result, w1, _, _, rest; rewrite Hnull;
    repeat split; try eassumption; reflexivity.
Qed.

(** X15.  The deferred deletion of a warning first waits the whole
    delay, then requests the deletion of that message in that chat
    (one API call of [deleteMessage]), and ends normally whatever the
    outcome of the request; it leaves the cache alone. *)
Theorem scheduleMessageDeletion_runs (cfg : Config) (chatId messageId : JsVal)
    (delayMs : Z) (w : World) :
  exists w' rest,
    scheduleMessageDeletion cfg chatId messageId delayMs w = (Normal tt, w')
    /\ trace w'
       = (trace w ++ EvSleep delayMs
            :: EvFetch "deleteMessage" (deleteParams chatId messageId) 0
            :: rest)%list
    /\ (forall method, apiCalls method rest = 0%nat)
    /\ clock w + delayMs <= clock w'
    /\ chatInfoCache w' = chatInfoCache w.
Proof.
  destruct (makeApiRequest_shape cfg "deleteMessage"
              (deleteParams chatId messageId) (snd (sleep delayMs w)))
    as (v & w' & rest & Hrun & Htr & Hcalls & Hcache & Hclock).
  exists w', rest.
  unfold scheduleMessageDeletion, deleteWarningMessage, try_catch, bind.
  fold (deleteParams chatId messageId).
  assert (Htr' : trace w'
                 = (trace w ++ EvSleep delayMs
                      :: EvFetch "deleteMessage" (deleteParams chatId messageId) 0
                      :: rest)%list).
  { rewrite Htr. cbn [sleep snd trace]. now rewrite <- app_assoc. }
  cbn [sleep snd clock chatInfoCache] in Hcache, Hclock.
  set (ws := snd (sleep delayMs w)) in *.
  change (sleep delayMs w) with (@Normal unit tt, ws).
  cbv beta iota. rewrite Hrun. repeat split; assumption.
Qed.

(** X16.  An update that carries both a message and an edited message
    whose ids can be converted to strings has both handled, the message
    first, and [processUpdate] ends normally.  When the handling of the
    message throws (its id cannot be converted, and the log line of the
    handler of [handleMessage] throws), the edited message is not
    handled: [processUpdate] goes to its own handler, which substitutes
    the update id. *)
Theorem processUpdate_handles_both (cfg : Config) (update : JsVal) (w : World) :
  nullish update = false ->
  (printable (field (field update "message") "message_id") = true ->
   printable (field (field update "edited_message") "message_id") = true ->
   exists w1 w2,
     (if truthy (field update "message")
      then handleMessage cfg (field update "message") false w
      else (Normal tt, w)) = (Normal tt, w1)
     /\ (if truthy (field update "edited_message")
         then handleMessage cfg (field update "edited_message") true w1
         else (Normal tt, w1)) = (Normal tt, w2)
     /\ processUpdate cfg update w = (Normal tt, w2))
  /\ (forall e w1,
        truthy (field update "message") = true ->
        handleMessage cfg (field update "message") false w = (Throw e, w1) ->
        processUpdate cfg update w
        = (if printable (field update "update_id")
           then Normal tt else Throw TypeError, w1)).
Proof.
  intros Hu. split.
  - intros Hid1 Hid2.
    assert (Hrun : processUpdate cfg update w
                   = (let (c, w1) :=
                        (if truthy (field update "message")
                         then handleMessage cfg (field update "message") false
                         else ret tt) w in
                      (if truthy (field update "edited_message")
                       then handleMessage cfg (field update "edited_message") true
                       else ret tt) w1)).
    { unfold processUpdate, try_catch, bind at 1, get. rewrite Hu.
      unfold ret at 1, bind at 1.
      destruct (truthy (field update "message")).
      - destruct (handleMessage_returns cfg (field update "message") false w Hid1)
          as (w1 & ->).
        destruct (truthy (field update "edited_message")); [| reflexivity].
        destruct (handleMessage_returns cfg (field update "edited_message")
                    true w1 Hid2) as (w2 & ->).
        reflexivity.
      - unfold ret.
        destruct (truthy (field update "edited_message")); [| reflexivity].
        destruct (handleMessage_returns cfg (field update "edited_message")
                    true w Hid2) as (w2 & ->).
        reflexivity. }
    rewrite Hrun. unfold ret.
    destruct (truthy (field update "message")).
    + destruct (handleMessage_returns cfg (field update "message") false w Hid1)
        as (w1 & ->).
      destruct (truthy (field update "edited_message")).
      * destruct (handleMessage_returns cfg (field update "edited_message") true
                    w1 Hid2) as (w2 & H2).
        exists w1, w2. rewrite H2. auto.
      * exists w1, w1. auto.
    + destruct (truthy (field update "edited_message")).
      * destruct (handleMessage_returns cfg (field update "edited_message") true
                    w Hid2) as (w2 & H2).
        exists w, w2. rewrite H2. auto.
      * exists w, w. auto.
  - intros e w1 Hmsg Hthrow.
    unfold processUpdate, try_catch, bind at 1, get at 1. rewrite Hu.
    unfold ret at 1, bind at 1. rewrite Hmsg, Hthrow.
    unfold bind, get, ret, interpolate, throw. rewrite Hu.
    now destruct (printable (field update "update_id")).
Qed.

(** ** The further properties at concrete inputs *)

Lemma classification_external_iff_not_linked_witness :
  let message := forwardedReply (JNum (-1009)) in
  let info := JObj [("id", JNum (-1005)); ("linked_chat_id", JNum (-1009))] in
  isCrossChannel (classifyWith message info) = true
  /\ isExternal (classifyWith message info) = false
  /\ truthy (field (channelInfo (classifyWith message info)) "title") = true.
Proof.
  intros message info. split; [reflexivity |].
  exact (classification_external_iff_not_linked message info eq_refl).
Defined.

Lemma handleMessage_ignores_witness :
  let w0 := freshWorld offlineService 0 in
  privateMessage channelPost = false
  /\ moderatedMessage channelPost = false
  /\ printable (field channelPost "message_id") = true
  /\ handleMessage CONFIG channelPost false w0 = (Normal tt, w0).
Proof.
  intros w0. split; [reflexivity |]. split; [reflexivity |].
  split; [reflexivity |].
  exact (proj1 (proj2 (proj2 (handleMessage_ignores CONFIG channelPost false w0
                                eq_refl eq_refl))) eq_refl).
Defined.

Lemma handleMessage_moderates_witness :
  let message := externalReplyMessage (JNum (-100123)) in
  let w0 := freshWorld scenarioService 0 in
  moderatedMessage message = true
  /\ printable (field message "message_id") = true
  /\ printable (field (field message "chat") "id") = true
  /\ exists w2,
       handleMessage CONFIG message false w0 = (Normal tt, w2)
       /\ apiCalls "deleteMessage" (trace w2) = 1%nat
       /\ apiCalls "sendMessage" (trace w2) = 1%nat.
Proof.
  intros message w0. split; [reflexivity |]. split; [reflexivity |].
  split; [reflexivity |].
  destruct (proj2 (proj2 (handleMessage_moderates CONFIG message false w0 eq_refl))
              eq_refl eq_refl)
    as (info & w1 & w2 & looking & acting & Hget & Hrun & Hl & Ha & Hd & Hs
        & _ & Hblocked & _).
  exists w2. split; [exact Hrun |].
  vm_compute in Hget. injection Hget as <- <-.
  destruct (Hblocked eq_refl) as (rest & -> & Hd' & Hs').
  rewrite Ha, Hl, !apiCalls_app, !apiCalls_cons_fetch, Hd, Hs, Hd', Hs'.
  split; reflexivity.
Defined.

Lemma private_message_reply_witness :
  let w0 := freshWorld scenarioService 0 in
  privateMessage privateStart = true
  /\ isStartCommand (trim " /start ") = true
  /\ greetable privateStart = true
  /\ exists w' params rest,
       handleMessage CONFIG privateStart false w0 = (Normal tt, w')
       /\ trace w' = EvFetch "sendMessage" params 0 :: rest
       /\ field params "text" = JStr startMessage.
Proof.
  intros w0. split; [reflexivity |]. split; [reflexivity |].
  split; [reflexivity |].
  destruct (private_message_reply CONFIG privateStart false w0 eq_refl)
    as (c & w' & evs & Hrun & Htr & _ & _ & _ & _ & Hreply & _).
  destruct (Hreply " /start " eq_refl ltac:(discriminate) (fun _ => eq_refl))
    as (-> & params & rest & -> & _ & Htext).
  exists w', params, rest. split; [exact Hrun |]. split; [exact Htr |].
  exact Htext.
Defined.

Lemma getChatInfo_round_trip_witness :
  let chatId := JNum (-1005) in
  let w0 := freshWorld (linkedService (JNum (-1009))) 0 in
  let r := JObj [("id", JNum (-1005)); ("type", JStr "supergroup");
                 ("linked_chat_id", JNum (-1009))] in
  let w1 := snd (getChatInfo CONFIG chatId w0) in
  cacheMiss CONFIG (cacheKeyOf chatId) w0
  /\ getChatInfo CONFIG chatId w0 = (Normal r, w1)
  /\ getChatInfo CONFIG chatId (setClock 299999 w1)
     = (Normal r, setClock 299999 w1).
Proof.
  intros chatId w0 r w1.
  assert (Hmiss : cacheMiss CONFIG (cacheKeyOf chatId) w0) by (vm_compute; exact I).
  assert (Hget : getChatInfo CONFIG chatId w0 = (Normal r, w1))
    by (vm_compute; reflexivity).
  split; [exact Hmiss |]. split; [exact Hget |].
  apply (getChatInfo_round_trip CONFIG chatId w0 r w1 299999 Hmiss Hget eq_refl).
  cbn. lia.
Defined.

Lemma getChatInfo_separation_witness :
  let w0 := freshWorld (linkedService (JNum (-1009))) 0 in
  chatInfoCache (snd (getChatInfo CONFIG (JNum (-1005)) w0))
    !! cacheKeyOf (JNum (-1006))
  = chatInfoCache w0 !! cacheKeyOf (JNum (-1006)).
Proof.
  intros w0.
  apply (proj2 (getChatInfo_separation CONFIG (JNum (-1005)) w0)
           (-1005) (-1006) eq_refl).
  lia.
Defined.

Lemma cache_holds_truthy_metadata_witness :
  let w0 := freshWorld scenarioService 0 in
  let reqs := [(webhookRequest (Some scenarioUpdate), 5)] in
  cacheTruthy (chatInfoCache w0)
  /\ is_Some (chatInfoCache (snd (serve CONFIG reqs w0)) !! "chat_-1005")
  /\ cacheTruthy (chatInfoCache (snd (serve CONFIG reqs w0))).
Proof.
  intros w0 reqs.
  assert (Hempty : cacheTruthy (chatInfoCache w0)).
  { intros key cached H. cbn in H. rewrite lookup_empty in H. discriminate H. }
  split; [exact Hempty |]. split.
  - vm_compute. eexists. reflexivity.
  - exact (proj1 (cache_holds_truthy_metadata CONFIG) reqs w0 Hempty).
Defined.

Lemma checkRateLimit_prunes_witness :
  let ip := "203.0.113.7" in
  let w30 := snd (serve CONFIG (burst 30 ip 1000) (freshWorld offlineService 0)) in
  exists r w',
    checkRateLimit CONFIG (requestFrom ip "/health") (setClock 2000 w30)
    = (Normal r, w')
    /\ allowed r = false
    /\ count r = 30%nat
    /\ rateLimitTracker w' !! ip = Some (replicate 30 1000).
Proof.
  intros ip w30.
  destruct (checkRateLimit_prunes CONFIG (requestFrom ip "/health")
              (setClock 2000 w30)) as (r & w' & Hrun & _ & Hrefused).
  exists r, w'. split; [exact Hrun |].
  assert (Hallowed : allowed r = false).
  { vm_compute in Hrun. now injection Hrun as <- _. }
  destruct (Hrefused Hallowed) as (Htracker & Hcount & _).
  split; [exact Hallowed |]. split.
  - rewrite Hcount. vm_compute. reflexivity.
  - rewrite Htracker. vm_compute. reflexivity.
Defined.

Lemma tracker_stays_bounded_witness :
  let ip := "203.0.113.7" in
  let w0 := freshWorld offlineService 0 in
  rateLimitTracker w0 = ∅
  /\ (length (entry (rateLimitTracker (snd (serve CONFIG (burst 31 ip 1000) w0))) ip)
      <= 30)%nat.
Proof.
  intros ip w0. split; [reflexivity |].
  exact (tracker_stays_bounded CONFIG (burst 31 ip 1000) w0 ip eq_refl).
Defined.

Lemma addresses_are_independent_witness :
  let reqs := [(requestFrom "198.51.100.1" "/health", 1);
               (requestFrom "198.51.100.2" "/health", 2);
               (requestFrom "198.51.100.1" "/nowhere", 3)] in
  let w0 := freshWorld offlineService 0 in
  arrivingFrom 0 reqs
  /\ refusals CONFIG "198.51.100.1" reqs w0 = [false; false]
  /\ refusals CONFIG "198.51.100.1" reqs w0
     = refusals CONFIG "198.51.100.1" (fromAddress "198.51.100.1" reqs) w0.
Proof.
  intros reqs w0.
  assert (Harr : arrivingFrom 0 reqs) by (cbn; lia).
  split; [exact Harr |].
  destruct (addresses_are_independent CONFIG "198.51.100.1" reqs w0 0 Harr)
    as [Hwindow Hsame].
  split; [rewrite Hwindow; reflexivity | exact Hsame].
Defined.

Lemma worker_fetch_answers_witness :
  let w0 := freshWorld scenarioService 0 in
  let request :=
    webhookRequest (Some (JObj [("update_id", JObj [("toString", JNum 1)]);
                                ("message", plainMessage)])) in
  worker_fetch CONFIG {| BOT_TOKEN := None |} request w0
  = (Normal (textResponse "Configuration Error" 500), w0)
  /\ exists response w' update,
       worker_fetch CONFIG {| BOT_TOKEN := Some "123:abc" |} request w0
       = (Normal response, w')
       /\ status response = 500
       /\ req_json request = Some update
       /\ printable (field update "update_id") = false.
Proof.
  intros w0 request. split.
  - destruct (worker_fetch_answers CONFIG {| BOT_TOKEN := None |} request w0)
      as (response & w' & Hrun & _ & Hnone & _).
    destruct (Hnone (or_introl eq_refl)) as [-> ->]. exact Hrun.
  - destruct (worker_fetch_answers CONFIG {| BOT_TOKEN := Some "123:abc" |}
                request w0) as (response & w' & Hrun & _ & _ & Hwebhook).
    assert (Hstatus : status response = 500).
    { vm_compute in Hrun. now injection Hrun as <- _. }
    destruct (Hwebhook "123:abc" eq_refl ltac:(discriminate) eq_refl eq_refl
                Hstatus) as (update & _ & Hbody & _ & Hid).
    exists response, w', update. auto.
Defined.

Lemma processUpdate_handles_both_witness :
  let update := JObj [("update_id", JNum 1003);
                      ("message", plainMessage);
                      ("edited_message", externalReplyMessage (JNum (-100123)))] in
  let w0 := freshWorld scenarioService 0 in
  nullish update = false
  /\ printable (field (field update "message") "message_id") = true
  /\ printable (field (field update "edited_message") "message_id") = true
  /\ exists w2,
       processUpdate CONFIG update w0 = (Normal tt, w2)
       /\ apiCalls "getChat" (trace w2) = 1%nat
       /\ apiCalls "deleteMessage" (trace w2) = 1%nat.
Proof.
  intros update w0. split; [reflexivity |]. split; [reflexivity |].
  split; [reflexivity |].
  destruct (proj1 (processUpdate_handles_both CONFIG update w0 eq_refl)
              eq_refl eq_refl)
    as (w1 & w2 & _ & _ & Hrun).
  exists w2. split; [exact Hrun |].
  vm_compute in Hrun. injection Hrun as <-. split; reflexivity.
Defined.
